(** * doc-mcp: the two-stage documentation ingestion pipeline

    A shallow embedding of the repository locator ([src/github/parser.py]),
    the file loader ([src/github/file_loader.py]), the progress renderer
    ([src/ui/components/common.py]), the progress type ([src/core/types.py])
    and the two pipeline stages of the ingestion tab
    ([src/ui/tabs/ingestion.py]), with the properties of the pipeline's
    specification stated and proved over them.  The store submission
    ([src/rag/ingestion.py]) and the file discovery of the tab are embedded
    as well, and the last part holds further properties read off the code.

    Python values are modelled as follows.  A [str] is a [string]; a character
    is one byte, so the text-level functions agree with Python on ASCII input.
    An [int] is a [Z].  A [float] is the rational it denotes ([Q]); infinities
    and NaN are outside the model.  A [dict] with string keys is a
    [gmap string pyval].  A raised exception is the [Raise] case of [result].
    Calls of the logger have no bearing on what a function returns or raises
    and are left out. *)

From stdpp Require Import gmap strings list pretty.
From Stdlib Require Import Ascii QArith.

Open Scope Z_scope.

(** ** Exceptions and fallible computations *)

Inductive exn : Type :=
| GitHubError (msg : string)
| ValueError (msg : string)
| TypeError (msg : string)
| ZeroDivisionError (msg : string)
| ValidationError (msg : string)
| IngestionError (msg : string).

(** [str(e)]: the message the exception was built with. *)
Definition exn_str (e : exn) : string :=
  match e with
  | GitHubError m | ValueError m | TypeError m
  | ZeroDivisionError m | ValidationError m | IngestionError m => m
  end.

Inductive result (A : Type) : Type :=
| Ok (a : A)
| Raise (e : exn).
Arguments Ok {A} a.
Arguments Raise {A} e.

(** Sequencing: the first exception raised ends the computation.  The
    [x ← r; k] notation is stdpp's. *)
#[global] Instance result_ret : MRet result := fun A a => Ok a.
#[global] Instance result_bind : MBind result := fun A B k r =>
  match r with
  | Ok a => k a
  | Raise e => Raise e
  end.

Definition raises {A : Type} (r : result A) : Prop :=
  match r with Ok _ => False | Raise _ => True end.

Definition returns {A : Type} (r : result A) : Prop :=
  match r with Ok _ => True | Raise _ => False end.

(** ** The [str] methods the code uses *)

Module PyStr.

Definition slash : ascii := "/"%char.
Definition dot : ascii := "."%char.

(** [c in chars] for a one-character [c]. *)
Fixpoint mem (c : ascii) (chars : string) : bool :=
  match chars with
  | EmptyString => false
  | String d rest => Ascii.eqb c d || mem c rest
  end.

(** [str.isspace] on ASCII: TAB, LF, VT, FF, CR, FS, GS, RS, US and space. *)
Definition isspace (c : ascii) : bool :=
  let n := nat_of_ascii c in
  ((9 <=? n)%nat && (n <=? 13)%nat) || ((28 <=? n)%nat && (n <=? 32)%nat).

Fixpoint lstrip (strippable : ascii -> bool) (s : string) : string :=
  match s with
  | EmptyString => EmptyString
  | String c rest => if strippable c then lstrip strippable rest else s
  end.

Fixpoint rstrip (strippable : ascii -> bool) (s : string) : string :=
  match s with
  | EmptyString => EmptyString
  | String c rest =>
      match rstrip strippable rest with
      | EmptyString => if strippable c then EmptyString else String c EmptyString
      | r => String c r
      end
  end.

Definition strip_with (strippable : ascii -> bool) (s : string) : string :=
  rstrip strippable (lstrip strippable s).

(** [s.strip()] *)
Definition strip (s : string) : string := strip_with isspace s.

(** [s.strip(chars)] and [s.rstrip(chars)] *)
Definition strip_chars (chars s : string) : string :=
  strip_with (fun c => mem c chars) s.
Definition rstrip_chars (chars s : string) : string :=
  rstrip (fun c => mem c chars) s.

(** [s.startswith(p)] *)
Definition startswith (p s : string) : bool := String.prefix p s.

(** [sub in s] *)
Fixpoint contains (sub s : string) : bool :=
  match s with
  | EmptyString => String.prefix sub EmptyString
  | String _ rest => String.prefix sub s || contains sub rest
  end.

(** [s.split(sep)] for a one-character separator. *)
Fixpoint split (sep : ascii) (s : string) : list string :=
  match s with
  | EmptyString => [EmptyString]
  | String c rest =>
      if Ascii.eqb c sep then EmptyString :: split sep rest
      else match split sep rest with
           | w :: ws => String c w :: ws
           | [] => [String c EmptyString]
           end
  end.

(** [sep.join(parts)] *)
Fixpoint join (sep : string) (parts : list string) : string :=
  match parts with
  | [] => EmptyString
  | [w] => w
  | w :: ws => w +:+ sep +:+ join sep ws
  end.

(** [s[n:]] and [s[:n]] *)
Fixpoint drop (n : nat) (s : string) : string :=
  match n, s with
  | O, _ => s
  | S _, EmptyString => EmptyString
  | S k, String _ rest => drop k rest
  end.

Fixpoint take (n : nat) (s : string) : string :=
  match n, s with
  | O, _ => EmptyString
  | S _, EmptyString => EmptyString
  | S k, String c rest => String c (take k rest)
  end.

(** [s.replace(old, new)] for a non-empty [old]: the occurrences are replaced
    from the left and do not overlap; [skip] counts the characters of a
    replaced occurrence still to pass over. *)
Fixpoint replace_from (old new : string) (skip : nat) (s : string) : string :=
  match s with
  | EmptyString => EmptyString
  | String c rest =>
      match skip with
      | S k => replace_from old new k rest
      | O =>
          if String.prefix old s
          then new +:+ replace_from old new (String.length old - 1) rest
          else String c (replace_from old new 0 rest)
      end
  end.

Definition replace (old new s : string) : string := replace_from old new 0 s.

(** [s * n]: the empty string when [n <= 0]. *)
Fixpoint repeat_nat (s : string) (n : nat) : string :=
  match n with
  | O => EmptyString
  | S k => s +:+ repeat_nat s k
  end.

Definition repeat (s : string) (n : Z) : string := repeat_nat s (Z.to_nat n).

(** [s.find(c)] for a one-character [c]: [None] stands for [-1]. *)
Fixpoint find (c : ascii) (s : string) : option nat :=
  match s with
  | EmptyString => None
  | String d rest =>
      if Ascii.eqb c d then Some O else S <$> find c rest
  end.

(** [s.rfind(c)] *)
Fixpoint rfind (c : ascii) (s : string) : option nat :=
  match s with
  | EmptyString => None
  | String d rest =>
      match rfind c rest with
      | Some i => Some (S i)
      | None => if Ascii.eqb c d then Some O else None
      end
  end.

(** [s.lower()] on ASCII. *)
Definition lower_char (c : ascii) : ascii :=
  let n := nat_of_ascii c in
  if (65 <=? n)%nat && (n <=? 90)%nat then ascii_of_nat (n + 32) else c.

Fixpoint lower (s : string) : string :=
  match s with
  | EmptyString => EmptyString
  | String c rest => String (lower_char c) (lower rest)
  end.

Fixpoint forallb (p : ascii -> bool) (s : string) : bool :=
  match s with
  | EmptyString => true
  | String c rest => p c && forallb p rest
  end.

Fixpoint filter (p : ascii -> bool) (s : string) : string :=
  match s with
  | EmptyString => EmptyString
  | String c rest => if p c then String c (filter p rest) else filter p rest
  end.

(** [s[0]] and [s[-1]], when there is one. *)
Definition first_char (s : string) : option ascii :=
  match s with
  | EmptyString => None
  | String c _ => Some c
  end.

Fixpoint last_char (s : string) : option ascii :=
  match s with
  | EmptyString => None
  | String c EmptyString => Some c
  | String _ rest => last_char rest
  end.

End PyStr.

(** ** [urllib.parse.urlparse]

    The standard library's URL splitter, as far as [parse_github_url] depends
    on it: the scheme, the network location after [//], the fragment, the
    query and the parameters are cut off in that order, and what is left is
    the path.  A network location with an unmatched square bracket raises
    [ValueError]. *)

Module UrlLib.

Record ParseResult : Type := {
  scheme : string;
  netloc : string;
  path : string;
  params : string;
  query : string;
  fragment : string
}.

Definition is_ascii_alpha (c : ascii) : bool :=
  let n := nat_of_ascii c in
  ((65 <=? n)%nat && (n <=? 90)%nat) || ((97 <=? n)%nat && (n <=? 122)%nat).

Definition is_ascii_digit (c : ascii) : bool :=
  let n := nat_of_ascii c in (48 <=? n)%nat && (n <=? 57)%nat.

Definition scheme_char (c : ascii) : bool :=
  is_ascii_alpha c || is_ascii_digit c || PyStr.mem c "+-.".

(** The C0 control characters and the space, stripped from the left. *)
Definition c0_control_or_space (c : ascii) : bool := (nat_of_ascii c <=? 32)%nat.

(** TAB, CR and LF are removed wherever they stand. *)
Definition unsafe_url_byte (c : ascii) : bool :=
  let n := nat_of_ascii c in
  (n =? 9)%nat || (n =? 10)%nat || (n =? 13)%nat.

(** [url[:i].lower(), url[i+1:]] when a scheme stands before the first colon. *)
Definition split_scheme (url : string) : string * string :=
  match PyStr.find ":"%char url, url with
  | Some (S i), String c0 _ =>
      if is_ascii_alpha c0 && PyStr.forallb scheme_char (PyStr.take (S i) url)
      then (PyStr.lower (PyStr.take (S i) url), PyStr.drop (S (S i)) url)
      else (EmptyString, url)
  | _, _ => (EmptyString, url)
  end.

(** The text before the first character that satisfies [stop], and the rest. *)
Fixpoint span_until (stop : ascii -> bool) (s : string) : string * string :=
  match s with
  | EmptyString => (EmptyString, EmptyString)
  | String c rest =>
      if stop c then (EmptyString, s)
      else let '(a, b) := span_until stop rest in (String c a, b)
  end.

(** [s.split(c, 1)] when [c] occurs in [s]. *)
Definition cut_at (c : ascii) (s : string) : string * string :=
  match PyStr.find c s with
  | Some i => (PyStr.take i s, PyStr.drop (S i) s)
  | None => (s, EmptyString)
  end.

Definition uses_params : list string :=
  [""; "ftp"; "hdl"; "prospero"; "http"; "imap"; "https"; "shttp"; "rtsp";
   "rtspu"; "sip"; "sips"; "mms"; "sftp"; "tel"].

Definition splitparams (url : string) : string * string :=
  match PyStr.rfind PyStr.slash url with
  | Some j =>
      match PyStr.find ";"%char (PyStr.drop j url) with
      | Some k => (PyStr.take (j + k) url, PyStr.drop (S (j + k)) url)
      | None => (url, EmptyString)
      end
  | None => cut_at ";"%char url
  end.

Definition urlparse (url : string) : result ParseResult :=
  let url := PyStr.lstrip c0_control_or_space url in
  let url := PyStr.filter (fun c => negb (unsafe_url_byte c)) url in
  let '(sch, url) := split_scheme url in
  '(loc, url) ←
    (if PyStr.startswith "//" url then
       let '(loc, rest) :=
         span_until (fun c => PyStr.mem c "/?#") (PyStr.drop 2 url) in
       let opens := PyStr.mem "["%char loc in
       let closes := PyStr.mem "]"%char loc in
       if (opens && negb closes) || (closes && negb opens)
       then Raise (ValueError "Invalid IPv6 URL")
       else Ok (loc, rest)
     else Ok (EmptyString, url));
  let '(url, frag) := cut_at "#"%char url in
  let '(url, qry) := cut_at "?"%char url in
  let '(url, prm) :=
    if bool_decide (sch ∈ uses_params) && PyStr.mem ";"%char url
    then splitparams url else (url, EmptyString) in
  Ok {| scheme := sch; netloc := loc; path := url;
        params := prm; query := qry; fragment := frag |}.

End UrlLib.

(** ** Repository locator: [src/github/parser.py] *)

Module Parser.

Definition parse_github_url (url : string) : result (string * string) :=
  if String.eqb url "" || String.eqb (PyStr.strip url) "" then
    Raise (GitHubError "Empty URL provided")
  else
    let url := PyStr.rstrip_chars "/" (PyStr.strip url) in
    let url :=
      if PyStr.startswith "https://github.com" url
         || PyStr.startswith "github.com" url
      then url else "https://github.com/" +:+ url in
    parsed_url ← UrlLib.urlparse url;
    let path_parts :=
      PyStr.split PyStr.slash (PyStr.strip_chars "/" (UrlLib.path parsed_url)) in
    match path_parts with
    | [owner; repo] => Ok (owner, repo)
    | _ => Raise (GitHubError ("Invalid GitHub URL format: " +:+ url))
    end.

Definition build_github_api_url (owner repo path branch : string) : string :=
  let base_url := "https://api.github.com/repos/" +:+ owner +:+ "/" +:+ repo in
  if negb (String.eqb path "") then
    base_url +:+ "/contents/" +:+ PyStr.strip_chars "/" path +:+ "?ref=" +:+ branch
  else
    base_url +:+ "/git/trees/" +:+ branch +:+ "?recursive=1".

Definition build_github_web_url (owner repo path branch : string) : string :=
  let base_url := "https://github.com/" +:+ owner +:+ "/" +:+ repo in
  if negb (String.eqb path "") then
    base_url +:+ "/blob/" +:+ branch +:+ "/" +:+ path
  else
    base_url +:+ "/tree/" +:+ branch.

(** Only [GitHubError] is caught; any other exception propagates. *)
Definition is_valid_github_repo_format (repo_string : string) : result bool :=
  match parse_github_url repo_string with
  | Ok _ => Ok true
  | Raise (GitHubError _) => Ok false
  | Raise e => Raise e
  end.

End Parser.

(** ** Data model: [src/core/types.py] *)

Record GitHubFileInfo : Type := {
  fi_path : string;
  fi_name : string;
  fi_sha : string;
  fi_size : Z;
  fi_url : string;
  fi_download_url : string;
  fi_type : string;
  fi_encoding : string;
  fi_content : string
}.

Record DocumentMetadata : Type := {
  md_file_path : string;
  md_file_name : string;
  md_file_extension : string;
  md_directory : string;
  md_repo : string;
  md_branch : string;
  md_sha : string;
  md_size : Z;
  md_url : string;
  md_raw_url : string;
  md_type : string
}.

(** The LlamaIndex [Document] the loader builds: text, identifier, metadata. *)
Record Document : Type := {
  doc_text : string;
  doc_id : string;
  doc_metadata : DocumentMetadata
}.

Inductive ProcessingStatus : Type :=
| PENDING | LOADING | LOADED | VECTORIZING | COMPLETE | ERROR.

(** [ProcessingStatus.X.value] *)
Definition status_value (s : ProcessingStatus) : string :=
  match s with
  | PENDING => "pending"
  | LOADING => "loading"
  | LOADED => "loaded"
  | VECTORIZING => "vectorizing"
  | COMPLETE => "complete"
  | ERROR => "error"
  end.

(** ** Effects

    What a stage does to the outside is recorded in a [world]: the file
    retrievals issued so far (oldest first), the number of [time.time()]
    readings taken, and the document batches handed to the store.  An [io]
    computation threads the world and may raise; the effects made before an
    exception stay made. *)

Record world : Type := {
  requests : list string;
  time_reads : nat;
  submissions : list (list Document * string)
}.

Definition fresh_world : world :=
  {| requests := []; time_reads := 0; submissions := [] |}.

Definition io (A : Type) : Type := world -> result A * world.

#[global] Instance io_ret : MRet io := fun A a w => (Ok a, w).
#[global] Instance io_bind : MBind io := fun A B k m w =>
  match m w with
  | (Ok a, w') => k a w'
  | (Raise e, w') => (Raise e, w')
  end.

Definition io_raise {A : Type} (e : exn) : io A := fun w => (Raise e, w).

Definition lift {A : Type} (r : result A) : io A := fun w => (r, w).

(** [try: m  except Exception as e: h e] *)
Definition try_except {A : Type} (m : io A) (h : exn -> io A) : io A :=
  fun w =>
    match m w with
    | (Ok a, w') => (Ok a, w')
    | (Raise e, w') => h e w'
    end.

Definition log_request (path : string) : io unit := fun w =>
  (Ok tt, {| requests := requests w ++ [path];
             time_reads := time_reads w;
             submissions := submissions w |}).

Definition log_submission (docs : list Document) (repo_name : string) : io unit :=
  fun w =>
    (Ok tt, {| requests := requests w;
               time_reads := time_reads w;
               submissions := submissions w ++ [(docs, repo_name)] |}).

(** ** File loader: [src/github/file_loader.py] *)

Module FileLoader.

(** [create_document_from_file_info]: the web URL is derived on a best-effort
    basis; whatever exception the repository parser raises is swallowed and
    the [url] of the fetched file is used in its place. *)
Definition create_document_from_file_info
    (file_info : GitHubFileInfo) (repo_name branch : string) : Document :=
  let web_url :=
    match Parser.parse_github_url repo_name with
    | Ok (owner, repo) =>
        Parser.build_github_web_url owner repo (fi_path file_info) branch
    | Raise _ => fi_url file_info
    end in
  let metadata :=
    {| md_file_path := fi_path file_info;
       md_file_name := fi_name file_info;
       md_file_extension :=
         if PyStr.contains "." (fi_path file_info)
         then default EmptyString (last (PyStr.split PyStr.dot (fi_path file_info)))
         else EmptyString;
       md_directory :=
         if PyStr.contains "/" (fi_path file_info)
         then PyStr.join "/"
                (removelast (PyStr.split PyStr.slash (fi_path file_info)))
         else EmptyString;
       md_repo := repo_name;
       md_branch := branch;
       md_sha := fi_sha file_info;
       md_size := fi_size file_info;
       md_url := web_url;
       md_raw_url := fi_download_url file_info;
       md_type := fi_type file_info |} in
  {| doc_text := fi_content file_info;
     doc_id := repo_name +:+ ":" +:+ branch +:+ ":" +:+ fi_path file_info;
     doc_metadata := metadata |}.

(** The body of the conversion loop: a document that is built is appended to
    [documents]; when building it raises, the path of the file is appended to
    [failed_paths]. *)
Definition convert_one (assemble : GitHubFileInfo -> result Document)
    (acc : list Document * list string) (file_info : GitHubFileInfo)
    : list Document * list string :=
  match assemble file_info with
  | Ok document => (acc.1 ++ [document], acc.2)
  | Raise _ => (acc.1, acc.2 ++ [fi_path file_info])
  end.

Definition convert_all (assemble : GitHubFileInfo -> result Document)
    (file_infos : list GitHubFileInfo) (failed_paths : list string)
    : list Document * list string :=
  foldl (convert_one assemble) ([], failed_paths) file_infos.

(** The paths the produced documents stand for. *)
Definition document_paths (documents : list Document) : list string :=
  (fun d => md_file_path (doc_metadata d)) <$> documents.

Section Loader.

(** File content retrieval, the external collaborator behind the client:
    given the repository, a path and the branch it returns the file with its
    metadata, or fails. *)
Variable fetch_file : string -> string -> string -> result GitHubFileInfo.

(** Modelled from the spec: [github_client.get_multiple_files] of
    [src/github/client.py], which is not part of the sources.  Every path is
    requested once; a retrieved file joins the files, the path of a failed
    retrieval joins the failed paths, and no failure ends the batch.  The
    outcome is listed in the order of the paths; how the retrievals overlap
    in time is the subject of [Fetcher] below. *)
Fixpoint get_multiple_files (repo_url : string) (file_paths : list string)
    (branch : string) (max_concurrent : Z)
    : io (list GitHubFileInfo * list string) :=
  match file_paths with
  | [] => mret ([], [])
  | p :: rest =>
      _ ← log_request p;
      '(files, failed) ← get_multiple_files repo_url rest branch max_concurrent;
      match fetch_file repo_url p branch with
      | Ok file_info => mret (file_info :: files, failed)
      | Raise _ => mret (files, p :: failed)
      end
  end.

Definition load_files_from_github (repo_url : string) (file_paths : list string)
    (branch : string) (max_concurrent : Z)
    : io (list Document * list string) :=
  match file_paths with
  | [] => mret ([], [])
  | _ =>
      match Parser.parse_github_url repo_url with
      | Raise e => io_raise (GitHubError ("Invalid repository URL: " +:+ exn_str e))
      | Ok (owner, repo) =>
          let repo_name := owner +:+ "/" +:+ repo in
          '(file_infos, failed_paths) ←
            get_multiple_files repo_url file_paths branch max_concurrent;
          mret (convert_all
                  (fun file_info =>
                     Ok (create_document_from_file_info file_info repo_name branch))
                  file_infos failed_paths)
      end
  end.

End Loader.

End FileLoader.

(** ** Remote file fetcher: the overlap of retrievals in time

    Modelled from the spec: the scheduling inside
    [github_client.get_multiple_files] of [src/github/client.py], which is not
    part of the sources.  The spec's words are: at most [maxConcurrent]
    requests are in flight at any time, the remaining requests queue until a
    slot frees, and completions come in no particular order.  A state holds
    the queue, the requests in flight and the outcome gathered so far. *)

Module Fetcher.

Record state : Type := {
  pending : list string;
  in_flight : list string;
  files : list GitHubFileInfo;
  failed_paths : list string
}.

Definition start (file_paths : list string) : state :=
  {| pending := file_paths; in_flight := []; files := []; failed_paths := [] |}.

Definition finished (s : state) : Prop := pending s = [] /\ in_flight s = [].

(** What is left to do: every step of a call makes it smaller. *)
Definition remaining (s : state) : nat :=
  (2 * length (pending s) + length (in_flight s))%nat.

Section Scheduler.

Variable fetch_file : string -> string -> string -> result GitHubFileInfo.
Variables repo_url branch : string.
Variable max_concurrent : Z.

Inductive step : state -> state -> Prop :=
| step_dispatch p queue flying fs fd :
    Z.of_nat (length flying) < max_concurrent ->
    step {| pending := p :: queue; in_flight := flying;
            files := fs; failed_paths := fd |}
         {| pending := queue; in_flight := flying ++ [p];
            files := fs; failed_paths := fd |}
| step_retrieved p queue before after fs fd file_info :
    fetch_file repo_url p branch = Ok file_info ->
    step {| pending := queue; in_flight := before ++ p :: after;
            files := fs; failed_paths := fd |}
         {| pending := queue; in_flight := before ++ after;
            files := fs ++ [file_info]; failed_paths := fd |}
| step_failed p queue before after fs fd e :
    fetch_file repo_url p branch = Raise e ->
    step {| pending := queue; in_flight := before ++ p :: after;
            files := fs; failed_paths := fd |}
         {| pending := queue; in_flight := before ++ after;
            files := fs; failed_paths := fd ++ [p] |}.

(** The states a call on [file_paths] can be in. *)
Definition reachable (file_paths : list string) (s : state) : Prop :=
  rtc step (start file_paths) s.

(** What the retrievals of a list of paths yield, in the order of the list. *)
Definition retrieved (paths : list string) : list GitHubFileInfo :=
  omap (fun p => match fetch_file repo_url p branch with
                 | Ok file_info => Some file_info
                 | Raise _ => None
                 end) paths.

Definition not_retrieved (paths : list string) : list string :=
  List.filter (fun p => match fetch_file repo_url p branch with
                        | Ok _ => false
                        | Raise _ => true
                        end) paths.

End Scheduler.

End Fetcher.

(** ** Python values held in a progress dictionary

    The lists a snapshot carries are the loaded documents and the failed
    paths, so a list value is one of the two. *)

Inductive pyval : Type :=
| VNone
| VBool (b : bool)
| VInt (n : Z)
| VFloat (q : Q)
| VStr (s : string)
| VDocs (documents : list Document)
| VStrs (items : list string).

Abbreviation pydict := (gmap string pyval).

Module Py.

(** [d.get(key, default)] *)
Definition get (d : pydict) (key : string) (dflt : pyval) : pyval :=
  default dflt (d !! key).

(** [key in d] *)
Definition has_key (d : pydict) (key : string) : bool :=
  match d !! key with Some _ => true | None => false end.

(** The value the first entry with the key holds: what a dictionary display
    [{k1: v1, ...}] with distinct keys gives for a key. *)
Fixpoint assoc (key : string) (entries : list (string * pyval)) : option pyval :=
  match entries with
  | [] => None
  | (k, v) :: rest => if String.eqb key k then Some v else assoc key rest
  end.

(** [not d] for a dictionary. *)
Definition dict_is_empty (d : pydict) : bool :=
  match map_to_list d with [] => true | _ => false end.

(** Truth value of an object: [None], [False], zero, the empty string and the
    empty list are false. *)
Definition truthy (v : pyval) : bool :=
  match v with
  | VNone => false
  | VBool b => b
  | VInt n => negb (n =? 0)
  | VFloat q => negb (Qeq_bool q 0)
  | VStr s => negb (String.eqb s "")
  | VDocs documents => match documents with [] => false | _ => true end
  | VStrs items => match items with [] => false | _ => true end
  end.

(** [v == s] for a string [s]. *)
Definition eq_str (v : pyval) (s : string) : bool :=
  match v with
  | VStr t => String.eqb t s
  | _ => false
  end.

(** The rational a number denotes; [bool] is a subclass of [int]. *)
Definition as_number (v : pyval) : option Q :=
  match v with
  | VInt n => Some (inject_Z n)
  | VFloat q => Some q
  | VBool b => Some (inject_Z (if b then 1 else 0))
  | _ => None
  end.

Definition is_float (v : pyval) : bool :=
  match v with VFloat _ => true | _ => false end.

(** [a / b], true division. *)
Definition true_div (a b : pyval) : result Q :=
  match as_number a, as_number b with
  | Some x, Some y =>
      if Qeq_bool y 0 then
        Raise (ZeroDivisionError
                 (if is_float a || is_float b then "float division by zero"
                  else "division by zero"))
      else Ok (x / y)%Q
  | _, _ => Raise (TypeError "unsupported operand type(s) for /")
  end.

(** [v > 0] *)
Definition gt_zero (v : pyval) : result bool :=
  match as_number v with
  | Some x => Ok (negb (Qle_bool x 0))
  | None => Raise (TypeError "'>' not supported between these instances")
  end.

(** [int(x)] on a float: the fraction is dropped, towards zero. *)
Definition int_of (x : Q) : Z := Z.quot (Qnum x) (Zpos (Qden x)).

(** Rounding to the nearest integer, ties to the even one. *)
Definition round_half_even (x : Q) : Z :=
  let n := Qnum x in
  let d := Zpos (Qden x) in
  let fl := n / d in
  let r := n mod d in
  match 2 * r ?= d with
  | Lt => fl
  | Gt => fl + 1
  | Eq => if Z.even fl then fl else fl + 1
  end.

(** One digit after the point: the [.1f] presentation of a number. *)
Definition fixed1 (x : Q) : string :=
  let t := round_half_even (x * inject_Z 10)%Q in
  let sign := if Qle_bool 0 x then "" else "-" in
  sign +:+ pretty (Z.abs t / 10) +:+ "." +:+ pretty (Z.abs t mod 10).

(** [f"{v:.1f}"] *)
Definition format_1f (v : pyval) : result string :=
  match as_number v with
  | Some x => Ok (fixed1 x)
  | None =>
      match v with
      | VStr _ => Raise (ValueError "Unknown format code 'f' for object of type 'str'")
      | _ => Raise (TypeError "unsupported format string passed to __format__")
      end
  end.

(** A comma before every group of three digits, counted from the right;
    [digits] is given most significant digit first. *)
Fixpoint group_from_right (rev_digits : list ascii) (k : nat) : list ascii :=
  match rev_digits with
  | [] => []
  | c :: rest =>
      match k, rest with
      | 2%nat, _ :: _ => c :: ","%char :: group_from_right rest 0
      | _, _ => c :: group_from_right rest (S k)
      end
  end.

Definition group_thousands (digits : string) : string :=
  String.string_of_list_ascii
    (rev (group_from_right (rev (String.list_ascii_of_string digits)) 0)).

Definition grouped_int (n : Z) : string :=
  (if n <? 0 then "-" else "") +:+ group_thousands (pretty (Z.abs n)).

End Py.

(** ** Progress rendering: [src/ui/components/common.py] *)

Module Display.

Definition nl : string := String (ascii_of_nat 10) EmptyString.

Definition rule : string := "━━━━━━━━━━━━━━━━━━━━━━━━━━━━━━━━━━━━━━━━".

Definition ready_message : string :=
  "🚀 Ready to start ingestion..." +:+ nl +:+ nl +:+
  "📋 **Two-Step Process:**" +:+ nl +:+
  "1️⃣ Load files from GitHub repository" +:+ nl +:+
  "2️⃣ Generate embeddings and store in vector database".

(** [status_emoji.get(status, "🔄")]: a list cannot be hashed. *)
Definition status_emoji (status : pyval) : result string :=
  match status with
  | VDocs _ | VStrs _ => Raise (TypeError "unhashable type: 'list'")
  | VStr "loading" => Ok "⏳"
  | VStr "loaded" => Ok "✅"
  | VStr "vectorizing" => Ok "🧠"
  | VStr "complete" => Ok "🎉"
  | VStr "error" => Ok "❌"
  | _ => Ok "🔄"
  end.

Section Render.

(** [str()] of a float and of a list, and the [,] presentation of a float:
    the interpreter's own renderings, taken as given. *)
Variable obj_str : pyval -> string.
Variable float_grouped : Q -> string.

(** [f"{v}"] *)
Definition py_str (v : pyval) : string :=
  match v with
  | VStr s => s
  | VInt n => pretty n
  | VBool b => if b then "True" else "False"
  | VNone => "None"
  | _ => obj_str v
  end.

(** [f"{v:,}"] *)
Definition format_grouped (v : pyval) : result string :=
  match v with
  | VInt n => Ok (Py.grouped_int n)
  | VBool b => Ok (if b then "1" else "0")
  | VFloat q => Ok (float_grouped q)
  | VStr _ => Raise (ValueError "Cannot specify ',' with 's'.")
  | _ => Raise (TypeError "unsupported format string passed to __format__")
  end.

(** [len(v) if isinstance(v, list) else v], as it is printed. *)
Definition count_or_self (v : pyval) : string :=
  match v with
  | VDocs documents => pretty (Z.of_nat (length documents))
  | VStrs items => pretty (Z.of_nat (length items))
  | _ => py_str v
  end.

(** [f"{error[:300]}{'...' if len(error) > 300 else ''}"] *)
Definition truncated_error (error : pyval) : result string :=
  match error with
  | VStr s =>
      Ok (PyStr.take 300 s +:+
          (if (300 <? String.length s)%nat then "..." else ""))
  | VDocs documents =>
      Ok (obj_str (VDocs (take 300 documents)) +:+
          (if (300 <? length documents)%nat then "..." else ""))
  | VStrs items =>
      Ok (obj_str (VStrs (take 300 items)) +:+
          (if (300 <? length items)%nat then "..." else ""))
  | _ => Raise (TypeError "object is not subscriptable")
  end.

Definition file_loading_section (progress_state : pydict) : result string :=
  let processed := Py.get progress_state "processed_files" (VInt 0) in
  let total := Py.get progress_state "total_files" (VInt 0) in
  let successful := Py.get progress_state "successful_files" (VInt 0) in
  let failed := Py.get progress_state "failed_files" (VInt 0) in
  positive ← Py.gt_zero total;
  if positive : bool then
    Ok ("📁 **File Processing Status:**" +:+ nl +:+
        "   • Total files: " +:+ py_str total +:+ nl +:+
        "   • Processed: " +:+ py_str processed +:+ "/" +:+ py_str total +:+ nl +:+
        "   • ✅ Successful: " +:+ py_str successful +:+ nl +:+
        "   • ❌ Failed: " +:+ py_str failed +:+ nl +:+
        (if Py.has_key progress_state "current_batch"
            && Py.has_key progress_state "total_batches"
         then "   • 📦 Current batch: " +:+
              py_str (Py.get progress_state "current_batch" VNone) +:+ "/" +:+
              py_str (Py.get progress_state "total_batches" VNone) +:+ nl
         else "") +:+
        nl)
  else Ok "".

Definition vector_ingestion_section (progress_state : pydict) (phase : pyval)
    : result string :=
  let docs_count := Py.get progress_state "documents_count" (VInt 0) in
  let repo_name := Py.get progress_state "repo_name" (VStr "Unknown") in
  positive ← Py.gt_zero docs_count;
  if positive : bool then
    count ← format_grouped docs_count;
    Ok ("🧠 **Vector Processing Status:**" +:+ nl +:+
        "   • Repository: " +:+ py_str repo_name +:+ nl +:+
        "   • Documents: " +:+ count +:+ nl +:+
        "   • Stage: " +:+ py_str phase +:+ nl +:+ nl)
  else Ok "".

Definition complete_summary (progress_state : pydict) : result string :=
  let total_time := Py.get progress_state "total_time" (VInt 0) in
  let docs_processed := Py.get progress_state "documents_processed" (VInt 0) in
  let failed_files := Py.get progress_state "failed_files" (VInt 0) in
  let vector_time := Py.get progress_state "vector_time" (VInt 0) in
  let loading_time := Py.get progress_state "loading_time" (VInt 0) in
  let repo_name := Py.get progress_state "repo_name" (VStr "Unknown") in
  docs ← format_grouped docs_processed;
  total ← Py.format_1f total_time;
  loading ← Py.format_1f loading_time;
  vector ← Py.format_1f vector_time;
  rate ← Py.true_div docs_processed total_time;
  Ok (nl +:+ "🎊 **INGESTION COMPLETED SUCCESSFULLY!**" +:+ nl +:+
      rule +:+ nl +:+
      "🎯 **Repository:** " +:+ py_str repo_name +:+ nl +:+
      "📄 **Documents processed:** " +:+ docs +:+ nl +:+
      "❌ **Failed files:** " +:+ count_or_self failed_files +:+ nl +:+
      "⏱️ **Total time:** " +:+ total +:+ " seconds" +:+ nl +:+
      "   ├─ File loading: " +:+ loading +:+ "s" +:+ nl +:+
      "   └─ Vector processing: " +:+ vector +:+ "s" +:+ nl +:+
      "📊 **Processing rate:** " +:+ Py.fixed1 rate +:+ " docs/second" +:+ nl +:+ nl +:+
      "🚀 **Next Step:** Go to the 'Query Interface' tab to start asking questions!").

Definition error_summary (progress_state : pydict) : result string :=
  let error := Py.get progress_state "error" (VStr "Unknown error") in
  shown ← truncated_error error;
  Ok (nl +:+ "💥 **ERROR OCCURRED**" +:+ nl +:+
      rule +:+ nl +:+
      "❌ **Error Details:** " +:+ shown +:+ nl +:+
      nl +:+ "🔧 **Troubleshooting Tips:**" +:+ nl +:+
      "   • Check your GitHub token permissions" +:+ nl +:+
      "   • Verify repository URL format" +:+ nl +:+
      "   • Ensure selected files exist" +:+ nl +:+
      "   • Check network connectivity" +:+ nl).

Definition format_progress_display (progress_state : pydict) : result string :=
  if Py.dict_is_empty progress_state then Ok ready_message
  else
    let status := Py.get progress_state "status" (VStr "unknown") in
    let message := Py.get progress_state "message" (VStr "") in
    let progress := Py.get progress_state "progress" (VInt 0) in
    let phase := Py.get progress_state "phase" (VStr "") in
    let details := Py.get progress_state "details" (VStr "") in
    scaled ← Py.true_div progress (VFloat (5 # 2));
    let filled := Py.int_of scaled in
    let progress_bar := PyStr.repeat "█" filled +:+ PyStr.repeat "░" (40 - filled) in
    emoji ← status_emoji status;
    percent ← Py.format_1f progress;
    let output :=
      emoji +:+ " **" +:+ py_str message +:+ "**" +:+ nl +:+ nl +:+
      "📊 **Current Phase:** " +:+ py_str phase +:+ nl +:+
      "📈 **Progress:** " +:+ percent +:+ "%" +:+ nl +:+
      "[" +:+ progress_bar +:+ "] " +:+ percent +:+ "%" +:+ nl +:+ nl in
    let step := Py.get progress_state "step" VNone in
    step_section ←
      (if Py.eq_str step "file_loading" then file_loading_section progress_state
       else if Py.eq_str step "vector_ingestion"
            then vector_ingestion_section progress_state phase
            else Ok "");
    let output :=
      output +:+ step_section +:+
      "📝 **Details:**" +:+ nl +:+ py_str details +:+ nl in
    if Py.eq_str status "complete" then
      summary ← complete_summary progress_state;
      Ok (output +:+ summary)
    else if Py.eq_str status "error" then
      summary ← error_summary progress_state;
      Ok (output +:+ summary)
    else Ok output.

End Render.

End Display.

(** ** The typed progress record: [ProgressState] of [src/core/types.py] *)

Record ProgressState : Type := {
  ps_status : ProcessingStatus;
  ps_message : string;
  ps_progress : Q;
  ps_phase : string;
  ps_details : string;
  ps_step : string;
  ps_total_files : Z;
  ps_processed_files : Z;
  ps_successful_files : Z;
  ps_failed_files : Z;
  ps_error : option string;
  ps_repository_updated : bool
}.

(** The check behind [progress: float = Field(ge=0, le=100)]: a value outside
    the bounds is refused when the record is built. *)
Definition validate_progress (progress : Q) : result Q :=
  if Qle_bool 0 progress && Qle_bool progress (inject_Z 100) then Ok progress
  else Raise (ValidationError "progress: ensure this value is within [0, 100]").

(** [ProgressState(status=..., message=..., progress=...)], the other fields
    at their defaults. *)
Definition new_ProgressState (status : ProcessingStatus) (message : string)
    (progress : Q) : result ProgressState :=
  checked ← validate_progress progress;
  Ok {| ps_status := status; ps_message := message; ps_progress := checked;
        ps_phase := ""; ps_details := ""; ps_step := "";
        ps_total_files := 0; ps_processed_files := 0;
        ps_successful_files := 0; ps_failed_files := 0;
        ps_error := None; ps_repository_updated := false |}.

(** ** The collaborators of the pipeline

    What the two stages consume through narrow interfaces: file retrieval,
    the set-up of the ingestion pipeline object, the vector store, the index
    built from the documents, the repository metadata update, the successive
    readings of the clock, and the interpreter's renderings of floats and
    lists. *)

Record collaborators : Type := {
  fetch_file : string -> string -> string -> result GitHubFileInfo;
  pipeline_init : result unit;
  get_vector_store : result unit;
  index_from_documents : list Document -> result unit;
  update_repository_info : string -> Z -> string -> result unit;
  clock : nat -> Q;
  obj_str : pyval -> string;
  float_grouped : Q -> string
}.

(** [time.time()]: the next reading of the clock. *)
Definition time_time (env : collaborators) : io Q := fun w =>
  (Ok (clock env (time_reads w)),
   {| requests := requests w;
      time_reads := S (time_reads w);
      submissions := submissions w |}).

(** ** Store submission: [src/rag/ingestion.py] *)

Module Ingestion.

Section Pipeline.

Variable env : collaborators.

(** [DocumentIngestionPipeline.ingest_documents]; no progress callback is
    installed by the caller, so the reports are no-ops. *)
Definition ingest_documents (documents : list Document) (repo_name branch : string)
    : io bool :=
  match documents with
  | [] => mret false
  | _ =>
      start_time ← time_time env;
      let total_docs := Z.of_nat (length documents) in
      try_except
        (_ ← lift (get_vector_store env);
         _ ← time_time env;
         _ ← log_submission documents repo_name;
         _ ← lift (index_from_documents env documents);
         _ ← time_time env;
         _ ← lift (update_repository_info env repo_name total_docs branch);
         mret true)
        (fun e =>
           _ ← time_time env;
           io_raise (IngestionError ("Document ingestion failed: " +:+ exn_str e)))
  end.

Definition ingest_documents_async (documents : list Document) (repo_name : string)
    : io bool :=
  _ ← lift (pipeline_init env);
  ingest_documents documents repo_name "main".

End Pipeline.

End Ingestion.

(** ** The ingestion tab: [src/ui/tabs/ingestion.py] *)

Module IngestionTab.

(** [{k1: v1, ...}] *)
Definition dict (entries : list (string * pyval)) : pydict := list_to_map entries.

(** What stage 1 hands to the interface at a [yield]: the progress
    dictionary, its rendering and whether the step-2 button is enabled. *)
Definition update : Type := pydict * string * bool.

(** An asynchronous generator: it may raise, and whatever it has yielded
    before stays yielded. *)
Definition gen (A : Type) : Type := world -> result A * list update * world.

#[global] Instance gen_ret : MRet gen := fun A a w => (Ok a, [], w).
#[global] Instance gen_bind : MBind gen := fun A B k m w =>
  match m w with
  | (Ok a, ys, w') =>
      match k a w' with
      | (r, ys', w'') => (r, ys ++ ys', w'')
      end
  | (Raise e, ys, w') => (Raise e, ys, w')
  end.

Definition yield (u : update) : gen unit := fun w => (Ok tt, [u], w).

Definition await {A : Type} (m : io A) : gen A := fun w =>
  match m w with (r, w') => (r, [], w') end.

Definition gen_try_except {A : Type} (m : gen A) (h : exn -> gen A) : gen A :=
  fun w =>
    match m w with
    | (Ok a, ys, w') => (Ok a, ys, w')
    | (Raise e, ys, w') =>
        match h e w' with
        | (r, ys', w'') => (r, ys ++ ys', w'')
        end
    end.

Section Stages.

Variable env : collaborators.

Definition format_progress_display (progress_state : pydict) : result string :=
  Display.format_progress_display (obj_str env) (float_grouped env) progress_state.

(** [yield (progress, format_progress_display(progress), gr.Button(interactive=b))] *)
Definition yield_progress (progress : pydict) (interactive : bool) : gen unit :=
  text ← await (lift (format_progress_display progress));
  yield (progress, text, interactive).

Definition int_of_len {A : Type} (l : list A) : Z := Z.of_nat (length l).

Definition no_files_selected : pydict :=
  dict [("status", VStr (status_value ERROR));
        ("message", VStr "❌ No files selected for loading");
        ("progress", VInt 0);
        ("details", VStr "Please select at least one file to proceed.");
        ("step", VStr "file_loading")].

Definition invalid_repository_url : pydict :=
  dict [("status", VStr (status_value ERROR));
        ("message", VStr "❌ Invalid repository URL format");
        ("progress", VInt 0);
        ("details",
         VStr "Expected format: owner/repo or https://github.com/owner/repo");
        ("step", VStr "file_loading")].

Definition initial_progress (repo_name : string) (total_files : Z) : pydict :=
  dict [("status", VStr (status_value LOADING));
        ("message", VStr ("🚀 Starting file loading from " +:+ repo_name));
        ("progress", VInt 0);
        ("total_files", VInt total_files);
        ("processed_files", VInt 0);
        ("successful_files", VInt 0);
        ("failed_files", VInt 0);
        ("phase", VStr "File Loading");
        ("details",
         VStr ("Preparing to load " +:+ pretty total_files +:+ " files..."));
        ("step", VStr "file_loading");
        ("repo_name", VStr repo_name)].

Definition completion_details (documents : list Document)
    (failed_files : list string) (loading_time : Q) : string :=
  let loaded := int_of_len documents in
  let failed := int_of_len failed_files in
  if 0 <? loaded + failed then
    "🎯 Final Results:" +:+ Display.nl +:+
    "✅ Successfully loaded: " +:+ pretty loaded +:+ " documents" +:+ Display.nl +:+
    "❌ Failed files: " +:+ pretty failed +:+ Display.nl +:+
    "⏱️ Total time: " +:+ Py.fixed1 loading_time +:+ "s" +:+ Display.nl +:+
    "📊 Success rate: " +:+
    Py.fixed1 (inject_Z loaded / inject_Z (loaded + failed) * inject_Z 100)%Q +:+ "%"
  else "100%".

Definition completion_progress (repo_name : string) (total_files : Z)
    (documents : list Document) (failed_files : list string) (loading_time : Q)
    : pydict :=
  dict [("status", VStr (status_value LOADED));
        ("message",
         VStr ("✅ File Loading Complete! Loaded " +:+
               pretty (int_of_len documents) +:+ " documents"));
        ("progress", VInt 100);
        ("phase", VStr "Files Loaded Successfully");
        ("details", VStr (completion_details documents failed_files loading_time));
        ("step", VStr "file_loading_complete");
        ("loaded_documents", VDocs documents);
        ("failed_files", VStrs failed_files);
        ("loading_time", VFloat loading_time);
        ("repo_name", VStr repo_name);
        ("total_files", VInt total_files);
        ("processed_files", VInt total_files);
        ("successful_files", VInt (int_of_len documents))].

Definition loading_error_progress (e : exn) (total_time : Q) : pydict :=
  dict [("status", VStr (status_value ERROR));
        ("message",
         VStr ("❌ File loading error after " +:+ Py.fixed1 total_time +:+ "s"));
        ("progress", VInt 0);
        ("phase", VStr "Loading Failed");
        ("details",
         VStr ("Critical error during file loading:" +:+ Display.nl +:+ exn_str e));
        ("error", VStr (exn_str e));
        ("step", VStr "file_loading")].

(** The repository name shown in the snapshots; [None] when the URL names
    [github.com] and nothing with a slash is left of it. *)
Definition displayed_repo_name (repo_url : string) : option string :=
  if PyStr.contains "github.com" repo_url then
    let repo_name :=
      PyStr.strip_chars "/"
        (PyStr.replace "http://github.com/" ""
           (PyStr.replace "https://github.com/" "" repo_url)) in
    if negb (PyStr.contains "/" repo_name) then None else Some repo_name
  else Some (PyStr.strip repo_url).

(** Stage 1.  The log lines and the half-second pause after the first update
    leave no trace in what is yielded or returned, and are left out. *)
Definition _start_file_loading_generator (repo_url : string)
    (selected_files : list string) (current_progress : pydict) : gen unit :=
  match selected_files with
  | [] => yield_progress no_files_selected false
  | _ =>
      let total_files := int_of_len selected_files in
      start_time ← await (time_time env);
      match displayed_repo_name repo_url with
      | None => yield_progress invalid_repository_url false
      | Some repo_name =>
          gen_try_except
            (_ ← yield_progress (initial_progress repo_name total_files) false;
             '(documents, failed_files) ←
               await (FileLoader.load_files_from_github (fetch_file env)
                        repo_url selected_files "main" 10);
             now ← await (time_time env);
             let loading_time := (now - start_time)%Q in
             yield_progress
               (completion_progress repo_name total_files
                  documents failed_files loading_time)
               true)
            (fun e =>
               now ← await (time_time env);
               let total_time := (now - start_time)%Q in
               yield_progress (loading_error_progress e total_time) false)
      end
  end.

(** Stage 2. *)

Definition not_loaded_error : pydict :=
  dict [("status", VStr (status_value ERROR));
        ("message", VStr "❌ No documents to process");
        ("progress", VInt 0);
        ("details", VStr "Please load files first.")].

Definition no_documents_error : pydict :=
  dict [("status", VStr (status_value ERROR));
        ("message", VStr "❌ No documents available");
        ("progress", VInt 0);
        ("details", VStr "No documents found to process.")].

Definition ingestion_failed : pydict :=
  dict [("status", VStr (status_value ERROR));
        ("message", VStr "❌ Vector ingestion failed");
        ("progress", VInt 0);
        ("details", VStr "Document ingestion failed")].

(** [len(x) if isinstance(x, list) else (x if isinstance(x, int) else 0)] *)
Definition failed_files_count (failed_files_data : pyval) : pyval :=
  match failed_files_data with
  | VDocs documents => VInt (int_of_len documents)
  | VStrs items => VInt (int_of_len items)
  | VInt n => VInt n
  | VBool b => VBool b
  | _ => VInt 0
  end.

(** The loaded documents as the list the store is given.  A value that is
    not a list of documents makes the body of the [try] fail. *)
Definition as_documents (v : pyval) : result (list Document) :=
  match v with
  | VDocs documents => Ok documents
  | _ => Raise (TypeError "loaded_documents is not a list of documents")
  end.

(** [loading_time + vector_time], the right operand a float. *)
Definition add_float (a : pyval) (b : Q) : result Q :=
  match Py.as_number a with
  | Some x => Ok (x + b)%Q
  | None => Raise (TypeError "unsupported operand type(s) for +")
  end.

Definition complete_progress (documents : list Document) (repo_name : pyval)
    (failed_files_data : pyval) (total_time vector_time : Q) (loading_time : pyval)
    : pydict :=
  dict [("status", VStr (status_value COMPLETE));
        ("message", VStr "🎉 Complete Processing Pipeline Finished!");
        ("progress", VInt 100);
        ("phase", VStr "Complete");
        ("details",
         VStr ("Successfully processed " +:+ pretty (int_of_len documents) +:+
               " documents for " +:+ Display.py_str (obj_str env) repo_name));
        ("step", VStr "complete");
        ("total_time", VFloat total_time);
        ("documents_processed", VInt (int_of_len documents));
        ("failed_files_count", failed_files_count failed_files_data);
        ("failed_files", failed_files_data);
        ("vector_time", VFloat vector_time);
        ("loading_time", loading_time);
        ("repo_name", repo_name);
        ("repository_updated", VBool true)].

Definition vector_error_progress (e : exn) (failed_files_data : pyval) : pydict :=
  dict [("status", VStr (status_value ERROR));
        ("message", VStr "❌ Vector Store Ingestion Failed");
        ("progress", VInt 0);
        ("phase", VStr "Failed");
        ("details", VStr ("Error: " +:+ exn_str e));
        ("error", VStr (exn_str e));
        ("step", VStr "vector_ingestion");
        ("failed_files_count", failed_files_count failed_files_data);
        ("failed_files", failed_files_data)].

(** [return progress, format_progress_display(progress)] *)
Definition return_progress (progress : pydict) : io (pydict * string) :=
  text ← lift (format_progress_display progress);
  mret (progress, text).

Definition _start_vector_ingestion (current_progress : pydict)
    : io (pydict * string) :=
  if negb (Py.eq_str (Py.get current_progress "step" VNone) "file_loading_complete")
  then return_progress not_loaded_error
  else
    let documents := Py.get current_progress "loaded_documents" (VDocs []) in
    let repo_name := Py.get current_progress "repo_name" (VStr "") in
    if negb (Py.truthy documents) then return_progress no_documents_error
    else
      vector_start_time ← time_time env;
      try_except
        (docs ← lift (as_documents documents);
         success ←
           Ingestion.ingest_documents_async env docs
             (Display.py_str (obj_str env) repo_name);
         now ← time_time env;
         let vector_time := (now - vector_start_time)%Q in
         let loading_time := Py.get current_progress "loading_time" (VInt 0) in
         total_time ← lift (add_float loading_time vector_time);
         if success : bool then
           let failed_files_data :=
             Py.get current_progress "failed_files" (VStrs []) in
           return_progress
             (complete_progress docs repo_name failed_files_data
                total_time vector_time loading_time)
         else return_progress ingestion_failed)
        (fun e =>
           _ ← time_time env;
           let failed_files_data :=
             Py.get current_progress "failed_files" (VStrs []) in
           return_progress (vector_error_progress e failed_files_data)).

(** Stage 2 goes on to the store exactly when stage 1 has completed and has
    left at least one document: the two tests it opens with. *)
Definition ready_for_stage2 (current_progress : pydict) : bool :=
  Py.eq_str (Py.get current_progress "step" VNone) "file_loading_complete"
  && Py.truthy (Py.get current_progress "loaded_documents" (VDocs [])).

(** [_refresh_progress] and [_reset_progress] *)
Definition _refresh_progress (current_progress : pydict) : result string :=
  format_progress_display current_progress.

Definition _reset_progress : update :=
  (∅, "Ready to start two-step processing...", false).

(** The wiring of [create_tab]: what the interface holds, and what a click
    does to it.  Stage 1 writes the progress state, the display and the
    step-2 button at every [yield]; stage 2 writes the progress state and the
    display; a handler that raises writes nothing. *)

Record tab_state : Type := {
  progress_state : pydict;
  progress_display : string;
  step2_interactive : bool
}.

Definition initial_tab : tab_state :=
  {| progress_state := ∅;
     progress_display :=
       "🚀 Ready to start two-step processing..." +:+ Display.nl +:+ Display.nl +:+
       "📋 Steps:" +:+ Display.nl +:+
       "1️⃣ Load files from GitHub repository" +:+ Display.nl +:+
       "2️⃣ Generate embeddings and store in vector database";
     step2_interactive := false |}.

Inductive click : Type :=
| Step1 (repo_url : string) (selected_files : list string)
| Step2
| Refresh
| Reset.

Definition shown (u : update) : tab_state :=
  {| progress_state := u.1.1; progress_display := u.1.2; step2_interactive := u.2 |}.

(** The states the interface passes through on one click, oldest first. *)
Definition on_click (c : click) (st : tab_state) (w : world)
    : list tab_state * world :=
  match c with
  | Step1 repo_url selected_files =>
      match _start_file_loading_generator repo_url selected_files
              (progress_state st) w with
      | (_, updates, w') => (shown <$> updates, w')
      end
  | Step2 =>
      match _start_vector_ingestion (progress_state st) w with
      | (Ok (progress, text), w') =>
          ([{| progress_state := progress; progress_display := text;
               step2_interactive := step2_interactive st |}], w')
      | (Raise _, w') => ([], w')
      end
  | Refresh =>
      match _refresh_progress (progress_state st) with
      | Ok text =>
          ([{| progress_state := progress_state st; progress_display := text;
               step2_interactive := step2_interactive st |}], w)
      | Raise _ => ([], w)
      end
  | Reset => ([shown _reset_progress], w)
  end.

(** All the states passed through on a sequence of clicks. *)
Fixpoint on_clicks (cs : list click) (st : tab_state) (w : world)
    : list tab_state :=
  match cs with
  | [] => []
  | c :: rest =>
      match on_click c st w with
      | (states, w') => states ++ on_clicks rest (List.last states st) w'
      end
  end.

End Stages.

(** The progress a snapshot holds, as the rendering reads it, is on the
    scale. *)
Definition progress_in_range (d : pydict) : Prop :=
  exists n, Py.get d "progress" (VInt 0) = VInt n /\ 0 <= n <= 100.

(** Every update a generator yields, from whatever world it starts, holds a
    dictionary with the property. *)
Definition yields_only (P : pydict -> Prop) {A : Type} (m : gen A) : Prop :=
  forall w, Forall (fun u : update => P u.1.1) (m w).1.2.

(** Whatever a computation returns has the property. *)
Definition io_post {A : Type} (Q : A -> Prop) (m : io A) : Prop :=
  forall w, match (m w).1 with Ok a => Q a | Raise _ => True end.

End IngestionTab.

(** ** Sample inputs *)

Module Samples.

Definition readme : GitHubFileInfo :=
  {| fi_path := "README.md"; fi_name := "README.md"; fi_sha := "3b18e512";
     fi_size := 12;
     fi_url := "https://api.github.com/repos/owner/repo/contents/README.md?ref=main";
     fi_download_url := "https://raw.githubusercontent.com/owner/repo/main/README.md";
     fi_type := "file"; fi_encoding := "base64"; fi_content := "# Read me" |}.

(** A transport that has [README.md] and nothing else. *)
Definition only_readme (repo_url path branch : string) : result GitHubFileInfo :=
  if String.eqb path "README.md" then Ok readme
  else Raise (GitHubError ("404 Not Found: " +:+ path)).

Definition quiet_env : collaborators :=
  {| fetch_file := only_readme;
     pipeline_init := Ok tt;
     get_vector_store := Ok tt;
     index_from_documents := fun _ => Ok tt;
     update_repository_info := fun _ _ _ => Ok tt;
     clock := fun n => inject_Z (Z.of_nat n);
     obj_str := fun _ => "<object>";
     float_grouped := fun q => Py.fixed1 q |}.

(** A snapshot with a progress value beyond the scale. *)
Definition overshoot : pydict := IngestionTab.dict [("progress", VInt 150)].

(** A completed run that took no time at all. *)
Definition finished_at_once : pydict :=
  IngestionTab.dict [("status", VStr "complete");
                     ("total_time", VInt 0);
                     ("documents_processed", VInt 3)].

(** Whether a rendering came out and has the fragment in it. *)
Definition shows (fragment : string) (rendering : result string) : bool :=
  match rendering with
  | Ok text => PyStr.contains fragment text
  | Raise _ => false
  end.

(** A selection of two paths, of which the transport has the first. *)
Definition two_paths : list string := ["README.md"; "docs/missing.md"].

Definition readme_document : Document :=
  FileLoader.create_document_from_file_info readme "owner/repo" "main".

(** The world after stage 1 has read the clock once and asked for both. *)
Definition after_load : world :=
  {| requests := two_paths; time_reads := 1; submissions := [] |}.

(** A fetched file at a given path. *)
Definition file_at (path : string) : GitHubFileInfo :=
  {| fi_path := path; fi_name := path; fi_sha := "0"; fi_size := 0;
     fi_url := "https://api.github.com/repos/owner/repo/contents/" +:+ path;
     fi_download_url := "https://raw.githubusercontent.com/owner/repo/main/" +:+ path;
     fi_type := "file"; fi_encoding := "base64"; fi_content := "" |}.

(** Collaborators whose clock stands still. *)
Definition frozen_env : collaborators :=
  {| fetch_file := only_readme;
     pipeline_init := Ok tt;
     get_vector_store := Ok tt;
     index_from_documents := fun _ => Ok tt;
     update_repository_info := fun _ _ _ => Ok tt;
     clock := fun _ => 0%Q;
     obj_str := fun _ => "<object>";
     float_grouped := fun q => Py.fixed1 q |}.

(** A completed stage 1 that took no time. *)
Definition loaded_in_no_time : pydict :=
  IngestionTab.completion_progress "owner/repo" 1 [readme_document] [] 0%Q.

Definition numbered_paths (count : nat) : list string :=
  (fun i => "docs/page" +:+ pretty (Z.of_nat i) +:+ ".md") <$> seq 0 count.

End Samples.

(** ** File discovery: [discover_repository_files] of
    [src/github/file_loader.py] and the handlers of the tab that offer and
    select the files *)

Module Discovery.

(** What a handler sets of a [gr.CheckboxGroup]; a property it does not give
    is [None]. *)
Record CheckboxGroup : Type := {
  cg_choices : option (list string);
  cg_label : option string;
  cg_visible : option bool;
  cg_interactive : option bool;
  cg_value : option (list string)
}.

(** [create_file_selector] of [src/ui/components/common.py] *)
Definition create_file_selector (choices : option (list string)) (label : string)
    (visible : bool) : CheckboxGroup :=
  let choices := match choices with None => [] | Some given => given end in
  {| cg_choices := Some choices; cg_label := Some label;
     cg_visible := Some visible; cg_interactive := Some true;
     cg_value := None |}.

(** [gr.CheckboxGroup(value=v)] *)
Definition selection (value : list string) : CheckboxGroup :=
  {| cg_choices := None; cg_label := None; cg_visible := None;
     cg_interactive := None; cg_value := Some value |}.

Section Handlers.

(** The listing of the repository tree, [github_client.get_repository_tree]:
    the external collaborator behind the discovery.  It is given the
    repository, the branch and the extensions, and returns the paths found
    and a status message, or fails. *)
Variable get_repository_tree :
  string -> string -> list string -> result (list string * string).

Definition discover_repository_files (repo_url branch : string)
    (file_extensions : option (list string)) : list string * string :=
  let file_extensions :=
    match file_extensions with
    | None => [".md"; ".mdx"]
    | Some given => given
    end in
  match get_repository_tree repo_url branch file_extensions with
  | Ok found => found
  | Raise e => ([], "Error: " +:+ exn_str e)
  end.

(** [_discover_files]: the selector, the status text, the files state and
    whether the step-1 button is enabled.  Nothing in the [try] of the
    handler raises, the discovery having caught what the listing raised, so
    its [except] branch has no part in what is returned. *)
Definition _discover_files (repo_url : string)
    : CheckboxGroup * string * list string * bool :=
  if String.eqb (PyStr.strip repo_url) "" then
    (create_file_selector None "Select Files" false,
     "Please enter a repository URL", [], false)
  else
    let '(files, message) := discover_repository_files repo_url "main" None in
    match files with
    | _ :: _ =>
        (create_file_selector (Some files)
           ("Select Files from " +:+ repo_url +:+ " (" +:+
            pretty (Z.of_nat (length files)) +:+ " files)")
           true,
         message, files, true)
    | [] => (create_file_selector None "Select Files" false, message, [], false)
    end.

Definition _select_all_files (available_files : list string) : CheckboxGroup :=
  match available_files with
  | _ :: _ => selection available_files
  | [] => selection []
  end.

Definition _clear_selection : CheckboxGroup := selection [].

End Handlers.

End Discovery.

(** ** A session at the tab: a sequence of clicks *)

Module Session.

Import IngestionTab.

Section Clicks.

Variable env : collaborators.

(** The state and the world a sequence of clicks ends in; the states passed
    through are those of [on_clicks]. *)
Fixpoint after_clicks (cs : list click) (st : tab_state) (w : world)
    : tab_state * world :=
  match cs with
  | [] => (st, w)
  | c :: rest =>
      match on_click env c st w with
      | (states, w') => after_clicks rest (List.last states st) w'
      end
  end.

End Clicks.

(** The clicks on step 1 among the clicks. *)
Definition loads (cs : list click) : nat :=
  length (List.filter (fun c => match c with Step1 _ _ => true | _ => false end) cs).

End Session.

(** ** Names and scenarios the properties below are stated for *)

(** A character of an owner or of a repository name: printable, and none of
    those the URL splitter or the path splitter gives a meaning to. *)
Definition name_char (c : ascii) : bool :=
  (32 <? nat_of_ascii c)%nat && negb (PyStr.mem c "/:?#;").

Definition plain_name (s : string) : bool :=
  negb (String.eqb s "") && PyStr.forallb name_char s.

(** The characters of [owner/repo] for two plain names. *)
Definition path_char (c : ascii) : bool :=
  (32 <? nat_of_ascii c)%nat && negb (PyStr.mem c ":?#;").

Module Scenarios.

(** A load that is half-way. *)
Definition half_way : pydict :=
  IngestionTab.dict [("status", VStr "loading");
                     ("message", VStr "Loading files");
                     ("progress", VInt 50)].

Definition half_way_text : string :=
  Eval vm_compute in
    match IngestionTab.format_progress_display Samples.quiet_env half_way with
    | Ok text => text
    | Raise _ => EmptyString
    end.


(** A completed stage 1 that took one second. *)
Definition loaded_in_one_second : pydict :=
  IngestionTab.completion_progress "owner/repo" 1 [Samples.readme_document] [] 1%Q.

(** The same file as [Samples.readme], as another retrieval returned it. *)
Definition readme_again : GitHubFileInfo := Samples.file_at "README.md".

(** What stage 2 returns after that load, with a clock that advances by one
    at every reading: the snapshot, its rendering and the world. *)
Definition completed : pydict :=
  IngestionTab.complete_progress Samples.quiet_env [Samples.readme_document]
    (VStr "owner/repo") (VStrs []) 5%Q 4%Q (VFloat 1).

Definition completed_text : string :=
  Eval vm_compute in
    match IngestionTab.format_progress_display Samples.quiet_env completed with
    | Ok text => text
    | Raise _ => EmptyString
    end.

Definition after_store : world :=
  {| requests := []; time_reads := 5;
     submissions := [([Samples.readme_document], "owner/repo")] |}.

End Scenarios.

(** * Properties *)

(** ** Results and effects *)


Lemma returns_Ok {A : Type} (r : result A) : returns r -> exists a, r = Ok a.
Proof. destruct r; simpl; [eauto | tauto]. Qed.

Lemma raises_Raise {A : Type} (r : result A) : raises r -> exists e, r = Raise e.
Proof. destruct r; simpl; [tauto | eauto]. Qed.

(** ** Repository locator *)

Section ParserFacts.

Import Parser.

Example parse_shorthand : parse_github_url "owner/repo" = Ok ("owner", "repo").
Proof. vm_compute. reflexivity. Qed.

Example parse_full_url :
  parse_github_url "https://github.com/owner/repo" = Ok ("owner", "repo").
Proof. vm_compute. reflexivity. Qed.

Example parse_three_segments :
  parse_github_url "not-a-valid-path-with/three/segments"
  = Raise (GitHubError
      "Invalid GitHub URL format: https://github.com/not-a-valid-path-with/three/segments").
Proof. vm_compute. reflexivity. Qed.

Example parse_empty : parse_github_url "" = Raise (GitHubError "Empty URL provided").
Proof. reflexivity. Qed.

Example parse_blank : parse_github_url "   " = Raise (GitHubError "Empty URL provided").
Proof. vm_compute. reflexivity. Qed.

(** C6.  The docstring of [parse_github_url] lists [github.com/owner/repo]
    among the accepted forms, and the function tests for that prefix so as
    not to prepend the host a second time.  The URL splitter, however, sees
    no [//] in such an input and returns all of it as the path, which then
    has three segments: the input is rejected where the owner and the
    repository were to be returned. *)
Theorem parse_bare_domain_is_rejected :
  parse_github_url "github.com/owner/repo/"
  = Raise (GitHubError "Invalid GitHub URL format: github.com/owner/repo").
Proof. vm_compute. reflexivity. Qed.

(** An empty or blank identifier is refused before anything is parsed. *)
Lemma parse_blank_refused url :
  PyStr.strip url = "" ->
  parse_github_url url = Raise (GitHubError "Empty URL provided").
Proof.
  intros H. unfold parse_github_url. rewrite H.
  by rewrite orb_true_r.
Qed.

(** Splitting and joining again gives the text back, and no part holds the
    separator. *)
Lemma split_not_nil sep s : PyStr.split sep s <> [].
Proof.
  destruct s as [|c rest]; simpl; [done|].
  destruct (Ascii.eqb c sep); [done|]. by destruct (PyStr.split sep rest).
Qed.

Lemma join_split sep s :
  PyStr.join (String sep "") (PyStr.split sep s) = s.
Proof.
  induction s as [|c rest IH]; simpl; [done|].
  destruct (Ascii.eqb_spec c sep) as [->|Hne].
  - pose proof (split_not_nil sep rest) as Hnil.
    destruct (PyStr.split sep rest) as [|w ws] eqn:Hs; [done|].
    simpl in *. by rewrite IH.
  - pose proof (split_not_nil sep rest) as Hnil.
    destruct (PyStr.split sep rest) as [|w ws] eqn:Hs; [done|].
    simpl in *. destruct ws; simpl in *; by rewrite <- IH.
Qed.

Lemma split_parts_free sep s :
  Forall (fun part => PyStr.mem sep part = false) (PyStr.split sep s).
Proof.
  induction s as [|c rest IH]; simpl; [by repeat constructor|].
  destruct (Ascii.eqb_spec c sep) as [->|Hne].
  - by constructor.
  - assert (Hc : Ascii.eqb sep c = false) by (apply Ascii.eqb_neq; congruence).
    destruct (PyStr.split sep rest) as [|w ws].
    + repeat constructor. simpl. by rewrite Hc.
    + inversion_clear IH as [|? ? Hw Hws]. constructor; [|done].
      simpl. by rewrite Hw, Hc.
Qed.

(** Stripping leaves no strippable character at either end. *)
Lemma lstrip_first strippable s c :
  PyStr.first_char (PyStr.lstrip strippable s) = Some c -> strippable c = false.
Proof.
  induction s as [|d rest IH]; simpl; [done|].
  destruct (strippable d) eqn:Hd; [done|]. simpl. by intros [= <-].
Qed.

Lemma rstrip_first strippable s c :
  PyStr.first_char (PyStr.rstrip strippable s) = Some c ->
  PyStr.first_char s = Some c.
Proof.
  destruct s as [|d rest]; simpl; [done|].
  destruct (PyStr.rstrip strippable rest); [|done].
  by destruct (strippable d).
Qed.

Lemma rstrip_last strippable s c :
  PyStr.last_char (PyStr.rstrip strippable s) = Some c -> strippable c = false.
Proof.
  induction s as [|d rest IH]; simpl; [done|].
  destruct (PyStr.rstrip strippable rest) as [|e r] eqn:Hr.
  - destruct (strippable d) eqn:Hd; simpl; [done|]. by intros [= <-].
  - intros H. apply IH. exact H.
Qed.

Lemma strip_with_ends strippable s c :
  (PyStr.first_char (PyStr.strip_with strippable s) = Some c -> strippable c = false)
  /\ (PyStr.last_char (PyStr.strip_with strippable s) = Some c -> strippable c = false).
Proof.
  unfold PyStr.strip_with. split.
  - intros H. apply rstrip_first in H. by apply lstrip_first in H.
  - apply rstrip_last.
Qed.

Lemma last_char_app_one s c : PyStr.last_char (s +:+ String c "") = Some c.
Proof.
  induction s as [|d rest IH]; simpl; [done|].
  rewrite IH. by destruct rest.
Qed.

(** The parts of a repository reference: what the parser returns is a pair
    of non-empty segments without a slash. *)
Lemma parse_returns_segments url owner repo :
  parse_github_url url = Ok (owner, repo) ->
  owner <> "" /\ repo <> ""
  /\ PyStr.mem PyStr.slash owner = false /\ PyStr.mem PyStr.slash repo = false.
Proof.
  unfold parse_github_url.
  destruct (_ || _); [done|].
  destruct (UrlLib.urlparse _) as [parsed|e]; simpl; [|done].
  set (stripped := PyStr.strip_chars "/" (UrlLib.path parsed)).
  pose proof (join_split PyStr.slash stripped) as Hjoin.
  pose proof (split_parts_free PyStr.slash stripped) as Hfree.
  destruct (PyStr.split PyStr.slash stripped) as [|a [|b [|c rest]]]; try done.
  intros [= -> ->].
  inversion_clear Hfree as [|? ? Ha Hb]. inversion_clear Hb as [|? ? Hb' _].
  simpl in Hjoin.
  assert (Hslash : (fun c => PyStr.mem c "/") PyStr.slash = true) by reflexivity.
  destruct (strip_with_ends (fun c => PyStr.mem c "/") (UrlLib.path parsed) PyStr.slash)
    as [Hfirst Hlast].
  fold (PyStr.strip_chars "/" (UrlLib.path parsed)) in Hfirst, Hlast.
  fold stripped in Hfirst, Hlast. rewrite <- Hjoin in Hfirst, Hlast.
  repeat split; try done.
  - intros ->. simpl in Hfirst. specialize (Hfirst eq_refl). congruence.
  - intros ->. change (String PyStr.slash "" +:+ "") with (String PyStr.slash "") in Hlast.
    rewrite last_char_app_one in Hlast.
    specialize (Hlast eq_refl). congruence.
Qed.

End ParserFacts.

(** ** File loader *)

Section LoaderFacts.

Import FileLoader.

Variable fetch : string -> string -> string -> result GitHubFileInfo.

Lemma create_document_path file_info repo_name branch :
  md_file_path (doc_metadata (create_document_from_file_info file_info repo_name branch))
  = fi_path file_info.
Proof. reflexivity. Qed.

Lemma get_multiple_files_outcome repo_url file_paths branch n w :
  get_multiple_files fetch repo_url file_paths branch n w
  = (Ok (Fetcher.retrieved fetch repo_url branch file_paths,
         Fetcher.not_retrieved fetch repo_url branch file_paths),
     {| requests := requests w ++ file_paths;
        time_reads := time_reads w;
        submissions := submissions w |}).
Proof.
  revert w. induction file_paths as [|p rest IH]; intros w.
  - simpl. rewrite app_nil_r. by destruct w.
  - cbn [get_multiple_files]. unfold mbind, io_bind, log_request.
    rewrite IH. cbn [requests time_reads submissions].
    rewrite <- app_assoc. cbn [app].
    unfold Fetcher.retrieved, Fetcher.not_retrieved. simpl.
    destruct (fetch repo_url p branch); reflexivity.
Qed.

(** The conversion loop loses no file and invents none, whatever makes the
    building of a document fail: each file ends up as a document or as a
    failed path. *)
Lemma convert_all_accounting assemble file_infos failed_paths :
  (length (convert_all assemble file_infos failed_paths).1
   + length (convert_all assemble file_infos failed_paths).2
   = length file_infos + length failed_paths)%nat.
Proof.
  unfold convert_all.
  assert (H : forall acc,
    (length (foldl (convert_one assemble) acc file_infos).1
     + length (foldl (convert_one assemble) acc file_infos).2
     = length file_infos + (length acc.1 + length acc.2))%nat).
  { induction file_infos as [|fi rest IH]; intros acc; simpl; [lia|].
    rewrite IH. unfold convert_one.
    destruct (assemble fi); simpl; rewrite length_app; simpl; lia. }
  rewrite H. simpl. lia.
Qed.

(** A file whose document cannot be built is moved to the failed paths. *)
Lemma convert_one_failure assemble acc file_info e :
  assemble file_info = Raise e ->
  convert_one assemble acc file_info = (acc.1, acc.2 ++ [fi_path file_info]).
Proof. intros H. unfold convert_one. by rewrite H. Qed.

Lemma convert_all_total (build : GitHubFileInfo -> Document) file_infos failed_paths :
  convert_all (fun fi => Ok (build fi)) file_infos failed_paths
  = (build <$> file_infos, failed_paths).
Proof.
  unfold convert_all.
  assert (H : forall docs,
    foldl (convert_one (fun fi => Ok (build fi))) (docs, failed_paths) file_infos
    = (docs ++ (build <$> file_infos), failed_paths)).
  { induction file_infos as [|fi rest IH]; intros docs; simpl.
    - by rewrite app_nil_r.
    - unfold convert_one at 2. simpl. rewrite IH. by rewrite <- app_assoc. }
  apply H.
Qed.

Lemma retrieved_length repo_url branch file_paths :
  (length (Fetcher.retrieved fetch repo_url branch file_paths)
   + length (Fetcher.not_retrieved fetch repo_url branch file_paths)
   = length file_paths)%nat.
Proof.
  unfold Fetcher.retrieved, Fetcher.not_retrieved.
  induction file_paths as [|p rest IH]; simpl; [done|].
  unfold omap in IH.
  destruct (fetch repo_url p branch); simpl; lia.
Qed.

Lemma elem_of_retrieved repo_url branch file_paths file_info :
  file_info ∈ Fetcher.retrieved fetch repo_url branch file_paths <->
  exists p, p ∈ file_paths /\ fetch repo_url p branch = Ok file_info.
Proof.
  unfold Fetcher.retrieved. rewrite list_elem_of_omap.
  split; intros (p & Hp & H); exists p; split; try done.
  - destruct (fetch repo_url p branch); congruence.
  - by rewrite H.
Qed.

Lemma elem_of_not_retrieved repo_url branch file_paths p :
  p ∈ Fetcher.not_retrieved fetch repo_url branch file_paths <->
  p ∈ file_paths /\ raises (fetch repo_url p branch).
Proof.
  unfold Fetcher.not_retrieved.
  rewrite list_elem_of_In, filter_In, <- list_elem_of_In.
  destruct (fetch repo_url p branch); simpl; intuition congruence.
Qed.

(** What a call with at least one path yields when the repository parses. *)
Lemma load_files_outcome repo_url file_paths branch n w owner repo :
  file_paths <> [] ->
  Parser.parse_github_url repo_url = Ok (owner, repo) ->
  load_files_from_github fetch repo_url file_paths branch n w
  = (Ok ((fun fi => create_document_from_file_info fi (owner +:+ "/" +:+ repo) branch)
           <$> Fetcher.retrieved fetch repo_url branch file_paths,
         Fetcher.not_retrieved fetch repo_url branch file_paths),
     {| requests := requests w ++ file_paths;
        time_reads := time_reads w;
        submissions := submissions w |}).
Proof.
  intros Hne Hparse. unfold load_files_from_github.
  destruct file_paths as [|p rest]; [done|].
  rewrite Hparse. unfold mbind, io_bind.
  rewrite get_multiple_files_outcome.
  unfold mret, io_ret. by rewrite convert_all_total.
Qed.

(** The derived metadata: the extension is what follows the last dot, the
    directory is the path without its last segment, and the identifier
    depends on the repository, the branch and the path alone. *)
Example assemble_nested_path :
  let d := create_document_from_file_info (Samples.file_at "docs/a.md") "owner/repo" "main" in
  md_file_extension (doc_metadata d) = "md"
  /\ md_directory (doc_metadata d) = "docs"
  /\ doc_id d = "owner/repo:main:docs/a.md"
  /\ md_url (doc_metadata d) = "https://github.com/owner/repo/blob/main/docs/a.md".
Proof. vm_compute. repeat split. Qed.

Example assemble_top_level_path :
  let d := create_document_from_file_info (Samples.file_at "readme.md") "owner/repo" "main" in
  md_file_extension (doc_metadata d) = "md" /\ md_directory (doc_metadata d) = "".
Proof. vm_compute. repeat split. Qed.

Example assemble_without_extension :
  let d := create_document_from_file_info (Samples.file_at "docs/LICENSE") "owner/repo" "main" in
  md_file_extension (doc_metadata d) = "" /\ md_directory (doc_metadata d) = "docs".
Proof. vm_compute. repeat split. Qed.

Lemma doc_id_stable file_info file_info' repo_name branch :
  fi_path file_info = fi_path file_info' ->
  doc_id (create_document_from_file_info file_info repo_name branch)
  = doc_id (create_document_from_file_info file_info' repo_name branch).
Proof. intros H. simpl. by rewrite H. Qed.

(** The fallback of the web URL is the [url] of the fetched file, which need
    not be its [download_url]. *)
Example fallback_is_not_the_download_url :
  let d := create_document_from_file_info Samples.readme "a/b/c" "main" in
  md_url (doc_metadata d) = fi_url Samples.readme
  /\ md_url (doc_metadata d) <> md_raw_url (doc_metadata d).
Proof. vm_compute. split; [reflexivity | discriminate]. Qed.

End LoaderFacts.

Section LoaderProperties.

Import FileLoader.

Variable fetch : string -> string -> string -> result GitHubFileInfo.

(** C9.  With an empty path list the loader returns the pair of two empty
    lists, whatever the repository reference is, and leaves the world as it
    was: no retrieval is issued and nothing is raised. *)
Theorem load_nothing_for_no_paths repo_url branch n w :
  load_files_from_github fetch repo_url [] branch n w = (Ok ([], []), w).
Proof. reflexivity. Qed.

(** C3, as amended.  The loader raises exactly when it is given at least one
    path and the repository identifier does not parse; it then has issued no
    retrieval.  No outcome of the single retrievals makes it raise: the
    statement holds for every transport. *)
Theorem load_raises_iff_unparsable repo_url file_paths branch n w :
  (raises (load_files_from_github fetch repo_url file_paths branch n w).1
   <-> file_paths <> [] /\ raises (Parser.parse_github_url repo_url))
  /\ (raises (load_files_from_github fetch repo_url file_paths branch n w).1 ->
      (load_files_from_github fetch repo_url file_paths branch n w).2 = w).
Proof.
  destruct file_paths as [|p rest].
  - simpl. split; [|tauto]. split; [tauto|]. intros [H _]. by apply H.
  - destruct (Parser.parse_github_url repo_url) as [[owner repo]|e] eqn:Hparse.
    + rewrite (load_files_outcome fetch repo_url (p :: rest) branch n w owner repo);
        [|done|done].
      simpl. split; [|tauto]. split; [tauto|]. by intros [_ H].
    + unfold load_files_from_github. rewrite Hparse. simpl. split; [|done].
      split; [|done]. intros _. split; done.
Qed.

(** C1.  For a non-empty path list and a repository that parses, the loader
    returns, and its outcome accounts for every path exactly once: documents
    and failed paths together are as many as the paths, every path is the
    path of a document or a failed path, and none is both.  A retrieved file
    is assumed to carry the path it was asked for. *)
Theorem load_accounts_for_every_path repo_url file_paths branch n w :
  file_paths <> [] ->
  returns (Parser.parse_github_url repo_url) ->
  (forall p file_info, fetch repo_url p branch = Ok file_info -> fi_path file_info = p) ->
  exists documents failed_paths w',
    load_files_from_github fetch repo_url file_paths branch n w
    = (Ok (documents, failed_paths), w')
    /\ (length documents + length failed_paths = length file_paths)%nat
    /\ (forall p, p ∈ file_paths <->
                  p ∈ document_paths documents \/ p ∈ failed_paths)
    /\ (forall p, ~ (p ∈ document_paths documents /\ p ∈ failed_paths)).
Proof.
  intros Hne Hparse Hpath.
  apply returns_Ok in Hparse as [[owner repo] Hparse].
  eexists _, _, _. split; [by apply load_files_outcome|].
  assert (Hdoc : forall p,
    p ∈ document_paths
          ((fun fi => create_document_from_file_info fi (owner +:+ "/" +:+ repo) branch)
             <$> Fetcher.retrieved fetch repo_url branch file_paths)
    <-> p ∈ file_paths /\ returns (fetch repo_url p branch)).
  { intros p. unfold document_paths. rewrite <- list_fmap_compose.
    rewrite list_elem_of_fmap. split.
    - intros (fi & -> & Hfi). simpl.
      apply elem_of_retrieved in Hfi as (q & Hq & Hfetch).
      rewrite (Hpath _ _ Hfetch). split; [done|]. by rewrite Hfetch.
    - intros [Hp Hret]. apply returns_Ok in Hret as [fi Hfetch].
      exists fi. split; [simpl; by rewrite (Hpath _ _ Hfetch)|].
      apply elem_of_retrieved. eauto. }
  split; [|split].
  - rewrite length_fmap. apply retrieved_length.
  - intros p. rewrite Hdoc, elem_of_not_retrieved.
    destruct (fetch repo_url p branch); simpl; tauto.
  - intros p. rewrite Hdoc, elem_of_not_retrieved.
    destruct (fetch repo_url p branch); simpl; tauto.
Qed.

End LoaderProperties.

(** Two paths, of which the transport has one: one document, one failed
    path. *)
Lemma load_accounts_for_every_path_witness :
  exists documents failed_paths w',
    FileLoader.load_files_from_github Samples.only_readme "owner/repo"
      ["README.md"; "docs/missing.md"] "main" 10 fresh_world
    = (Ok (documents, failed_paths), w')
    /\ (length documents + length failed_paths = 2)%nat
    /\ (forall p, p ∈ ["README.md"; "docs/missing.md"] <->
                  p ∈ FileLoader.document_paths documents \/ p ∈ failed_paths)
    /\ (forall p, ~ (p ∈ FileLoader.document_paths documents /\ p ∈ failed_paths)).
Proof.
  apply (load_accounts_for_every_path Samples.only_readme "owner/repo"
           ["README.md"; "docs/missing.md"] "main" 10 fresh_world).
  - discriminate.
  - vm_compute. exact I.
  - intros p file_info. unfold Samples.only_readme.
    destruct (String.eqb_spec p "README.md") as [->|_]; [|discriminate].
    intros [= <-]. reflexivity.
Defined.

(** C3, as stated, fails where the path list is empty: the identifier does
    not parse, and yet the loader returns. *)
Lemma load_returns_for_unparsable_repo_without_paths :
  ~ (raises (FileLoader.load_files_from_github Samples.only_readme
               "not-a-valid-path-with/three/segments" [] "main" 10 fresh_world).1
     <-> raises (Parser.parse_github_url "not-a-valid-path-with/three/segments")).
Proof.
  intros [_ H]. apply H. vm_compute. exact I.
Qed.

(** C10.  When the repository name does not parse, whatever the parser
    raises, the document is built all the same and its web URL is the [url]
    of the fetched file; the conversion loop keeps it as a document and adds
    nothing to the failed paths. *)
Theorem assembly_falls_back_to_file_url file_info repo_name branch acc :
  raises (Parser.parse_github_url repo_name) ->
  md_url (doc_metadata
            (FileLoader.create_document_from_file_info file_info repo_name branch))
  = fi_url file_info
  /\ FileLoader.convert_one
       (fun fi => Ok (FileLoader.create_document_from_file_info fi repo_name branch))
       acc file_info
     = (acc.1 ++ [FileLoader.create_document_from_file_info file_info repo_name branch],
        acc.2).
Proof.
  intros Hfail. split; [|reflexivity].
  unfold FileLoader.create_document_from_file_info. simpl.
  apply raises_Raise in Hfail as [e ->]. reflexivity.
Qed.

(** A repository name of three segments does not parse. *)
Lemma assembly_falls_back_to_file_url_witness :
  md_url (doc_metadata
            (FileLoader.create_document_from_file_info Samples.readme "a/b/c" "main"))
  = fi_url Samples.readme
  /\ FileLoader.convert_one
       (fun fi => Ok (FileLoader.create_document_from_file_info fi "a/b/c" "main"))
       ([], []) Samples.readme
     = ([] ++ [FileLoader.create_document_from_file_info Samples.readme "a/b/c" "main"],
        []).
Proof.
  apply (assembly_falls_back_to_file_url Samples.readme "a/b/c" "main" ([], [])).
  vm_compute. exact I.
Defined.

(** ** Remote file fetcher *)

Section FetcherFacts.

Import Fetcher.

Variable fetch : string -> string -> string -> result GitHubFileInfo.
Variables repo_url branch : string.
Variable n : Z.

Local Abbreviation step := (Fetcher.step fetch repo_url branch n).
Local Abbreviation reachable := (Fetcher.reachable fetch repo_url branch n).
Local Abbreviation retrieved := (Fetcher.retrieved fetch repo_url branch).
Local Abbreviation not_retrieved := (Fetcher.not_retrieved fetch repo_url branch).

(** Every step brings the call nearer to its end. *)
Lemma step_decreases s s' : step s s' -> (remaining s' < remaining s)%nat.
Proof.
  intros H. destruct H; unfold remaining; simpl;
    rewrite ?length_app; simpl; lia.
Qed.

(** With at least one slot, a call that is not finished can go on: a request
    in flight can complete, and with none in flight the next one is sent. *)
Lemma step_possible s : 1 <= n -> ~ finished s -> exists s', step s s'.
Proof.
  intros Hn Hnot. destruct s as [queue flying fs fd].
  destruct flying as [|p flying].
  - destruct queue as [|p queue].
    + exfalso. apply Hnot. by split.
    + eexists. apply step_dispatch. simpl. lia.
  - destruct (fetch repo_url p branch) as [fi|e] eqn:Hfetch.
    + eexists. by apply (step_retrieved _ _ _ _ p queue [] flying fs fd fi).
    + eexists. by apply (step_failed _ _ _ _ p queue [] flying fs fd e).
Qed.

Lemma not_retrieved_Permutation l1 l2 :
  l1 ≡ₚ l2 -> not_retrieved l1 ≡ₚ not_retrieved l2.
Proof.
  unfold Fetcher.not_retrieved.
  induction 1 as [|x l1 l2 _ IH|x y l|l1 l2 l3 _ IH1 _ IH2]; simpl.
  - done.
  - destruct (fetch repo_url x branch); by rewrite ?IH.
  - destruct (fetch repo_url x branch), (fetch repo_url y branch);
      try done. apply perm_swap.
  - by rewrite IH1.
Qed.

Lemma not_retrieved_app l1 l2 :
  not_retrieved (l1 ++ l2) = not_retrieved l1 ++ not_retrieved l2.
Proof. apply List.filter_app. Qed.

Lemma retrieved_app l1 l2 : retrieved (l1 ++ l2) = retrieved l1 ++ retrieved l2.
Proof. apply omap_app. Qed.

(** The paths are never lost: at any moment they are the completed ones, the
    ones in flight and the queued ones, and the outcome gathered so far is
    the outcome of the completed ones. *)
Lemma reachable_accounting file_paths s :
  reachable file_paths s ->
  exists completed,
    file_paths ≡ₚ completed ++ in_flight s ++ pending s
    /\ files s ≡ₚ retrieved completed
    /\ failed_paths s ≡ₚ not_retrieved completed.
Proof.
  unfold Fetcher.reachable. revert s. apply rtc_ind_r.
  - exists []. simpl. done.
  - intros s s' _ Hstep (completed & Hall & Hfiles & Hfailed).
    destruct Hstep as [p queue flying fs fd Hslot
                      |p queue before after fs fd fi Hfetch
                      |p queue before after fs fd e Hfetch]; simpl in *.
    + exists completed. split; [|done].
      rewrite Hall. rewrite <- (app_assoc flying [p] queue). done.
    + exists (completed ++ [p]). split; [|split].
      * rewrite Hall. rewrite <- !app_assoc. simpl.
        apply Permutation_app_head. symmetry. apply Permutation_middle.
      * rewrite retrieved_app, Hfiles. apply Permutation_app_head.
        unfold Fetcher.retrieved. simpl. by rewrite Hfetch.
      * rewrite not_retrieved_app, Hfailed. unfold Fetcher.not_retrieved at 3.
        simpl. rewrite Hfetch. by rewrite app_nil_r.
    + exists (completed ++ [p]). split; [|split].
      * rewrite Hall. rewrite <- !app_assoc. simpl.
        apply Permutation_app_head. symmetry. apply Permutation_middle.
      * rewrite retrieved_app, Hfiles. unfold Fetcher.retrieved at 3.
        simpl. rewrite Hfetch. by rewrite app_nil_r.
      * rewrite not_retrieved_app, Hfailed. apply Permutation_app_head.
        unfold Fetcher.not_retrieved. simpl. by rewrite Hfetch.
Qed.

(** Whatever the order of completion, a finished call has gathered what the
    in-order model [get_multiple_files] returns, up to the order. *)
Lemma finished_outcome file_paths s :
  reachable file_paths s -> finished s ->
  files s ≡ₚ retrieved file_paths /\ failed_paths s ≡ₚ not_retrieved file_paths.
Proof.
  intros Hreach [Hq Hf].
  destruct (reachable_accounting _ _ Hreach) as (completed & Hall & Hfiles & Hfailed).
  rewrite Hq, Hf in Hall. simpl in Hall. rewrite app_nil_r in Hall.
  split.
  - rewrite Hfiles. unfold Fetcher.retrieved. by rewrite Hall.
  - rewrite Hfailed. by apply not_retrieved_Permutation.
Qed.

(** C5.  In every state that a call with [max_concurrent = n] can be in, at
    most [n] retrievals are in flight; a request is sent only while a slot
    is free, and waits in the queue otherwise. *)
Theorem in_flight_bounded file_paths s :
  0 <= n ->
  reachable file_paths s ->
  Z.of_nat (length (in_flight s)) <= n.
Proof.
  intros Hn. unfold Fetcher.reachable. revert s. apply rtc_ind_r.
  - simpl. lia.
  - intros s s' _ Hstep IH.
    destruct Hstep; simpl in *; rewrite ?length_app in *; simpl in *; lia.
Qed.

End FetcherFacts.

(** Fifty paths and five slots: with five requests sent, five are in flight
    and forty-five wait. *)
Lemma in_flight_bounded_witness :
  Z.of_nat (length (Fetcher.in_flight
    {| Fetcher.pending := drop 5 (Samples.numbered_paths 50);
       Fetcher.in_flight := take 5 (Samples.numbered_paths 50);
       Fetcher.files := []; Fetcher.failed_paths := [] |})) <= 5.
Proof.
  apply (in_flight_bounded Samples.only_readme "owner/repo" "main" 5
           (Samples.numbered_paths 50)); [lia|].
  unfold Fetcher.reachable. vm_compute.
  do 5 (eapply rtc_l; [apply Fetcher.step_dispatch; simpl; lia|]; simpl).
  apply rtc_refl.
Defined.

(** ** Progress dictionaries *)

Section DictFacts.

Lemma lookup_dict entries key :
  IngestionTab.dict entries !! key = Py.assoc key entries.
Proof.
  unfold IngestionTab.dict. induction entries as [|[k v] rest IH]; simpl.
  - apply lookup_empty.
  - destruct (String.eqb_spec key k) as [->|Hne].
    + apply lookup_insert_eq.
    + rewrite lookup_insert_ne; [done | congruence].
Qed.

Lemma get_dict entries key dflt :
  Py.get (IngestionTab.dict entries) key dflt = default dflt (Py.assoc key entries).
Proof. unfold Py.get. by rewrite lookup_dict. Qed.

Lemma has_key_dict entries key :
  Py.has_key (IngestionTab.dict entries) key
  = match Py.assoc key entries with Some _ => true | None => false end.
Proof. unfold Py.has_key. by rewrite lookup_dict. Qed.

Lemma dict_is_empty_spec (d : pydict) : Py.dict_is_empty d = true <-> d = ∅.
Proof.
  unfold Py.dict_is_empty. rewrite <- map_to_list_empty_iff.
  destruct (map_to_list d); split; congruence.
Qed.

Lemma dict_not_empty entry entries :
  Py.dict_is_empty (IngestionTab.dict (entry :: entries)) = false.
Proof.
  destruct (Py.dict_is_empty _) eqn:H; [|done].
  apply dict_is_empty_spec in H. destruct entry as [k v].
  unfold IngestionTab.dict in H. simpl in H.
  by apply insert_non_empty in H.
Qed.

End DictFacts.

(** Rewrites the reads of a dictionary display into the values read. *)
Ltac read_dict :=
  rewrite ?get_dict, ?has_key_dict, ?lookup_dict;
  cbn [Py.assoc default String.eqb Ascii.eqb Bool.eqb status_value].

(** ** Progress rendering *)

Section DisplayFacts.

Variable obj_str : pyval -> string.
Variable float_grouped : Q -> string.

Local Abbreviation render := (Display.format_progress_display obj_str float_grouped).

(** C8.  The summary of a completed run divides the number of documents by
    the total time, and nothing guards the division: a snapshot whose total
    time is zero, or lacks one and is given the default [0], makes the
    rendering raise [ZeroDivisionError] where a rate of zero was to be
    shown. *)
Theorem render_complete_at_zero_time_raises :
  render Samples.finished_at_once = Raise (ZeroDivisionError "division by zero").
Proof. vm_compute. reflexivity. Qed.


(** The rendering prints the progress value it is given, also one beyond the
    scale, and draws a bar as long. *)
Lemma render_does_not_clamp :
  Samples.shows "150.0%" (render Samples.overshoot) = true
  /\ Samples.shows (PyStr.repeat "█" 60) (render Samples.overshoot) = true.
Proof. split; vm_compute; reflexivity. Qed.

(** The typed record refuses such a value; it does not clamp it. *)
Lemma progress_state_refuses_beyond_scale :
  raises (new_ProgressState LOADING "loading" (inject_Z 150)).
Proof. vm_compute. exact I. Qed.

Lemma progress_state_in_range status message progress ps :
  new_ProgressState status message progress = Ok ps ->
  (0 <= ps_progress ps <= inject_Z 100)%Q.
Proof.
  unfold new_ProgressState, validate_progress.
  destruct (Qle_bool 0 progress) eqn:Hlo; simpl; [|discriminate].
  destruct (Qle_bool progress (inject_Z 100)) eqn:Hhi; simpl; [|discriminate].
  intros [= <-]. simpl. split; by apply Qle_bool_iff.
Qed.

End DisplayFacts.

(** C7, as stated, fails: a snapshot with a progress of 150 is rendered with
    150.0% and a bar of 60 cells; the value is neither clamped nor refused. *)
Lemma render_prints_progress_beyond_scale :
  Samples.shows "150.0%"
    (IngestionTab.format_progress_display Samples.quiet_env Samples.overshoot) = true
  /\ Samples.shows (PyStr.repeat "█" 60)
       (IngestionTab.format_progress_display Samples.quiet_env Samples.overshoot) = true.
Proof. split; vm_compute; reflexivity. Qed.

(** ** The two stages *)

Section StageFacts.

Import IngestionTab.

Variable env : collaborators.

Local Abbreviation render := (IngestionTab.format_progress_display env).

Ltac unfold_render :=
  unfold IngestionTab.format_progress_display, Display.format_progress_display.

Lemma render_initial_returns repo_name total_files :
  returns (render (initial_progress repo_name total_files)).
Proof.
  unfold_render. unfold initial_progress.
  rewrite dict_not_empty. read_dict.
  cbn -[String.append pretty dict].
  unfold Display.file_loading_section. read_dict.
  cbn -[String.append pretty dict].
  by destruct (negb _).
Qed.

Lemma render_completion_returns repo_name total_files documents failed_files t :
  returns (render (completion_progress repo_name total_files documents failed_files t)).
Proof.
  unfold_render. unfold completion_progress.
  rewrite dict_not_empty. read_dict.
  cbn -[String.append pretty dict]. exact I.
Qed.

Lemma render_not_loaded_returns : returns (render not_loaded_error).
Proof. vm_compute. exact I. Qed.

Lemma render_no_documents_returns : returns (render no_documents_error).
Proof. vm_compute. exact I. Qed.

(** C2.  When the selection is not empty, the repository name is accepted
    and the loader returns, be it with every file failed, stage 1 ends with
    two updates and without an exception: the opening one, and one in the
    [loaded] status that carries the documents and the failed paths under
    [loaded_documents] and [failed_files] and enables step 2. *)
Theorem stage1_reaches_loaded repo_url selected_files current_progress w
    repo_name documents failed_files w' :
  selected_files <> [] ->
  displayed_repo_name repo_url = Some repo_name ->
  FileLoader.load_files_from_github (fetch_file env) repo_url selected_files "main" 10
    (time_time env w).2 = (Ok (documents, failed_files), w') ->
  exists text0 text1 loading_time,
    let loaded :=
      completion_progress repo_name (int_of_len selected_files)
        documents failed_files loading_time in
    _start_file_loading_generator env repo_url selected_files current_progress w
    = (Ok tt,
       [(initial_progress repo_name (int_of_len selected_files), text0, false);
        (loaded, text1, true)],
       (time_time env w').2)
    /\ loaded !! "status" = Some (VStr (status_value LOADED))
    /\ loaded !! "loaded_documents" = Some (VDocs documents)
    /\ loaded !! "failed_files" = Some (VStrs failed_files).
Proof.
  intros Hsel Hname Hload.
  destruct (returns_Ok _ (render_initial_returns repo_name (int_of_len selected_files)))
    as [text0 H0].
  set (t := (clock env (time_reads w') - clock env (time_reads w))%Q).
  destruct (returns_Ok _ (render_completion_returns repo_name
              (int_of_len selected_files) documents failed_files t))
    as [text1 H1].
  exists text0, text1, t. cbv zeta. split.
  - unfold _start_file_loading_generator.
    destruct selected_files as [|p rest]; [congruence|].
    unfold mbind, gen_bind, await.
    unfold time_time at 1.
    rewrite Hname.
    unfold gen_try_except, yield_progress, mbind, gen_bind, await, lift, yield.
    rewrite H0.
    unfold time_time in Hload at 1. cbn [snd] in Hload.
    rewrite Hload.
    unfold time_time at 1. fold t. rewrite H1. reflexivity.
  - unfold completion_progress. repeat split; read_dict; reflexivity.
Qed.

Lemma render_loading_error_returns e t :
  returns (render (loading_error_progress e t)).
Proof.
  unfold_render. unfold loading_error_progress.
  rewrite dict_not_empty. read_dict.
  cbn -[String.append pretty dict Py.fixed1].
  unfold Display.file_loading_section. read_dict.
  cbn -[String.append pretty dict Py.fixed1].
  unfold Display.error_summary. read_dict.
  cbn -[String.append pretty dict Py.fixed1 PyStr.take String.length]. exact I.
Qed.

(** An empty selection is refused with an [error] update before the clock is
    read or anything is requested. *)
Lemma stage1_refuses_empty_selection repo_url current_progress w :
  exists text,
    _start_file_loading_generator env repo_url [] current_progress w
    = (Ok tt, [(no_files_selected, text, false)], w).
Proof.
  assert (H : returns (render no_files_selected)) by (vm_compute; exact I).
  apply returns_Ok in H as [text H]. exists text.
  unfold _start_file_loading_generator, yield_progress, mbind, gen_bind, await, lift.
  by rewrite H.
Qed.

(** When the loader raises, stage 1 still ends without an exception: its
    last update is in the [error] status, holds the message of the exception
    and leaves step 2 disabled. *)
Lemma stage1_reports_loader_failure repo_url selected_files current_progress w
    repo_name e w' :
  selected_files <> [] ->
  displayed_repo_name repo_url = Some repo_name ->
  FileLoader.load_files_from_github (fetch_file env) repo_url selected_files "main" 10
    (time_time env w).2 = (Raise e, w') ->
  exists text0 text1 total_time,
    _start_file_loading_generator env repo_url selected_files current_progress w
    = (Ok tt,
       [(initial_progress repo_name (int_of_len selected_files), text0, false);
        (loading_error_progress e total_time, text1, false)],
       (time_time env w').2)
    /\ loading_error_progress e total_time !! "status" = Some (VStr (status_value ERROR))
    /\ loading_error_progress e total_time !! "error" = Some (VStr (exn_str e)).
Proof.
  intros Hsel Hname Hload.
  destruct (returns_Ok _ (render_initial_returns repo_name (int_of_len selected_files)))
    as [text0 H0].
  set (t := (clock env (time_reads w') - clock env (time_reads w))%Q).
  destruct (returns_Ok _ (render_loading_error_returns e t)) as [text1 H1].
  exists text0, text1, t. split.
  - unfold _start_file_loading_generator.
    destruct selected_files as [|p rest]; [congruence|].
    unfold mbind, gen_bind, await.
    unfold time_time at 1.
    rewrite Hname.
    unfold gen_try_except, yield_progress, mbind, gen_bind, await, lift, yield.
    rewrite H0.
    unfold time_time in Hload at 1. cbn [snd] in Hload.
    rewrite Hload.
    unfold time_time at 1. fold t. rewrite H1. reflexivity.
  - unfold loading_error_progress. split; read_dict; reflexivity.
Qed.

(** The states stage 2 is not ready for: a fresh tab, a stage 1 under way, a
    load that left no document; after a load with a document it is ready. *)
Lemma not_ready_cases repo_name total_files failed_files t :
  ready_for_stage2 ∅ = false
  /\ ready_for_stage2 (initial_progress repo_name total_files) = false
  /\ ready_for_stage2 (completion_progress repo_name total_files [] failed_files t)
     = false.
Proof.
  unfold ready_for_stage2, initial_progress, completion_progress.
  split; [reflexivity|]. split; read_dict; reflexivity.
Qed.

Lemma ready_after_load repo_name total_files document documents failed_files t :
  ready_for_stage2
    (completion_progress repo_name total_files (document :: documents) failed_files t)
  = true.
Proof. unfold ready_for_stage2, completion_progress. read_dict. reflexivity. Qed.

(** C4.  Called on a progress state that is not a completed stage 1 with at
    least one document (an empty state, a stage 1 still under way, a load
    that left no document), stage 2 raises nothing and returns a snapshot in
    the [error] status; it reads no clock and reaches no collaborator, the
    world is as before.  The progress state it was given is only read, and
    stage 1 does not depend on the progress state at all, so it runs again
    as it would have. *)
Theorem stage2_rejected_when_not_loaded current_progress w :
  ready_for_stage2 current_progress = false ->
  exists snapshot text,
    _start_vector_ingestion env current_progress w = (Ok (snapshot, text), w)
    /\ snapshot !! "status" = Some (VStr (status_value ERROR))
    /\ (forall repo_url selected_files,
          _start_file_loading_generator env repo_url selected_files snapshot
          = _start_file_loading_generator env repo_url selected_files current_progress).
Proof.
  unfold ready_for_stage2, _start_vector_ingestion. intros Hnot.
  destruct (Py.eq_str (Py.get current_progress "step" VNone) "file_loading_complete").
  - simpl in Hnot. rewrite Hnot. simpl.
    destruct (returns_Ok _ render_no_documents_returns) as [text Htext].
    exists no_documents_error, text. split; [|split].
    + unfold return_progress, mbind, io_bind, lift. by rewrite Htext.
    + unfold no_documents_error. read_dict. reflexivity.
    + reflexivity.
  - simpl.
    destruct (returns_Ok _ render_not_loaded_returns) as [text Htext].
    exists not_loaded_error, text. split; [|split].
    + unfold return_progress, mbind, io_bind, lift. by rewrite Htext.
    + unfold not_loaded_error. read_dict. reflexivity.
    + reflexivity.
Qed.

(** What the updates of a generator hold, piece by piece. *)

Lemma yields_only_bind P {A B : Type} (m : gen A) (k : A -> gen B) :
  yields_only P m -> (forall a, yields_only P (k a)) -> yields_only P (m ≫= k).
Proof.
  intros Hm Hk w. specialize (Hm w). unfold mbind, gen_bind.
  destruct (m w) as [[[a|e] ys] w1]; simpl in *; [|done].
  specialize (Hk a w1). destruct (k a w1) as [[r ys'] w2]. simpl in *.
  by apply Forall_app.
Qed.

Lemma yields_only_await P {A : Type} (m : io A) : yields_only P (await m).
Proof. intros w. unfold await. destruct (m w). simpl. constructor. Qed.

Lemma yields_only_try P {A : Type} (m : gen A) (h : exn -> gen A) :
  yields_only P m -> (forall e, yields_only P (h e)) ->
  yields_only P (gen_try_except m h).
Proof.
  intros Hm Hh w. specialize (Hm w). unfold gen_try_except.
  destruct (m w) as [[[a|e] ys] w1]; simpl in *; [done|].
  specialize (Hh e w1). destruct (h e w1) as [[r ys'] w2]. simpl in *.
  by apply Forall_app.
Qed.

Lemma yields_only_progress (P : pydict -> Prop) progress interactive :
  P progress -> yields_only P (yield_progress env progress interactive).
Proof.
  intros HP. unfold yield_progress. apply yields_only_bind.
  - apply yields_only_await.
  - intros text w. simpl. by repeat constructor.
Qed.

Lemma io_post_bind {A B : Type} (Q : B -> Prop) (m : io A) (k : A -> io B) :
  (forall a, io_post Q (k a)) -> io_post Q (m ≫= k).
Proof.
  intros Hk w. unfold mbind, io_bind.
  destruct (m w) as [[a|e] w1]; simpl; [apply Hk | done].
Qed.

Lemma io_post_try {A : Type} (Q : A -> Prop) (m : io A) (h : exn -> io A) :
  io_post Q m -> (forall e, io_post Q (h e)) -> io_post Q (try_except m h).
Proof.
  intros Hm Hh w. specialize (Hm w). unfold try_except.
  destruct (m w) as [[a|e] w1]; simpl in *; [done | apply Hh].
Qed.

Lemma io_post_return_progress (P : pydict -> Prop) progress :
  P progress -> io_post (fun r => P r.1) (return_progress env progress).
Proof.
  intros HP w. unfold return_progress, mbind, io_bind, lift.
  by destruct (render progress).
Qed.

(** The snapshots of the two stages hold a progress of 0 or of 100. *)
Ltac progress_is n :=
  exists n; split; [read_dict; reflexivity | lia].

Lemma stage1_yields_in_range repo_url selected_files current_progress :
  yields_only progress_in_range
    (_start_file_loading_generator env repo_url selected_files current_progress).
Proof.
  unfold _start_file_loading_generator.
  destruct selected_files as [|p rest].
  { apply yields_only_progress. unfold no_files_selected. progress_is 0. }
  apply yields_only_bind; [apply yields_only_await|]. intros start_time.
  destruct (displayed_repo_name repo_url) as [repo_name|].
  2: { apply yields_only_progress. unfold invalid_repository_url. progress_is 0. }
  apply yields_only_try.
  - apply yields_only_bind.
    { apply yields_only_progress. unfold initial_progress. progress_is 0. }
    intros _. apply yields_only_bind; [apply yields_only_await|].
    intros [documents failed_files].
    apply yields_only_bind; [apply yields_only_await|]. intros now.
    apply yields_only_progress. unfold completion_progress. progress_is 100.
  - intros e. apply yields_only_bind; [apply yields_only_await|]. intros now.
    apply yields_only_progress. unfold loading_error_progress. progress_is 0.
Qed.

Lemma stage2_returns_in_range current_progress :
  io_post (fun r => progress_in_range r.1)
    (_start_vector_ingestion env current_progress).
Proof.
  unfold _start_vector_ingestion.
  destruct (negb (Py.eq_str _ _)).
  { apply (io_post_return_progress progress_in_range).
    unfold not_loaded_error. progress_is 0. }
  destruct (negb (Py.truthy _)).
  { apply (io_post_return_progress progress_in_range).
    unfold no_documents_error. progress_is 0. }
  apply io_post_bind. intros vector_start_time. apply io_post_try.
  - apply io_post_bind. intros docs. apply io_post_bind. intros success.
    apply io_post_bind. intros now. apply io_post_bind. intros total_time.
    destruct success.
    + apply (io_post_return_progress progress_in_range).
      unfold complete_progress. progress_is 100.
    + apply (io_post_return_progress progress_in_range).
      unfold ingestion_failed. progress_is 0.
  - intros e. apply io_post_bind. intros _.
    apply (io_post_return_progress progress_in_range).
    unfold vector_error_progress. progress_is 0.
Qed.

Lemma on_click_in_range c st w :
  progress_in_range (progress_state st) ->
  Forall (fun st' => progress_in_range (progress_state st')) (on_click env c st w).1.
Proof.
  intros Hst. destruct c as [repo_url selected_files| | |]; simpl.
  - pose proof (stage1_yields_in_range repo_url selected_files (progress_state st) w)
      as H.
    destruct (_start_file_loading_generator _ _ _ _ _) as [[r updates] w1].
    simpl in *. by apply Forall_fmap.
  - pose proof (stage2_returns_in_range (progress_state st) w) as H.
    destruct (_start_vector_ingestion _ _ _) as [[[progress text]|e] w1];
      simpl in *; by repeat constructor.
  - unfold _refresh_progress. destruct (render (progress_state st)); simpl;
      by repeat constructor.
  - repeat constructor. exists 0. split; [reflexivity | lia].
Qed.

Lemma last_in_range (P : tab_state -> Prop) states st :
  Forall P states -> P st -> P (List.last states st).
Proof.
  intros Hall Hst. induction Hall as [|x l Hx Hl IH]; [done|].
  destruct l; [done|]. apply IH.
Qed.

Lemma on_clicks_in_range cs st w :
  progress_in_range (progress_state st) ->
  Forall (fun st' => progress_in_range (progress_state st')) (on_clicks env cs st w).
Proof.
  revert st w. induction cs as [|c rest IH]; intros st w Hst; simpl; [constructor|].
  pose proof (on_click_in_range c st w Hst) as Hc.
  destruct (on_click env c st w) as [states w1]. simpl in *.
  apply Forall_app. split; [done|].
  apply IH. by apply (last_in_range (fun st' => progress_in_range (progress_state st'))).
Qed.

(** C7, as amended.  Over any sequence of clicks on a fresh tab (runs of
    stage 1, calls of stage 2, refreshes and resets) the progress held by
    every state the interface passes through, as the rendering reads it, is
    an integer between 0 and 100. *)
Theorem tab_progress_in_range cs w st :
  st ∈ on_clicks env cs initial_tab w ->
  exists n, Py.get (progress_state st) "progress" (VInt 0) = VInt n /\ 0 <= n <= 100.
Proof.
  intros Hst.
  assert (H0 : progress_in_range (progress_state initial_tab)).
  { exists 0. split; [reflexivity | lia]. }
  pose proof (on_clicks_in_range cs initial_tab w H0) as Hall.
  rewrite Forall_forall in Hall. by apply Hall.
Qed.

End StageFacts.

(** A run of stage 1 in which one of the two files fails. *)
Lemma stage1_reaches_loaded_witness :
  exists text0 text1 loading_time,
    let loaded :=
      IngestionTab.completion_progress "owner/repo"
        (IngestionTab.int_of_len Samples.two_paths)
        [Samples.readme_document] ["docs/missing.md"] loading_time in
    IngestionTab._start_file_loading_generator Samples.quiet_env "owner/repo"
      Samples.two_paths ∅ fresh_world
    = (Ok tt,
       [(IngestionTab.initial_progress "owner/repo"
           (IngestionTab.int_of_len Samples.two_paths), text0, false);
        (loaded, text1, true)],
       (time_time Samples.quiet_env Samples.after_load).2)
    /\ loaded !! "status" = Some (VStr (status_value LOADED))
    /\ loaded !! "loaded_documents" = Some (VDocs [Samples.readme_document])
    /\ loaded !! "failed_files" = Some (VStrs ["docs/missing.md"]).
Proof.
  apply (stage1_reaches_loaded Samples.quiet_env "owner/repo" Samples.two_paths ∅
           fresh_world "owner/repo" [Samples.readme_document] ["docs/missing.md"]
           Samples.after_load).
  - discriminate.
  - vm_compute. reflexivity.
  - vm_compute. reflexivity.
Defined.

(** Stage 2 on a fresh tab. *)
Lemma stage2_rejected_when_not_loaded_witness :
  exists snapshot text,
    IngestionTab._start_vector_ingestion Samples.quiet_env ∅ fresh_world
    = (Ok (snapshot, text), fresh_world)
    /\ snapshot !! "status" = Some (VStr (status_value ERROR))
    /\ (forall repo_url selected_files,
          IngestionTab._start_file_loading_generator Samples.quiet_env
            repo_url selected_files snapshot
          = IngestionTab._start_file_loading_generator Samples.quiet_env
              repo_url selected_files ∅).
Proof.
  apply (stage2_rejected_when_not_loaded Samples.quiet_env ∅ fresh_world).
  reflexivity.
Defined.

(** The state after a run of stage 1, a run of stage 2 and a reset. *)
Lemma tab_progress_in_range_witness :
  exists n,
    Py.get (IngestionTab.progress_state (IngestionTab.shown IngestionTab._reset_progress))
      "progress" (VInt 0) = VInt n
    /\ 0 <= n <= 100.
Proof.
  apply (tab_progress_in_range Samples.quiet_env
           [IngestionTab.Step1 "owner/repo" Samples.two_paths;
            IngestionTab.Step2; IngestionTab.Reset]
           fresh_world).
  vm_compute. do 3 apply list_elem_of_further. apply list_elem_of_here.
Defined.

(** How the unguarded division of C8 shows in a run: when the clock does not
    advance, the documents reach the store, and stage 2 reports a failure,
    because rendering the [complete] snapshot raised inside the [try]. *)
Lemma stage2_reports_success_as_failure_at_zero_time :
  match IngestionTab._start_vector_ingestion Samples.frozen_env
          Samples.loaded_in_no_time fresh_world with
  | (Ok (snapshot, _), w) =>
      snapshot !! "status" = Some (VStr "error")
      /\ snapshot !! "error" = Some (VStr "float division by zero")
      /\ submissions w = [([Samples.readme_document], "owner/repo")]
  | (Raise _, _) => False
  end.
Proof. vm_compute. repeat split. Qed.

(** * Further properties of the code *)

(** ** Repository locator: normalisation and exceptions *)

Section ParserNormalisation.

Import Parser.

Lemma lstrip_fixed strippable s :
  (forall c, PyStr.first_char s = Some c -> strippable c = false) ->
  PyStr.lstrip strippable s = s.
Proof.
  destruct s as [|c rest]; simpl; [done|].
  intros H. by rewrite (H c eq_refl).
Qed.

Lemma last_char_cons c s :
  s <> "" -> PyStr.last_char (String c s) = PyStr.last_char s.
Proof. by destruct s. Qed.

Lemma rstrip_fixed strippable s :
  (forall c, PyStr.last_char s = Some c -> strippable c = false) ->
  PyStr.rstrip strippable s = s.
Proof.
  induction s as [|c rest IH]; [done|]. intros H.
  destruct rest as [|d rest'].
  - simpl. by rewrite (H c eq_refl).
  - change (PyStr.rstrip strippable (String c (String d rest')))
      with (match PyStr.rstrip strippable (String d rest') with
            | EmptyString =>
                if strippable c then EmptyString else String c EmptyString
            | r => String c r
            end).
    rewrite IH; [done|]. intros e He. apply H. by rewrite last_char_cons.
Qed.

Lemma strip_with_idempotent strippable s :
  PyStr.strip_with strippable (PyStr.strip_with strippable s)
  = PyStr.strip_with strippable s.
Proof.
  unfold PyStr.strip_with at 1.
  rewrite lstrip_fixed.
  - apply rstrip_fixed. intros c. apply strip_with_ends.
  - intros c. apply strip_with_ends.
Qed.

(** X1.  The blanks around an identifier do not count: an identifier parses
    as the identifier without them does, be it to a pair or to an
    exception. *)
Theorem parse_ignores_surrounding_blanks url :
  parse_github_url url = parse_github_url (PyStr.strip url).
Proof.
  unfold parse_github_url, PyStr.strip.
  rewrite strip_with_idempotent.
  destruct (String.eqb_spec (PyStr.strip_with PyStr.isspace url) "") as [Hs|Hs].
  - by rewrite !orb_true_r.
  - rewrite !orb_false_r.
    destruct (String.eqb_spec url "") as [->|Hu]; [done|].
    simpl. by destruct (String.eqb_spec (PyStr.strip_with PyStr.isspace url) "").
Qed.

Lemma first_char_app s t :
  s <> "" -> PyStr.first_char (s +:+ t) = PyStr.first_char s.
Proof. by destruct s. Qed.

Lemma rstrip_app_strippable strippable s c :
  strippable c = true ->
  PyStr.rstrip strippable (s +:+ String c "") = PyStr.rstrip strippable s.
Proof.
  intros Hc. induction s as [|d rest IH]; simpl.
  - by rewrite Hc.
  - by rewrite IH.
Qed.

(** X2.  A slash at the end does not count either: for an identifier that is
    not empty and has no blanks around it, the identifier with a slash added
    parses as the identifier itself. *)
Theorem parse_ignores_trailing_slash url :
  url <> "" ->
  PyStr.strip url = url ->
  parse_github_url (url +:+ "/") = parse_github_url url.
Proof.
  intros Hne Hstrip.
  assert (Hends : forall c,
    (PyStr.first_char url = Some c -> PyStr.isspace c = false)
    /\ (PyStr.last_char url = Some c -> PyStr.isspace c = false)).
  { intros c. rewrite <- Hstrip at 1 2. apply strip_with_ends. }
  assert (Hslash : PyStr.strip (url +:+ "/") = url +:+ "/").
  { unfold PyStr.strip, PyStr.strip_with. rewrite lstrip_fixed.
    - apply rstrip_fixed. intros c. rewrite last_char_app_one.
      by intros [= <-].
    - intros c. rewrite first_char_app by done. apply Hends. }
  unfold parse_github_url. rewrite Hslash, Hstrip.
  unfold PyStr.rstrip_chars. rewrite rstrip_app_strippable by reflexivity.
  destruct (String.eqb_spec url "") as [|_]; [done|].
  destruct (String.eqb_spec (url +:+ "/") "") as [He|_]; [|done].
  by destruct url.
Qed.




Example validity_test_raises :
  is_valid_github_repo_format "https://github.com[/owner/repo"
  = Raise (ValueError "Invalid IPv6 URL").
Proof. vm_compute. reflexivity. Qed.

End ParserNormalisation.

(** An identifier with blanks and a closing slash. *)
Lemma parse_ignores_trailing_slash_witness :
  Parser.parse_github_url ("owner/repo" +:+ "/") = Parser.parse_github_url "owner/repo".
Proof.
  apply (parse_ignores_trailing_slash "owner/repo"); [discriminate | reflexivity].
Defined.

(** ** Repository locator: the accepted forms *)

Section ParserAcceptance.

Import Parser.

Lemma forallb_app p s t :
  PyStr.forallb p (s +:+ t) = PyStr.forallb p s && PyStr.forallb p t.
Proof. induction s as [|c rest IH]; simpl; [done|]. by rewrite IH, andb_assoc. Qed.

Lemma forallb_impl (p q : ascii -> bool) s :
  (forall c, p c = true -> q c = true) ->
  PyStr.forallb p s = true -> PyStr.forallb q s = true.
Proof.
  intros Hpq. induction s as [|c rest IH]; simpl; [done|].
  intros [Hc Hrest]%andb_true_iff. by rewrite (Hpq c Hc), IH.
Qed.

Lemma filter_fixed p s : PyStr.forallb p s = true -> PyStr.filter p s = s.
Proof.
  induction s as [|c rest IH]; simpl; [done|].
  intros [Hc Hrest]%andb_true_iff. by rewrite Hc, IH.
Qed.

Lemma forallb_not_mem p s c :
  PyStr.forallb p s = true -> p c = false -> PyStr.mem c s = false.
Proof.
  intros Hs Hc. induction s as [|d rest IH]; simpl in *; [done|].
  apply andb_true_iff in Hs as [Hd Hrest]. rewrite (IH Hrest), orb_false_r.
  apply Ascii.eqb_neq. intros ->. congruence.
Qed.

Lemma find_not_mem c s : PyStr.mem c s = false -> PyStr.find c s = None.
Proof.
  induction s as [|d rest IH]; simpl; [done|].
  intros [Hd Hrest]%orb_false_iff. by rewrite Hd, (IH Hrest).
Qed.

Lemma split_not_mem sep s : PyStr.mem sep s = false -> PyStr.split sep s = [s].
Proof.
  induction s as [|c rest IH]; simpl; [done|].
  intros [Hc Hrest]%orb_false_iff. rewrite Ascii.eqb_sym in Hc.
  by rewrite Hc, (IH Hrest).
Qed.

Lemma split_app_sep sep a b :
  PyStr.mem sep a = false ->
  PyStr.split sep (a +:+ String sep b) = a :: PyStr.split sep b.
Proof.
  induction a as [|c rest IH]; simpl.
  - intros _. by rewrite Ascii.eqb_refl.
  - intros [Hc Hrest]%orb_false_iff. rewrite Ascii.eqb_sym in Hc.
    by rewrite Hc, (IH Hrest).
Qed.

Lemma last_char_app s t : t <> "" -> PyStr.last_char (s +:+ t) = PyStr.last_char t.
Proof.
  intros Ht. induction s as [|c rest IH]; [done|].
  change (String c rest +:+ t) with (String c (rest +:+ t)).
  rewrite last_char_cons; [done|]. by destruct rest, t.
Qed.

Lemma last_char_mem s c : PyStr.last_char s = Some c -> PyStr.mem c s = true.
Proof.
  induction s as [|d rest IH]; [done|].
  destruct rest as [|e rest'].
  - intros [= ->]. simpl. by rewrite Ascii.eqb_refl.
  - intros H.
    change (PyStr.mem c (String d (String e rest')))
      with (Ascii.eqb c d || PyStr.mem c (String e rest')).
    rewrite IH; [apply orb_true_r | exact H].
Qed.

Lemma forallb_mem p s c :
  PyStr.forallb p s = true -> PyStr.mem c s = true -> p c = true.
Proof.
  induction s as [|d rest IH]; simpl; [done|].
  intros [Hd Hrest]%andb_true_iff [Hc|Hc]%orb_true_iff; [|by apply IH].
  apply Ascii.eqb_eq in Hc. by subst.
Qed.

Lemma name_char_path_char c : name_char c = true -> path_char c = true.
Proof.
  unfold name_char, path_char.
  intros [Hn Hm]%andb_true_iff. rewrite Hn. simpl.
  apply negb_true_iff in Hm. apply negb_true_iff.
  simpl in *. repeat (apply orb_false_iff in Hm as [? Hm]).
  repeat (apply orb_false_iff; split); done.
Qed.

Lemma path_char_not_space c : path_char c = true -> PyStr.isspace c = false.
Proof.
  unfold path_char, PyStr.isspace. intros [Hn _]%andb_true_iff.
  apply Nat.ltb_lt in Hn.
  apply orb_false_iff; split; apply andb_false_iff; right; apply Nat.leb_gt; lia.
Qed.

Section Names.

Variables owner repo : string.
Hypothesis Howner : plain_name owner = true.
Hypothesis Hrepo : plain_name repo = true.

Let tail : string := owner +:+ "/" +:+ repo.

Lemma plain_name_parts s :
  plain_name s = true -> s <> "" /\ PyStr.forallb name_char s = true.
Proof.
  unfold plain_name. intros [Hne Hall]%andb_true_iff. split; [|done].
  intros ->. done.
Qed.

Lemma tail_path_chars : PyStr.forallb path_char tail = true.
Proof.
  destruct (plain_name_parts _ Howner) as [_ Ho].
  destruct (plain_name_parts _ Hrepo) as [_ Hr].
  unfold tail. rewrite !forallb_app.
  rewrite (forallb_impl _ _ _ name_char_path_char Ho).
  rewrite (forallb_impl _ _ _ name_char_path_char Hr). reflexivity.
Qed.

Lemma tail_first : exists c rest,
  tail = String c rest /\ name_char c = true.
Proof.
  destruct (plain_name_parts _ Howner) as [Hne Ho].
  unfold tail. destruct owner as [|c rest]; [done|].
  exists c, (rest +:+ "/" +:+ repo). split; [done|].
  simpl in Ho. by apply andb_true_iff in Ho as [? _].
Qed.

Lemma tail_last : exists c,
  PyStr.last_char tail = Some c /\ name_char c = true.
Proof.
  destruct (plain_name_parts _ Hrepo) as [Hne Hr].
  unfold tail. rewrite last_char_app by (by destruct repo).
  rewrite last_char_app by done.
  destruct (PyStr.last_char repo) as [c|] eqn:Hc.
  - exists c. split; [done|].
    apply (forallb_mem _ repo); [done|]. by apply last_char_mem.
  - destruct repo as [|d r]; [done|]. exfalso.
    clear -Hc. revert d Hc. induction r as [|e r IH]; intros d; simpl; [done|].
    intros H. by apply (IH e).
Qed.

Lemma name_char_not c d :
  name_char c = true -> PyStr.mem d "/:?#;" = true -> PyStr.mem c (String d "") = false.
Proof.
  unfold name_char. intros [_ Hm]%andb_true_iff Hd.
  apply negb_true_iff in Hm. simpl. rewrite orb_false_r.
  apply Ascii.eqb_neq. intros ->. congruence.
Qed.

Lemma name_char_not_space c : name_char c = true -> PyStr.isspace c = false.
Proof. intros H. by apply path_char_not_space, name_char_path_char. Qed.

Lemma tail_strip : PyStr.strip tail = tail.
Proof.
  destruct tail_first as (c & rest & Htail & Hc).
  destruct tail_last as (d & Hlast & Hd).
  unfold PyStr.strip, PyStr.strip_with. rewrite lstrip_fixed.
  - apply rstrip_fixed. intros e. rewrite Hlast. intros [= <-].
    by apply name_char_not_space.
  - intros e. rewrite Htail. intros [= <-]. by apply name_char_not_space.
Qed.

Lemma tail_strip_slash : PyStr.strip_chars "/" tail = tail.
Proof.
  destruct tail_first as (c & rest & Htail & Hc).
  destruct tail_last as (d & Hlast & Hd).
  unfold PyStr.strip_chars, PyStr.strip_with. rewrite lstrip_fixed.
  - apply rstrip_fixed. intros e. rewrite Hlast. intros [= <-].
    by apply name_char_not.
  - intros e. rewrite Htail. intros [= <-]. by apply name_char_not.
Qed.

Lemma tail_rstrip_slash s :
  PyStr.rstrip_chars "/" (s +:+ tail) = s +:+ tail.
Proof.
  destruct tail_last as (d & Hlast & Hd).
  unfold PyStr.rstrip_chars. apply rstrip_fixed. intros e.
  rewrite last_char_app.
  - rewrite Hlast. intros [= <-]. by apply name_char_not.
  - destruct tail_first as (c & rest & -> & _). done.
Qed.

Lemma tail_split : PyStr.split PyStr.slash tail = [owner; repo].
Proof.
  destruct (plain_name_parts _ Howner) as [_ Ho].
  destruct (plain_name_parts _ Hrepo) as [_ Hr].
  unfold tail. change ("/" +:+ repo) with (String PyStr.slash repo).
  rewrite split_app_sep, split_not_mem; [done| |];
    by eapply forallb_not_mem.
Qed.

Lemma tail_no (c : ascii) : PyStr.mem c ":?#;" = true -> PyStr.mem c tail = false.
Proof.
  intros Hc. apply (forallb_not_mem path_char); [apply tail_path_chars|].
  unfold path_char. by rewrite Hc, andb_false_r.
Qed.

Lemma tail_filter : PyStr.filter (fun c => negb (UrlLib.unsafe_url_byte c)) tail = tail.
Proof.
  apply filter_fixed. eapply forallb_impl; [|apply tail_path_chars].
  intros c [Hn _]%andb_true_iff. apply Nat.ltb_lt in Hn.
  unfold UrlLib.unsafe_url_byte. apply negb_true_iff.
  repeat (apply orb_false_iff; split); apply Nat.eqb_neq; lia.
Qed.

Lemma urlparse_full_url :
  UrlLib.urlparse ("https://github.com/" +:+ tail)
  = Ok {| UrlLib.scheme := "https"; UrlLib.netloc := "github.com";
          UrlLib.path := "/" +:+ tail; UrlLib.params := "";
          UrlLib.query := ""; UrlLib.fragment := "" |}.
Proof.
  unfold UrlLib.urlparse.
  change (PyStr.lstrip UrlLib.c0_control_or_space ("https://github.com/" +:+ tail))
    with ("https://github.com/" +:+ tail).
  change (PyStr.filter (fun c => negb (UrlLib.unsafe_url_byte c))
            ("https://github.com/" +:+ tail))
    with ("https://github.com/" +:+
          PyStr.filter (fun c => negb (UrlLib.unsafe_url_byte c)) tail).
  rewrite tail_filter.
  change (UrlLib.split_scheme ("https://github.com/" +:+ tail))
    with ("https", "//github.com/" +:+ tail).
  cbv iota beta.
  change (PyStr.startswith "//" ("//github.com/" +:+ tail)) with true.
  cbv iota.
  change (UrlLib.span_until (fun c => PyStr.mem c "/?#")
            (PyStr.drop 2 ("//github.com/" +:+ tail)))
    with ("github.com", "/" +:+ tail).
  cbv iota beta.
  change (PyStr.mem "[" "github.com") with false.
  change (PyStr.mem "]" "github.com") with false.
  cbn [andb orb negb mbind result_bind].
  unfold UrlLib.cut_at.
  change (PyStr.find "#" ("/" +:+ tail)) with (S <$> PyStr.find "#" tail).
  rewrite (find_not_mem "#" tail) by (by apply tail_no).
  cbn [fmap option_fmap option_map].
  change (PyStr.find "?" ("/" +:+ tail)) with (S <$> PyStr.find "?" tail).
  rewrite (find_not_mem "?" tail) by (by apply tail_no).
  cbn [fmap option_fmap option_map].
  change (PyStr.mem ";" ("/" +:+ tail)) with (PyStr.mem ";" tail).
  rewrite (tail_no ";") by done. rewrite andb_false_r. reflexivity.
Qed.

Lemma mem_app c s t : PyStr.mem c (s +:+ t) = PyStr.mem c s || PyStr.mem c t.
Proof. induction s as [|d rest IH]; simpl; [done|]. by rewrite IH, orb_assoc. Qed.

Lemma urlparse_plain_path s c rest :
  s = String c rest -> c <> PyStr.slash ->
  PyStr.forallb path_char s = true ->
  UrlLib.urlparse s
  = Ok {| UrlLib.scheme := ""; UrlLib.netloc := ""; UrlLib.path := s;
          UrlLib.params := ""; UrlLib.query := ""; UrlLib.fragment := "" |}.
Proof.
  intros Hs Hc Hall.
  assert (Hno : forall d, PyStr.mem d ":?#;" = true -> PyStr.mem d s = false).
  { intros d Hd. apply (forallb_not_mem path_char); [done|].
    unfold path_char. by rewrite Hd, andb_false_r. }
  unfold UrlLib.urlparse.
  rewrite lstrip_fixed.
  2: { intros d Hd. apply (forallb_mem _ _ d) in Hall.
       - apply andb_true_iff in Hall as [Hn _]. apply Nat.ltb_lt in Hn.
         unfold UrlLib.c0_control_or_space. apply Nat.leb_gt. lia.
       - rewrite Hs in *. simpl in Hd. injection Hd as <-.
         simpl. by rewrite Ascii.eqb_refl. }
  rewrite filter_fixed.
  2: { eapply forallb_impl; [|exact Hall].
       intros d [Hn _]%andb_true_iff. apply Nat.ltb_lt in Hn.
       unfold UrlLib.unsafe_url_byte. apply negb_true_iff.
       repeat (apply orb_false_iff; split); apply Nat.eqb_neq; lia. }
  unfold UrlLib.split_scheme. rewrite (find_not_mem ":" s) by (by apply Hno).
  assert (Hstart : PyStr.startswith "//" s = false).
  { rewrite Hs. unfold PyStr.startswith.
    change (String.prefix "//" (String c rest))
      with (match ascii_dec "/" c with
            | left _ => String.prefix "/" rest
            | right _ => false
            end).
    destruct (ascii_dec "/" c) as [Heq|]; [|done].
    exfalso. apply Hc. by rewrite <- Heq. }
  rewrite Hstart. cbn [mbind result_bind].
  unfold UrlLib.cut_at.
  rewrite (find_not_mem "#" s) by (by apply Hno).
  rewrite (find_not_mem "?" s) by (by apply Hno).
  rewrite (Hno ";"%char) by done. by rewrite andb_false_r.
Qed.

Lemma name_char_not_slash c : name_char c = true -> c <> PyStr.slash.
Proof.
  unfold name_char. intros [_ Hm]%andb_true_iff ->. done.
Qed.

Lemma parse_clean url :
  url <> "" -> PyStr.strip url = url -> PyStr.rstrip_chars "/" url = url ->
  parse_github_url url
  = (let url' :=
       if PyStr.startswith "https://github.com" url
          || PyStr.startswith "github.com" url
       then url else "https://github.com/" +:+ url in
     parsed_url ← UrlLib.urlparse url';
     match PyStr.split PyStr.slash
             (PyStr.strip_chars "/" (UrlLib.path parsed_url)) with
     | [owner; repo] => Ok (owner, repo)
     | _ => Raise (GitHubError ("Invalid GitHub URL format: " +:+ url'))
     end).
Proof.
  intros Hne Hstrip Hslash. unfold parse_github_url.
  rewrite Hstrip, Hslash.
  destruct (String.eqb_spec url "") as [|_]; [done|]. reflexivity.
Qed.

Lemma strip_leading_slash s c rest :
  s = String c rest -> c <> PyStr.slash ->
  (forall d, PyStr.last_char s = Some d -> d <> PyStr.slash) ->
  PyStr.strip_chars "/" ("/" +:+ s) = s.
Proof.
  intros Hs Hc Hlast.
  assert (Hm : forall d, d <> PyStr.slash -> PyStr.mem d "/" = false).
  { intros d Hd. simpl. rewrite orb_false_r. by apply Ascii.eqb_neq. }
  unfold PyStr.strip_chars, PyStr.strip_with.
  change (PyStr.lstrip (fun c0 => PyStr.mem c0 "/") ("/" +:+ s))
    with (PyStr.lstrip (fun c0 => PyStr.mem c0 "/") s).
  rewrite lstrip_fixed.
  - apply rstrip_fixed. intros d Hd. apply Hm. by apply Hlast.
  - intros d. rewrite Hs. intros [= <-]. by apply Hm.
Qed.

Lemma parse_plain_full_url :
  parse_github_url ("https://github.com/" +:+ owner +:+ "/" +:+ repo)
  = Ok (owner, repo).
Proof.
  fold tail.
  destruct tail_first as (c & rest & Htail & Hc).
  destruct tail_last as (d & Hlast & Hd).
  pose proof (name_char_not_slash c Hc) as Hcs.
  rewrite parse_clean.
  - cbv zeta.
    change (PyStr.startswith "https://github.com" ("https://github.com/" +:+ tail))
      with true.
    cbn [orb]. rewrite urlparse_full_url. cbn [mbind result_bind UrlLib.path].
    rewrite (strip_leading_slash tail c rest Htail Hcs).
    + by rewrite tail_split.
    + intros e. rewrite Hlast. intros [= <-]. by apply name_char_not_slash.
  - done.
  - unfold PyStr.strip, PyStr.strip_with.
    change (PyStr.lstrip PyStr.isspace ("https://github.com/" +:+ tail))
      with ("https://github.com/" +:+ tail).
    apply rstrip_fixed. intros e. rewrite last_char_app by (by rewrite Htail).
    rewrite Hlast. intros [= <-]. by apply name_char_not_space.
  - apply tail_rstrip_slash.
Qed.

Lemma parse_plain_shorthand :
  parse_github_url (owner +:+ "/" +:+ repo) = Ok (owner, repo).
Proof.
  pose proof parse_plain_full_url as Hfull.
  fold tail in Hfull |- *.
  destruct tail_first as (c & rest & Htail & Hc).
  pose proof (name_char_not_slash c Hc) as Hcs.
  assert (Hne : tail <> "") by (by rewrite Htail).
  rewrite (parse_clean ("https://github.com/" +:+ tail)) in Hfull.
  - rewrite (parse_clean tail Hne tail_strip (tail_rstrip_slash "")).
    cbv zeta in Hfull |- *.
    change (PyStr.startswith "https://github.com" ("https://github.com/" +:+ tail))
      with true in Hfull.
    cbn [orb] in Hfull.
    destruct (_ || _); [|exact Hfull].
    rewrite (urlparse_plain_path tail c rest Htail Hcs tail_path_chars).
    cbn [mbind result_bind UrlLib.path].
    by rewrite tail_strip_slash, tail_split.
  - done.
  - destruct tail_last as (d & Hlast & Hd).
    unfold PyStr.strip, PyStr.strip_with.
    change (PyStr.lstrip PyStr.isspace ("https://github.com/" +:+ tail))
      with ("https://github.com/" +:+ tail).
    apply rstrip_fixed. intros e. rewrite last_char_app by (by rewrite Htail).
    rewrite Hlast. intros [= <-]. by apply name_char_not_space.
  - apply tail_rstrip_slash.
Qed.

(** X4.  The two forms the tab asks for are accepted for every pair of plain
    names (non-empty, printable, without [/ : ? # ;]): both [owner/repo]
    and [https://github.com/owner/repo] parse to the pair of the owner and
    the repository. *)
Theorem parse_accepts_plain_names :
  parse_github_url (owner +:+ "/" +:+ repo) = Ok (owner, repo)
  /\ parse_github_url ("https://github.com/" +:+ owner +:+ "/" +:+ repo)
     = Ok (owner, repo).
Proof. split; [apply parse_plain_shorthand | apply parse_plain_full_url]. Qed.

(** X5.  The third form the docstring lists is refused for every pair of
    plain names, not only for the one of C6: [github.com/owner/repo] keeps
    its prefix, the URL splitter returns all of it as the path, and the three
    segments make the parser raise [GitHubError] with the input in the
    message. *)
Theorem parse_refuses_bare_domain :
  parse_github_url ("github.com/" +:+ owner +:+ "/" +:+ repo)
  = Raise (GitHubError
             ("Invalid GitHub URL format: github.com/" +:+ owner +:+ "/" +:+ repo)).
Proof.
  fold tail.
  destruct tail_first as (c & rest & Htail & Hc).
  destruct tail_last as (d & Hlast & Hd).
  assert (Hlast' : PyStr.last_char ("github.com/" +:+ tail) = Some d).
  { rewrite last_char_app by (by rewrite Htail). exact Hlast. }
  rewrite parse_clean.
  - cbv zeta.
    change (PyStr.startswith "github.com" ("github.com/" +:+ tail)) with true.
    rewrite orb_true_r.
    rewrite (urlparse_plain_path ("github.com/" +:+ tail) "g"
               ("ithub.com/" +:+ tail)); [|done|done|].
    + cbn [mbind result_bind UrlLib.path].
      unfold PyStr.strip_chars, PyStr.strip_with.
      change (PyStr.lstrip (fun c0 => PyStr.mem c0 "/") ("github.com/" +:+ tail))
        with ("github.com/" +:+ tail).
      rewrite rstrip_fixed.
      2: { intros e. rewrite Hlast'. intros [= <-]. by apply name_char_not. }
      change ("github.com/" +:+ tail) with ("github.com" +:+ String PyStr.slash tail)
        at 1.
      rewrite split_app_sep by reflexivity. by rewrite tail_split.
    + rewrite forallb_app, tail_path_chars. reflexivity.
  - done.
  - unfold PyStr.strip, PyStr.strip_with.
    change (PyStr.lstrip PyStr.isspace ("github.com/" +:+ tail))
      with ("github.com/" +:+ tail).
    apply rstrip_fixed. intros e. rewrite Hlast'. intros [= <-].
    by apply name_char_not_space.
  - apply tail_rstrip_slash.
Qed.

End Names.
End ParserAcceptance.

(** The repository the tab gives as its example. *)
Lemma parse_accepts_plain_names_witness :
  Parser.parse_github_url ("gradio-app" +:+ "/" +:+ "gradio") = Ok ("gradio-app", "gradio")
  /\ Parser.parse_github_url ("https://github.com/" +:+ "gradio-app" +:+ "/" +:+ "gradio")
     = Ok ("gradio-app", "gradio").
Proof. apply (parse_accepts_plain_names "gradio-app" "gradio"); reflexivity. Defined.

Lemma parse_refuses_bare_domain_witness :
  Parser.parse_github_url ("github.com/" +:+ "gradio-app" +:+ "/" +:+ "gradio")
  = Raise (GitHubError
             ("Invalid GitHub URL format: github.com/" +:+ "gradio-app" +:+ "/" +:+ "gradio")).
Proof. apply (parse_refuses_bare_domain "gradio-app" "gradio"); reflexivity. Defined.

(** ** File loader: what a document is made of *)

Section AssemblyFacts.

Import FileLoader.

Lemma contains_char c s : PyStr.contains (String c "") s = PyStr.mem c s.
Proof.
  induction s as [|d rest IH]; [done|].
  change (PyStr.contains (String c "") (String d rest))
    with (String.prefix (String c "") (String d rest)
          || PyStr.contains (String c "") rest).
  rewrite IH.
  change (String.prefix (String c "") (String d rest))
    with (match ascii_dec c d with
          | left _ => String.prefix "" rest
          | right _ => false
          end).
  simpl. destruct (ascii_dec c d) as [->|Hne].
  - rewrite Ascii.eqb_refl. by destruct rest.
  - by rewrite (proj2 (Ascii.eqb_neq c d) Hne).
Qed.

Lemma join_cons_char sep c w ws :
  PyStr.join sep (String c w :: ws) = String c (PyStr.join sep (w :: ws)).
Proof. by destruct ws. Qed.

(** A text that holds the separator splits into a non-empty front and a last
    part free of the separator; the front joined, the separator and the last
    part give the text back. *)
Lemma split_front_last sep s :
  PyStr.mem sep s = true ->
  exists front base,
    PyStr.split sep s = front ++ [base]
    /\ front <> []
    /\ s = PyStr.join (String sep "") front +:+ String sep base
    /\ PyStr.mem sep base = false.
Proof.
  induction s as [|c rest IH]; [done|].
  cbn [PyStr.mem PyStr.split]. rewrite (Ascii.eqb_sym sep c).
  destruct (Ascii.eqb_spec c sep) as [->|Hne]; cbn [orb].
  - intros _. destruct (PyStr.mem sep rest) eqn:Hrest.
    + destruct (IH eq_refl) as (front & base & Hsplit & Hfront & Hjoin & Hbase).
      exists ("" :: front), base. rewrite Hsplit.
      split; [done|]. split; [done|]. split; [|done].
      destruct front as [|w ws]; [done|].
      change (PyStr.join (String sep "") ("" :: w :: ws))
        with (String sep (PyStr.join (String sep "") (w :: ws))).
      change (String sep ?a +:+ ?b) with (String sep (a +:+ b)).
      by rewrite <- Hjoin.
    + exists [""], rest. rewrite (split_not_mem _ _ Hrest). repeat split; done.
  - intros Hrest.
    destruct (IH Hrest) as (front & base & Hsplit & Hfront & Hjoin & Hbase).
    destruct front as [|w ws]; [done|].
    exists (String c w :: ws), base. rewrite Hsplit.
    split; [done|]. split; [done|]. split; [|done].
    rewrite join_cons_char.
    change (String c ?a +:+ ?b) with (String c (a +:+ b)).
    by rewrite <- Hjoin.
Qed.

(** X6.  The extension and the directory of a document come from its path
    and give it back: when the path holds a dot, it is some stem, a dot and
    the extension, and the extension holds no dot; when it holds a slash, it
    is the directory, a slash and a last segment without a slash.  Without a
    dot the extension is empty, and without a slash the directory is. *)
Theorem assembly_splits_the_path file_info repo_name branch :
  let path := fi_path file_info in
  let metadata :=
    doc_metadata (create_document_from_file_info file_info repo_name branch) in
  (if PyStr.mem PyStr.dot path
   then exists stem,
          path = stem +:+ "." +:+ md_file_extension metadata
          /\ PyStr.mem PyStr.dot (md_file_extension metadata) = false
   else md_file_extension metadata = "")
  /\ (if PyStr.mem PyStr.slash path
      then exists base,
             path = md_directory metadata +:+ "/" +:+ base
             /\ PyStr.mem PyStr.slash base = false
      else md_directory metadata = "").
Proof.
  cbv zeta. unfold create_document_from_file_info.
  cbn [doc_metadata md_file_extension md_directory].
  rewrite (contains_char PyStr.dot), (contains_char PyStr.slash). split.
  - destruct (PyStr.mem PyStr.dot (fi_path file_info)) eqn:Hdot; cbv iota; [|done].
    destruct (split_front_last _ _ Hdot) as (front & base & Hsplit & _ & Hjoin & Hbase).
    rewrite Hsplit, last_snoc. simpl. by exists (PyStr.join "." front).
  - destruct (PyStr.mem PyStr.slash (fi_path file_info)) eqn:Hslash; cbv iota; [|done].
    destruct (split_front_last _ _ Hslash) as (front & base & Hsplit & _ & Hjoin & Hbase).
    rewrite Hsplit, removelast_last. by exists base.
Qed.

Lemma append_sep_inj (c : ascii) a b a' b' :
  PyStr.mem c a = false -> PyStr.mem c a' = false ->
  a +:+ String c b = a' +:+ String c b' -> a = a' /\ b = b'.
Proof.
  revert a'. induction a as [|d rest IH]; intros [|d' rest']; simpl.
  - by intros _ _ [= ->].
  - intros _ [Hd _]%orb_false_iff [= <- _]. by rewrite Ascii.eqb_refl in Hd.
  - intros [Hd _]%orb_false_iff _ [= -> _]. by rewrite Ascii.eqb_refl in Hd.
  - intros [_ Hrest]%orb_false_iff [_ Hrest']%orb_false_iff [= -> Heq].
    destruct (IH rest' Hrest Hrest' Heq) as [-> ->]. done.
Qed.

(** X7.  The identifier of a document tells the repository, the branch and
    the path apart: when neither the repository names nor the branch names
    hold a colon, two documents with the same identifier have the same
    repository name, the same branch and the same path. *)
Theorem doc_id_identifies_the_file file_info file_info' repo_name repo_name'
    branch branch' :
  PyStr.mem ":" repo_name = false -> PyStr.mem ":" branch = false ->
  PyStr.mem ":" repo_name' = false -> PyStr.mem ":" branch' = false ->
  doc_id (create_document_from_file_info file_info repo_name branch)
  = doc_id (create_document_from_file_info file_info' repo_name' branch') ->
  repo_name = repo_name' /\ branch = branch'
  /\ fi_path file_info = fi_path file_info'.
Proof.
  intros Hr Hb Hr' Hb'. cbn [doc_id create_document_from_file_info].
  intros Heq.
  apply (append_sep_inj ":") in Heq as [-> Heq]; [|done|done].
  apply (append_sep_inj ":") in Heq as [-> Heq]; done.
Qed.

(** X9.  The loop of the loader, whatever makes the building of a document
    fail: the documents are those that could be built, in the order of the
    files, and the paths of the files that could not are added, in that
    order, after the paths that were not retrieved. *)
Theorem conversion_loop_keeps_order assemble file_infos failed_paths :
  convert_all assemble file_infos failed_paths
  = (omap (fun fi => match assemble fi with Ok d => Some d | Raise _ => None end)
       file_infos,
     failed_paths ++
     (fi_path <$>
      List.filter (fun fi => match assemble fi with Ok _ => false | Raise _ => true end)
        file_infos)).
Proof.
  unfold convert_all.
  assert (H : forall docs failed,
    foldl (convert_one assemble) (docs, failed) file_infos
    = (docs ++ omap (fun fi => match assemble fi with Ok d => Some d | Raise _ => None end)
                 file_infos,
       failed ++
       (fi_path <$>
        List.filter (fun fi => match assemble fi with Ok _ => false | Raise _ => true end)
          file_infos))).
  { induction file_infos as [|fi rest IH]; intros docs failed.
    - simpl. by rewrite !app_nil_r.
    - cbn [foldl]. unfold convert_one at 2. cbn [omap list_omap List.filter fst snd].
      destruct (assemble fi) as [d|e]; rewrite IH; cbn [fst snd].
      + by rewrite <- app_assoc.
      + by rewrite <- app_assoc. }
  apply H.
Qed.

End AssemblyFacts.

(** Two retrievals of the same path. *)
Lemma doc_id_identifies_the_file_witness :
  "owner/repo" = "owner/repo" /\ "main" = "main"
  /\ fi_path Samples.readme = fi_path Scenarios.readme_again.
Proof.
  apply (doc_id_identifies_the_file Samples.readme Scenarios.readme_again
           "owner/repo" "owner/repo" "main" "main"); reflexivity.
Defined.

Section LoaderLabels.

Import FileLoader.

Variable fetch : string -> string -> string -> result GitHubFileInfo.

(** X8.  What the loader returns for a repository with a plain owner and
    name is labelled with [owner/repo], whichever form the reference had:
    every document carries that repository name and the branch, has the
    identifier [owner/repo:branch:path], and links to the page of its file
    on the web, so the fallback of the link is not taken. *)
Theorem loaded_documents_are_labelled repo_url file_paths branch n w
    owner repo documents failed_paths w' :
  Parser.parse_github_url repo_url = Ok (owner, repo) ->
  plain_name owner = true -> plain_name repo = true ->
  load_files_from_github fetch repo_url file_paths branch n w
  = (Ok (documents, failed_paths), w') ->
  Forall (fun d =>
            md_repo (doc_metadata d) = owner +:+ "/" +:+ repo
            /\ md_branch (doc_metadata d) = branch
            /\ doc_id d
               = (owner +:+ "/" +:+ repo) +:+ ":" +:+ branch +:+ ":" +:+
                 md_file_path (doc_metadata d)
            /\ md_url (doc_metadata d)
               = Parser.build_github_web_url owner repo
                   (md_file_path (doc_metadata d)) branch)
    documents.
Proof.
  intros Hparse Howner Hrepo Hload.
  destruct file_paths as [|path rest].
  { injection Hload as <- _ _. constructor. }
  rewrite (load_files_outcome fetch repo_url (path :: rest) branch n w owner repo)
    in Hload; [|discriminate|exact Hparse].
  injection Hload as <- _ _.
  apply Forall_fmap, Forall_forall. intros file_info _.
  unfold create_document_from_file_info.
  rewrite (parse_plain_shorthand owner repo Howner Hrepo).
  cbn [doc_metadata md_repo md_branch doc_id md_url md_file_path].
  done.
Qed.

End LoaderLabels.

(** The full URL of a repository, of which the transport has one file. *)
Lemma loaded_documents_are_labelled_witness :
  Forall (fun d =>
            md_repo (doc_metadata d) = "owner" +:+ "/" +:+ "repo"
            /\ md_branch (doc_metadata d) = "main"
            /\ doc_id d
               = ("owner" +:+ "/" +:+ "repo") +:+ ":" +:+ "main" +:+ ":" +:+
                 md_file_path (doc_metadata d)
            /\ md_url (doc_metadata d)
               = Parser.build_github_web_url "owner" "repo"
                   (md_file_path (doc_metadata d)) "main")
    [Samples.readme_document].
Proof.
  apply (loaded_documents_are_labelled Samples.only_readme
           "https://github.com/owner/repo" Samples.two_paths "main" 10 fresh_world
           "owner" "repo" [Samples.readme_document] ["docs/missing.md"]
           {| requests := Samples.two_paths; time_reads := 0; submissions := [] |});
    vm_compute; reflexivity.
Defined.

(** ** Progress rendering: the bar and the summary *)

Section RenderingFacts.

Variable obj_str : pyval -> string.
Variable float_grouped : Q -> string.

Local Abbreviation render := (Display.format_progress_display obj_str float_grouped).

Lemma append_assoc (a b c : string) : (a +:+ b) +:+ c = a +:+ (b +:+ c).
Proof.
  induction a as [|x a IH]; [done|].
  change (String x ((a +:+ b) +:+ c) = String x (a +:+ (b +:+ c))).
  by rewrite IH.
Qed.

Lemma bind_Ok {A B : Type} (m : result A) (k : A -> result B) b :
  m ≫= k = Ok b -> exists a, m = Ok a /\ k a = Ok b.
Proof. destruct m as [a|e]; simpl; [eauto | done]. Qed.

Lemma has_entry_not_empty (d : pydict) key v :
  d !! key = Some v -> Py.dict_is_empty d = false.
Proof.
  intros Hkey. destruct (Py.dict_is_empty d) eqn:He; [|done].
  apply dict_is_empty_spec in He. subst. by rewrite lookup_empty in Hkey.
Qed.

Lemma get_entry (d : pydict) key v dflt :
  d !! key = Some v -> Py.get d key dflt = v.
Proof. intros H. unfold Py.get. by rewrite H. Qed.

(** A whole number of percent is printed with [.0]. *)
Lemma fixed1_whole n : 0 <= n -> Py.fixed1 (inject_Z n) = pretty n +:+ ".0".
Proof.
  intros Hn. unfold Py.fixed1, Py.round_half_even.
  change (Qnum (inject_Z n * inject_Z 10)) with (n * 10).
  change (Z.pos (Qden (inject_Z n * inject_Z 10))) with 1.
  rewrite Z.div_1_r, Z.mod_1_r. change (2 * 0 ?= 1) with Lt. cbv iota.
  assert (Hle : Qle_bool 0 (inject_Z n) = true).
  { apply Qle_bool_iff. unfold Qle. cbn [Qnum Qden inject_Z]. lia. }
  rewrite Hle.
  rewrite Z.abs_eq by lia. rewrite Z.div_mul by lia. rewrite Z.mod_mul by lia.
  reflexivity.
Qed.

(** The cells of the bar for a whole number of percent: two fifths of it,
    the fraction dropped. *)
Lemma filled_cells n :
  0 <= n -> Py.int_of (inject_Z n / (5 # 2)) = 2 * n / 5.
Proof.
  intros Hn. unfold Py.int_of.
  change (Qnum (inject_Z n / (5 # 2))) with (n * 2).
  change (Z.pos (Qden (inject_Z n / (5 # 2)))) with 5.
  rewrite Z.quot_div_nonneg by lia. f_equal. lia.
Qed.

(** X10.  For a whole number of percent between 0 and 100 the rendering,
    when it comes out, prints the number with one decimal and, under it, a
    bar of exactly forty cells, of which two fifths of the number (the
    fraction dropped) are filled. *)
Theorem bar_has_forty_cells progress_state n text :
  progress_state !! "progress" = Some (VInt n) ->
  0 <= n <= 100 ->
  render progress_state = Ok text ->
  exists filled empty before after,
    filled = Z.to_nat (2 * n / 5)
    /\ (filled + empty = 40)%nat
    /\ text =
       before +:+
       "📈 **Progress:** " +:+ pretty n +:+ ".0" +:+ "%" +:+ Display.nl +:+
       "[" +:+ PyStr.repeat_nat "█" filled +:+ PyStr.repeat_nat "░" empty +:+ "] " +:+
       pretty n +:+ ".0" +:+ "%" +:+ after.
Proof.
  intros Hprogress Hn Hrender.
  unfold Display.format_progress_display in Hrender.
  rewrite (has_entry_not_empty _ _ _ Hprogress) in Hrender.
  rewrite (get_entry _ _ _ (VInt 0) Hprogress) in Hrender.
  change (Py.true_div (VInt n) (VFloat (5 # 2)))
    with (Ok (inject_Z n / (5 # 2))%Q) in Hrender.
  cbn [mbind result_bind] in Hrender.
  rewrite filled_cells in Hrender by lia.
  apply bind_Ok in Hrender as (emoji & _ & Hrender).
  change (Py.format_1f (VInt n)) with (Ok (Py.fixed1 (inject_Z n))) in Hrender.
  cbn [mbind result_bind] in Hrender.
  rewrite fixed1_whole in Hrender by lia.
  apply bind_Ok in Hrender as (step_section & _ & Hrender).
  assert (Hfilled : 0 <= 2 * n / 5 <= 40).
  { split; [apply Z.div_pos; lia|]. apply Z.div_le_upper_bound; lia. }
  exists (Z.to_nat (2 * n / 5)), (Z.to_nat (40 - 2 * n / 5)).
  exists (emoji +:+ " **" +:+
          Display.py_str obj_str (Py.get progress_state "message" (VStr "")) +:+
          "**" +:+ Display.nl +:+ Display.nl +:+
          "📊 **Current Phase:** " +:+
          Display.py_str obj_str (Py.get progress_state "phase" (VStr "")) +:+
          Display.nl).
  unfold PyStr.repeat in Hrender.
  set (details := "📝 **Details:**" +:+ Display.nl +:+
         Display.py_str obj_str (Py.get progress_state "details" (VStr "")) +:+
         Display.nl) in *.
  destruct (Py.eq_str _ "complete").
  - apply bind_Ok in Hrender as (summary & _ & [= <-]).
    exists (Display.nl +:+ Display.nl +:+ step_section +:+ details +:+ summary).
    split; [done|]. split; [lia|].
    rewrite !append_assoc. reflexivity.
  - destruct (Py.eq_str _ "error").
    + apply bind_Ok in Hrender as (summary & _ & [= <-]).
      exists (Display.nl +:+ Display.nl +:+ step_section +:+ details +:+ summary).
      split; [done|]. split; [lia|].
      rewrite !append_assoc. reflexivity.
    + injection Hrender as <-.
      exists (Display.nl +:+ Display.nl +:+ step_section +:+ details).
      split; [done|]. split; [lia|].
      rewrite !append_assoc. reflexivity.
Qed.

End RenderingFacts.

Lemma bar_has_forty_cells_witness :
  exists filled empty before after,
    filled = Z.to_nat (2 * 50 / 5)
    /\ (filled + empty = 40)%nat
    /\ Scenarios.half_way_text =
       before +:+
       "📈 **Progress:** " +:+ pretty 50 +:+ ".0" +:+ "%" +:+ Display.nl +:+
       "[" +:+ PyStr.repeat_nat "█" filled +:+ PyStr.repeat_nat "░" empty +:+ "] " +:+
       pretty 50 +:+ ".0" +:+ "%" +:+ after.
Proof.
  apply (bar_has_forty_cells (obj_str Samples.quiet_env)
           (float_grouped Samples.quiet_env) Scenarios.half_way 50
           Scenarios.half_way_text).
  - vm_compute. reflexivity.
  - lia.
  - vm_compute. reflexivity.
Defined.

Section CompleteSummary.

Variable obj_str : pyval -> string.
Variable float_grouped : Q -> string.





End CompleteSummary.


(** ** Store submission *)

Section IngestionFacts.

Variable env : collaborators.

(** What a submission does, case by case: the clock is read once at the
    start, once after the store is there and once after the index is built,
    and once more in the [except] branch. *)
Lemma ingest_documents_cases documents repo_name branch w :
  Ingestion.ingest_documents env documents repo_name branch w
  = match documents with
    | [] => (Ok false, w)
    | _ =>
        let failed reads handed e :=
          (Raise (IngestionError ("Document ingestion failed: " +:+ exn_str e)),
           {| requests := requests w;
              time_reads := reads + time_reads w;
              submissions := submissions w ++ handed |}) in
        match get_vector_store env with
        | Raise e => failed 2%nat [] e
        | Ok _ =>
            match index_from_documents env documents with
            | Raise e => failed 3%nat [(documents, repo_name)] e
            | Ok _ =>
                match update_repository_info env repo_name
                        (Z.of_nat (length documents)) branch with
                | Raise e => failed 4%nat [(documents, repo_name)] e
                | Ok _ =>
                    (Ok true,
                     {| requests := requests w;
                        time_reads := 3 + time_reads w;
                        submissions := submissions w ++ [(documents, repo_name)] |})
                end
            end
        end
    end.
Proof.
  unfold Ingestion.ingest_documents.
  destruct documents as [|document rest]; [reflexivity|].
  set (documents := document :: rest).
  unfold mbind, io_bind, try_except, lift, time_time, log_submission, io_raise, mret, io_ret.
  cbn [requests time_reads submissions].
  destruct (get_vector_store env) as [[]|e].
  2: { cbv zeta. by rewrite app_nil_r. }
  destruct (index_from_documents env documents) as [[]|e]; [|reflexivity].
  destruct (update_repository_info env repo_name _ branch) as [[]|e]; reflexivity.
Qed.

(** X12.  The submission answers [False] only for an empty list of
    documents, and then touches nothing.  It answers [True] only when the
    documents were handed to the store, once, with three readings of the
    clock.  Every failure of the store, of the index or of the repository
    update is raised as [IngestionError] with the message of the cause; a
    failure of the set-up of the pipeline is raised as it is. *)
Theorem ingestion_raises_on_failure documents repo_name w :
  match Ingestion.ingest_documents_async env documents repo_name w with
  | (Ok success, w') =>
      if success
      then documents <> []
           /\ time_reads w' = (3 + time_reads w)%nat
           /\ submissions w' = submissions w ++ [(documents, repo_name)]
      else documents = [] /\ w' = w
  | (Raise e, w') =>
      (pipeline_init env = Raise e /\ w' = w)
      \/ (documents <> []
          /\ exists cause,
               e = IngestionError ("Document ingestion failed: " +:+ exn_str cause)
               /\ (get_vector_store env = Raise cause
                   \/ index_from_documents env documents = Raise cause
                   \/ update_repository_info env repo_name
                        (Z.of_nat (length documents)) "main" = Raise cause))
  end.
Proof.
  unfold Ingestion.ingest_documents_async, mbind, io_bind, lift.
  destruct (pipeline_init env) as [[]|e]; [|by left].
  rewrite ingest_documents_cases.
  destruct documents as [|document rest]; [done|].
  set (documents := document :: rest).
  destruct (get_vector_store env) as [[]|e] eqn:Hstore.
  2: { right. split; [done|]. exists e. eauto. }
  destruct (index_from_documents env documents) as [[]|e] eqn:Hindex.
  2: { right. split; [done|]. exists e. eauto. }
  destruct (update_repository_info env repo_name _ "main") as [[]|e] eqn:Hupdate.
  2: { right. split; [done|]. exists e. eauto. }
  done.
Qed.

End IngestionFacts.

(** ** The two stages, on every input *)

Section StageOutcomes.

Import IngestionTab.

Variable env : collaborators.

Local Abbreviation render := (IngestionTab.format_progress_display env).

Lemma render_vector_error_returns e failed_files_data :
  returns (render (vector_error_progress e failed_files_data)).
Proof.
  unfold IngestionTab.format_progress_display, Display.format_progress_display.
  unfold vector_error_progress.
  rewrite dict_not_empty. read_dict.
  cbn -[String.append pretty dict Py.fixed1].
  unfold Display.vector_ingestion_section. read_dict.
  cbn -[String.append pretty dict Py.fixed1].
  unfold Display.error_summary. read_dict.
  cbn -[String.append pretty dict Py.fixed1 PyStr.take String.length]. exact I.
Qed.

Lemma render_ingestion_failed_returns : returns (render ingestion_failed).
Proof. vm_compute. exact I. Qed.

Lemma truthy_documents (current_progress : pydict) documents :
  Py.get current_progress "loaded_documents" (VDocs []) = VDocs documents ->
  Py.truthy (VDocs documents) = true ->
  current_progress !! "loaded_documents" = Some (VDocs documents)
  /\ documents <> [].
Proof.
  unfold Py.get. intros Hget Htruthy.
  assert (Hne : documents <> []) by (intros ->; done).
  split; [|done].
  destruct (current_progress !! "loaded_documents") as [v|]; simpl in Hget.
  - by subst.
  - injection Hget as <-. done.
Qed.

(** What the [except] branch of stage 2 hands back. *)
Lemma stage2_handler_answers (current_progress : pydict) e w :
  exists text,
    (_ ← time_time env;
     return_progress env
       (vector_error_progress e (Py.get current_progress "failed_files" (VStrs []))))
      w
    = (Ok (vector_error_progress e (Py.get current_progress "failed_files" (VStrs [])),
           text),
       {| requests := requests w; time_reads := S (time_reads w);
          submissions := submissions w |}).
Proof.
  destruct (returns_Ok _ (render_vector_error_returns e
              (Py.get current_progress "failed_files" (VStrs [])))) as [text Htext].
  exists text.
  unfold mbind, io_bind, time_time, return_progress, mbind, io_bind, lift, mret, io_ret.
  by rewrite Htext.
Qed.

Lemma status_of_vector_error e failed_files_data :
  vector_error_progress e failed_files_data !! "status" = Some (VStr "error")
  /\ vector_error_progress e failed_files_data !! "error" = Some (VStr (exn_str e)).
Proof. unfold vector_error_progress. split; read_dict; reflexivity. Qed.

Lemma ingest_async_frame documents repo_name w :
  match Ingestion.ingest_documents_async env documents repo_name w with
  | (Ok success, w') =>
      if success
      then documents <> []
           /\ requests w' = requests w
           /\ submissions w' = submissions w ++ [(documents, repo_name)]
      else documents = [] /\ w' = w
  | (Raise e, w') => requests w' = requests w
  end.
Proof.
  unfold Ingestion.ingest_documents_async, mbind, io_bind, lift.
  destruct (pipeline_init env) as [[]|e]; [|done].
  rewrite ingest_documents_cases.
  destruct documents as [|document rest]; [done|].
  destruct (get_vector_store env) as [[]|e]; [|done].
  destruct (index_from_documents env _) as [[]|e]; [|done].
  destruct (update_repository_info env repo_name _ "main") as [[]|e]; done.
Qed.

Lemma io_bind_eq {A B : Type} (m : io A) (k : A -> io B) w :
  (m ≫= k) w
  = match m w with
    | (Ok a, w') => k a w'
    | (Raise e, w') => (Raise e, w')
    end.
Proof. reflexivity. Qed.

Lemma try_except_eq {A : Type} (m : io A) (h : exn -> io A) w :
  try_except m h w
  = match m w with
    | (Ok a, w') => (Ok a, w')
    | (Raise e, w') => h e w'
    end.
Proof. reflexivity. Qed.

(** X14.  Stage 2 answers on every progress state and with every behaviour
    of its collaborators: it raises nothing, issues no retrieval, and returns
    a snapshot in the [error] or in the [complete] status.  A [complete]
    snapshot is returned only when the progress state held a non-empty list
    of documents, and then these were handed to the store once, under the
    repository name of the state, and their number is what the snapshot
    reports as processed. *)
Theorem stage2_always_answers current_progress w :
  exists snapshot text w',
    _start_vector_ingestion env current_progress w = (Ok (snapshot, text), w')
    /\ requests w' = requests w
    /\ (snapshot !! "status" = Some (VStr "error")
        \/ snapshot !! "status" = Some (VStr "complete")
           /\ exists documents,
                current_progress !! "loaded_documents" = Some (VDocs documents)
                /\ documents <> []
                /\ snapshot !! "documents_processed"
                   = Some (VInt (int_of_len documents))
                /\ submissions w'
                   = submissions w ++
                     [(documents,
                       Display.py_str (obj_str env)
                         (Py.get current_progress "repo_name" (VStr "")))]).
Proof.
  unfold _start_vector_ingestion.
  destruct (Py.eq_str (Py.get current_progress "step" VNone) "file_loading_complete").
  2: { cbn [negb].
       destruct (returns_Ok _ (render_not_loaded_returns env)) as [text Htext].
       exists not_loaded_error, text, w. split; [|split; [done|left]].
       - unfold return_progress. rewrite io_bind_eq. unfold lift. by rewrite Htext.
       - unfold not_loaded_error. read_dict. reflexivity. }
  cbn [negb].
  destruct (Py.truthy (Py.get current_progress "loaded_documents" (VDocs []))) eqn:Htruthy.
  2: { cbn [negb].
       destruct (returns_Ok _ (render_no_documents_returns env)) as [text Htext].
       exists no_documents_error, text, w. split; [|split; [done|left]].
       - unfold return_progress. rewrite io_bind_eq. unfold lift. by rewrite Htext.
       - unfold no_documents_error. read_dict. reflexivity. }
  cbn [negb].
  rewrite io_bind_eq. unfold time_time at 1. cbv beta iota.
  rewrite try_except_eq.
  set (w1 := {| requests := requests w; time_reads := S (time_reads w);
                submissions := submissions w |}).
  set (repo_name := Py.get current_progress "repo_name" (VStr "")).
  match goal with
  | |- context [let (r, w2) := ?b w1 in _] => set (body := b)
  end.
  assert (Hbody :
    match body w1 with
    | (Ok (snapshot, text), w2) =>
        requests w2 = requests w
        /\ snapshot !! "status" = Some (VStr "complete")
        /\ exists documents,
             current_progress !! "loaded_documents" = Some (VDocs documents)
             /\ documents <> []
             /\ snapshot !! "documents_processed" = Some (VInt (int_of_len documents))
             /\ submissions w2
                = submissions w ++ [(documents, Display.py_str (obj_str env) repo_name)]
    | (Raise e, w2) => requests w2 = requests w
    end).
  { subst body. rewrite io_bind_eq. unfold lift at 1.
    destruct (Py.get current_progress "loaded_documents" (VDocs []))
      as [| | | | |documents|] eqn:Hdocs; cbn [as_documents]; cbv iota; try done.
    destruct (truthy_documents _ _ Hdocs Htruthy) as [Hlookup Hne].
    rewrite io_bind_eq.
    pose proof (ingest_async_frame documents
                  (Display.py_str (obj_str env) repo_name) w1) as Hingest.
    destruct (Ingestion.ingest_documents_async env documents _ w1)
      as [[[|]|e] w2]; [| |done].
    2: { by destruct Hingest as [-> _]. }
    destruct Hingest as (_ & Hrequests & Hsubmissions).
    rewrite io_bind_eq. unfold time_time at 1. cbv beta iota.
    rewrite io_bind_eq. unfold lift at 1.
    destruct (add_float _ _) as [total_time|e]; [|done].
    unfold return_progress. rewrite io_bind_eq. unfold lift at 1.
    destruct (IngestionTab.format_progress_display env _) as [text|e]; [|done].
    cbn [mret io_ret requests submissions].
    split; [done|]. split.
    { unfold complete_progress. read_dict. reflexivity. }
    exists documents. split; [done|]. split; [done|]. split; [|done].
    unfold complete_progress. read_dict. reflexivity. }
  destruct (body w1) as [[[snapshot text]|e] w2].
  - exists snapshot, text, w2. destruct Hbody as (Hrequests & Hstatus & Hdocs).
    split; [done|]. split; [done|]. right. by split.
  - destruct (stage2_handler_answers current_progress e w2) as [text Htext].
    rewrite Htext. eexists _, text, _. split; [reflexivity|].
    split; [done|]. left. apply status_of_vector_error.
Qed.

End StageOutcomes.

Section StageSuccess.

Import IngestionTab.

Variable env : collaborators.

Local Abbreviation render := (IngestionTab.format_progress_display env).



End StageSuccess.


Section StageOneOutcomes.

Import IngestionTab.

Variable env : collaborators.

Local Abbreviation render := (IngestionTab.format_progress_display env).

Lemma render_invalid_url_returns : returns (render invalid_repository_url).
Proof. vm_compute. exact I. Qed.

(** Whether an update enables step 2 can be read off the status it holds. *)
Local Abbreviation button_follows_status :=
  (fun u : update => u.2 = Py.eq_str (Py.get u.1.1 "status" VNone) "loaded").

(** X13.  Stage 1 answers on every input and with every behaviour of the
    loader: it raises nothing and yields one update or two.  An update
    enables step 2 exactly when the snapshot it carries is in the [loaded]
    status. *)
Theorem stage1_always_answers repo_url selected_files current_progress w :
  exists updates w',
    _start_file_loading_generator env repo_url selected_files current_progress w
    = (Ok tt, updates, w')
    /\ (1 <= length updates <= 2)%nat
    /\ Forall button_follows_status updates.
Proof.
  destruct selected_files as [|path rest].
  { destruct (stage1_refuses_empty_selection env repo_url current_progress w)
      as [text ->].
    eexists _, _. split; [reflexivity|]. split; [simpl; lia|].
    constructor; [|constructor]. unfold no_files_selected. cbn [fst snd].
    read_dict. reflexivity. }
  set (selected_files := path :: rest).
  destruct (displayed_repo_name repo_url) as [repo_name|] eqn:Hname.
  2: { destruct (returns_Ok _ render_invalid_url_returns) as [text Htext].
       exists [(invalid_repository_url, text, false)], (time_time env w).2.
       split; [|split; [simpl; lia|]].
       - unfold _start_file_loading_generator. subst selected_files.
         unfold mbind, gen_bind, await. unfold time_time at 1. rewrite Hname.
         unfold yield_progress, mbind, gen_bind, await, lift, yield.
         by rewrite Htext.
       - constructor; [|constructor]. unfold invalid_repository_url. cbn [fst snd].
         read_dict. reflexivity. }
  destruct (FileLoader.load_files_from_github (fetch_file env) repo_url selected_files
              "main" 10 (time_time env w).2) as [[[documents failed_files]|e] w1]
    eqn:Hload.
  - destruct (returns_Ok _ (render_initial_returns env repo_name
                (int_of_len selected_files))) as [text0 H0].
    set (t := (clock env (time_reads w1) - clock env (time_reads w))%Q).
    destruct (returns_Ok _ (render_completion_returns env repo_name
                (int_of_len selected_files) documents failed_files t))
      as [text1 H1].
    exists [(initial_progress repo_name (int_of_len selected_files), text0, false);
            (completion_progress repo_name (int_of_len selected_files)
               documents failed_files t, text1, true)],
           (time_time env w1).2.
    split; [|split; [simpl; lia|]].
    + unfold _start_file_loading_generator. subst selected_files.
      unfold mbind, gen_bind, await.
      unfold time_time at 1.
      rewrite Hname.
      unfold gen_try_except, yield_progress, mbind, gen_bind, await, lift, yield.
      rewrite H0.
      unfold time_time in Hload at 1. cbn [snd] in Hload.
      rewrite Hload.
      unfold time_time at 1. fold t. rewrite H1. reflexivity.
    + constructor; [|constructor; [|constructor]]; cbn [fst snd].
      * unfold initial_progress. read_dict. reflexivity.
      * unfold completion_progress. read_dict. reflexivity.
  - destruct (stage1_reports_loader_failure env repo_url selected_files
                current_progress w repo_name e w1) as (text0 & text1 & t & -> & _);
      [discriminate | exact Hname | exact Hload |].
    eexists _, _. split; [reflexivity|]. split; [simpl; lia|].
    constructor; [|constructor; [|constructor]]; cbn [fst snd].
    + unfold initial_progress. read_dict. reflexivity.
    + unfold loading_error_progress. read_dict. reflexivity.
Qed.

End StageOneOutcomes.

Section StageTwoOnce.

Import IngestionTab.

Variable env : collaborators.

(** No snapshot stage 2 returns is a completed stage 1. *)
Lemma stage2_leaves_no_load current_progress :
  io_post (fun r => ready_for_stage2 r.1 = false)
    (_start_vector_ingestion env current_progress).
Proof.
  unfold _start_vector_ingestion.
  destruct (negb (Py.eq_str _ _)).
  { apply (io_post_return_progress env (fun d => ready_for_stage2 d = false)).
    unfold ready_for_stage2, not_loaded_error. read_dict. reflexivity. }
  destruct (negb (Py.truthy _)).
  { apply (io_post_return_progress env (fun d => ready_for_stage2 d = false)).
    unfold ready_for_stage2, no_documents_error. read_dict. reflexivity. }
  apply io_post_bind. intros vector_start_time. apply io_post_try.
  - apply io_post_bind. intros docs. apply io_post_bind. intros success.
    apply io_post_bind. intros now. apply io_post_bind. intros total_time.
    destruct success.
    + apply (io_post_return_progress env (fun d => ready_for_stage2 d = false)).
      unfold ready_for_stage2, complete_progress. read_dict. reflexivity.
    + apply (io_post_return_progress env (fun d => ready_for_stage2 d = false)).
      unfold ready_for_stage2, ingestion_failed. read_dict. reflexivity.
  - intros e. apply io_post_bind. intros _.
    apply (io_post_return_progress env (fun d => ready_for_stage2 d = false)).
    unfold ready_for_stage2, vector_error_progress. read_dict. reflexivity.
Qed.

(** X17.  One load is stored once: whatever stage 2 returns, be it a
    [complete] snapshot or an error, is not a completed stage 1, so that
    stage 2, called again on what it returned, is refused with an [error]
    snapshot and leaves the world as it is. *)
Theorem stage2_runs_once_per_load current_progress w snapshot text w' :
  _start_vector_ingestion env current_progress w = (Ok (snapshot, text), w') ->
  exists refusal text',
    _start_vector_ingestion env snapshot w' = (Ok (refusal, text'), w')
    /\ refusal !! "status" = Some (VStr "error").
Proof.
  intros Hrun.
  pose proof (stage2_leaves_no_load current_progress w) as Hpost.
  rewrite Hrun in Hpost. cbn [fst] in Hpost.
  unfold ready_for_stage2 in Hpost. unfold _start_vector_ingestion.
  destruct (Py.eq_str (Py.get snapshot "step" VNone) "file_loading_complete").
  - cbn [andb] in Hpost. rewrite Hpost. cbn [negb].
    destruct (returns_Ok _ (render_no_documents_returns env)) as [text' Htext].
    exists no_documents_error, text'. split.
    + unfold return_progress, mbind, io_bind, lift. by rewrite Htext.
    + unfold no_documents_error. read_dict. reflexivity.
  - cbn [negb].
    destruct (returns_Ok _ (render_not_loaded_returns env)) as [text' Htext].
    exists not_loaded_error, text'. split.
    + unfold return_progress, mbind, io_bind, lift. by rewrite Htext.
    + unfold not_loaded_error. read_dict. reflexivity.
Qed.

End StageTwoOnce.

(** A second click on step 2 after a completed run. *)
Lemma stage2_runs_once_per_load_witness :
  exists refusal text',
    IngestionTab._start_vector_ingestion Samples.quiet_env Scenarios.completed
      Scenarios.after_store
    = (Ok (refusal, text'), Scenarios.after_store)
    /\ refusal !! "status" = Some (VStr "error").
Proof.
  apply (stage2_runs_once_per_load Samples.quiet_env Scenarios.loaded_in_one_second
           fresh_world Scenarios.completed Scenarios.completed_text
           Scenarios.after_store).
  vm_compute. reflexivity.
Defined.

Section DisplayedName.

Import IngestionTab.

Lemma prefix_mem old s c :
  String.prefix old s = true -> PyStr.mem c old = true -> PyStr.mem c s = true.
Proof.
  revert s. induction old as [|a old IH]; intros s; [done|].
  destruct s as [|b s]; [done|].
  change (String.prefix (String a old) (String b s))
    with (match ascii_dec a b with
          | left _ => String.prefix old s
          | right _ => false
          end).
  destruct (ascii_dec a b) as [<-|]; [|done].
  intros Hprefix. cbn [PyStr.mem].
  intros [Hc|Hc]%orb_true_iff; [by rewrite Hc|].
  rewrite (IH s Hprefix Hc). apply orb_true_r.
Qed.

(** Nothing is replaced in a text that lacks a character of the pattern. *)
Lemma replace_without old new s c :
  PyStr.mem c old = true -> PyStr.mem c s = false ->
  PyStr.replace_from old new 0 s = s.
Proof.
  intros Hold. induction s as [|d s IH]; [done|].
  intros Hs. cbn [PyStr.replace_from].
  destruct (String.prefix old (String d s)) eqn:Hprefix.
  - apply (prefix_mem _ _ c) in Hprefix; [congruence | done].
  - rewrite IH; [done|]. cbn [PyStr.mem] in Hs. by apply orb_false_iff in Hs as [_ ?].
Qed.

Lemma contains_without sub s c :
  PyStr.mem c sub = true -> PyStr.mem c s = false -> PyStr.contains sub s = false.
Proof.
  intros Hsub. induction s as [|d s IH]; intros Hs.
  - cbn [PyStr.contains]. destruct sub; [done|reflexivity].
  - cbn [PyStr.contains].
    destruct (String.prefix sub (String d s)) eqn:Hprefix.
    + apply (prefix_mem _ _ c) in Hprefix; [congruence | done].
    + cbn [orb]. apply IH. cbn [PyStr.mem] in Hs. by apply orb_false_iff in Hs as [_ ?].
Qed.

Lemma prefix_app old t : String.prefix old (old +:+ t) = true.
Proof.
  induction old as [|a old IH]; [by destruct t|].
  change (String.prefix (String a old) (String a old +:+ t))
    with (match ascii_dec a a with
          | left _ => String.prefix old (old +:+ t)
          | right _ => false
          end).
  by destruct (ascii_dec a a).
Qed.

Lemma replace_from_skip old new u t :
  PyStr.replace_from old new (String.length u) (u +:+ t)
  = PyStr.replace_from old new 0 t.
Proof.
  induction u as [|a u IH]; [done|].
  change (String a u +:+ t) with (String a (u +:+ t)).
  cbn [String.length PyStr.replace_from]. exact IH.
Qed.

(** An occurrence at the start is replaced, and the search goes on behind
    it. *)
Lemma replace_at_start a old new t :
  PyStr.replace (String a old) new (String a old +:+ t)
  = new +:+ PyStr.replace (String a old) new t.
Proof.
  unfold PyStr.replace.
  change (String a old +:+ t) with (String a (old +:+ t)) at 1.
  cbn [PyStr.replace_from].
  change (String a (old +:+ t)) with (String a old +:+ t).
  rewrite prefix_app.
  change (String.length (String a old) - 1)%nat with (String.length old - 0)%nat.
  rewrite Nat.sub_0_r. by rewrite replace_from_skip.
Qed.

Section SnapshotNames.

Variables owner repo : string.
Hypothesis Howner : plain_name owner = true.
Hypothesis Hrepo : plain_name repo = true.

Lemma tail_has_slash : PyStr.contains "/" (owner +:+ "/" +:+ repo) = true.
Proof.
  rewrite (contains_char PyStr.slash). rewrite mem_app.
  apply orb_true_r.
Qed.

Lemma tail_replace old :
  PyStr.mem ":" old = true -> PyStr.replace old "" (owner +:+ "/" +:+ repo) = (owner +:+ "/" +:+ repo).
Proof.
  intros Hold. apply (replace_without _ _ _ ":"%char Hold).
  by apply (tail_no owner repo Howner Hrepo).
Qed.

(** X16.  The tab and the loader agree on the name of the repository: for
    a plain owner and a plain repository name, given as [owner/repo] or as
    [https://github.com/owner/repo], the name stage 1 puts in its snapshots,
    under which stage 2 stores the documents, is [owner/repo], the name the
    loader labels the documents with. *)
Theorem tab_names_the_repository_as_the_loader_does :
  displayed_repo_name (owner +:+ "/" +:+ repo) = Some (owner +:+ "/" +:+ repo)
  /\ displayed_repo_name ("https://github.com/" +:+ owner +:+ "/" +:+ repo)
     = Some (owner +:+ "/" +:+ repo).
Proof.
  unfold displayed_repo_name. split.
  - destruct (PyStr.contains "github.com" (owner +:+ "/" +:+ repo)).
    + rewrite !tail_replace by reflexivity.
      rewrite (tail_strip_slash owner repo Howner Hrepo), tail_has_slash. reflexivity.
    + by rewrite (tail_strip owner repo Howner Hrepo).
  - change (PyStr.contains "github.com" ("https://github.com/" +:+ (owner +:+ "/" +:+ repo))) with true.
    cbv iota.
    rewrite (replace_at_start "h" "ttps://github.com/" "").
    change ("" +:+ ?x) with x.
    rewrite !tail_replace by reflexivity.
    rewrite (tail_strip_slash owner repo Howner Hrepo), tail_has_slash. reflexivity.
Qed.

End SnapshotNames.

End DisplayedName.

Lemma tab_names_the_repository_as_the_loader_does_witness :
  IngestionTab.displayed_repo_name ("gradio-app" +:+ "/" +:+ "gradio")
  = Some ("gradio-app" +:+ "/" +:+ "gradio")
  /\ IngestionTab.displayed_repo_name
       ("https://github.com/" +:+ "gradio-app" +:+ "/" +:+ "gradio")
     = Some ("gradio-app" +:+ "/" +:+ "gradio").
Proof.
  apply (tab_names_the_repository_as_the_loader_does "gradio-app" "gradio"); reflexivity.
Defined.

Section LoadedSnapshot.

Import IngestionTab.

Variable env : collaborators.

(** What the loader returns adds up to what it was asked for. *)
Lemma load_files_add_up fetch repo_url file_paths branch n w documents failed_paths w' :
  FileLoader.load_files_from_github fetch repo_url file_paths branch n w
  = (Ok (documents, failed_paths), w') ->
  (length documents + length failed_paths = length file_paths)%nat.
Proof.
  destruct file_paths as [|path rest].
  { by intros [= <- <- _]. }
  destruct (Parser.parse_github_url repo_url) as [[owner repo]|e] eqn:Hparse.
  - rewrite (load_files_outcome fetch repo_url (path :: rest) branch n w owner repo);
      [|discriminate|exact Hparse].
    intros Heq.
    assert (Hdocs : documents
              = (fun fi => FileLoader.create_document_from_file_info fi
                             (owner +:+ "/" +:+ repo) branch)
                <$> Fetcher.retrieved fetch repo_url branch (path :: rest))
      by congruence.
    assert (Hfailed : failed_paths
              = Fetcher.not_retrieved fetch repo_url branch (path :: rest))
      by congruence.
    rewrite Hdocs, Hfailed, length_fmap. apply retrieved_length.
  - unfold FileLoader.load_files_from_github. rewrite Hparse. discriminate.
Qed.

(** The numbers a snapshot shows after a load. *)
Local Abbreviation adds_up :=
  (fun (selected_files : list string) (u : update) =>
     if Py.eq_str (Py.get u.1.1 "status" VNone) "loaded"
     then exists documents failed_files,
            u.1.1 !! "loaded_documents" = Some (VDocs documents)
            /\ u.1.1 !! "failed_files" = Some (VStrs failed_files)
            /\ u.1.1 !! "total_files" = Some (VInt (int_of_len selected_files))
            /\ u.1.1 !! "processed_files" = Some (VInt (int_of_len selected_files))
            /\ u.1.1 !! "successful_files" = Some (VInt (int_of_len documents))
            /\ (length documents + length failed_files = length selected_files)%nat
     else True).

(** X21.  The numbers of a load add up: in every update of stage 1 that is
    in the [loaded] status, the snapshot holds the documents and the failed
    paths, shows the number of selected files as total and as processed and
    the number of documents as successful, and the documents and the failed
    paths together are as many as the files selected. *)
Theorem loaded_snapshot_adds_up repo_url selected_files current_progress w :
  Forall (adds_up selected_files)
    (_start_file_loading_generator env repo_url selected_files current_progress w).1.2.
Proof.
  destruct selected_files as [|path rest].
  { destruct (stage1_refuses_empty_selection env repo_url current_progress w)
      as [text ->].
    constructor; [|constructor]. unfold no_files_selected. cbn [fst snd].
    read_dict. exact I. }
  set (selected_files := path :: rest).
  destruct (displayed_repo_name repo_url) as [repo_name|] eqn:Hname.
  2: { destruct (returns_Ok _ (render_invalid_url_returns env)) as [text Htext].
       unfold _start_file_loading_generator. subst selected_files.
       unfold mbind, gen_bind, await. unfold time_time at 1. rewrite Hname.
       unfold yield_progress, mbind, gen_bind, await, lift, yield.
       rewrite Htext. cbn [fst snd app].
       constructor; [|constructor]. unfold invalid_repository_url. cbn [fst snd].
       read_dict. exact I. }
  destruct (FileLoader.load_files_from_github (fetch_file env) repo_url selected_files
              "main" 10 (time_time env w).2) as [[[documents failed_files]|e] w1]
    eqn:Hload.
  - pose proof (load_files_add_up _ _ _ _ _ _ _ _ _ Hload) as Hsum.
    destruct (returns_Ok _ (render_initial_returns env repo_name
                (int_of_len selected_files))) as [text0 H0].
    set (t := (clock env (time_reads w1) - clock env (time_reads w))%Q).
    destruct (returns_Ok _ (render_completion_returns env repo_name
                (int_of_len selected_files) documents failed_files t))
      as [text1 H1].
    unfold _start_file_loading_generator. subst selected_files.
    unfold mbind, gen_bind, await.
    unfold time_time at 1.
    rewrite Hname.
    unfold gen_try_except, yield_progress, mbind, gen_bind, await, lift, yield.
    rewrite H0.
    unfold time_time in Hload at 1. cbn [snd] in Hload.
    rewrite Hload.
    unfold time_time at 1. fold t. rewrite H1. cbn [fst snd app].
    constructor; [|constructor; [|constructor]]; cbn [fst snd].
    + unfold initial_progress. read_dict. exact I.
    + unfold completion_progress. read_dict.
      exists documents, failed_files. repeat split; try (read_dict; reflexivity).
      exact Hsum.
  - destruct (stage1_reports_loader_failure env repo_url selected_files
                current_progress w repo_name e w1) as (text0 & text1 & t & -> & _);
      [discriminate | exact Hname | exact Hload |].
    cbn [fst snd].
    constructor; [|constructor; [|constructor]]; cbn [fst snd].
    + unfold initial_progress. read_dict. exact I.
    + unfold loading_error_progress. read_dict. exact I.
Qed.

End LoadedSnapshot.

(** ** A session at the tab *)

Section SessionFacts.

Import IngestionTab Session.

Variable env : collaborators.

Lemma load_files_keeps_store fetch repo_url file_paths branch n w :
  submissions (FileLoader.load_files_from_github fetch repo_url file_paths branch n w).2
  = submissions w.
Proof.
  unfold FileLoader.load_files_from_github.
  destruct file_paths as [|path rest]; [reflexivity|].
  destruct (Parser.parse_github_url repo_url) as [[owner repo]|e]; [|reflexivity].
  unfold mbind, io_bind. rewrite get_multiple_files_outcome. reflexivity.
Qed.

(** Stage 1 hands nothing to the store. *)
Lemma stage1_keeps_store repo_url selected_files current_progress w :
  submissions
    (_start_file_loading_generator env repo_url selected_files current_progress w).2
  = submissions w.
Proof.
  unfold _start_file_loading_generator.
  destruct selected_files as [|path rest].
  { unfold yield_progress, mbind, gen_bind, await, lift, yield.
    by destruct (IngestionTab.format_progress_display env no_files_selected). }
  unfold mbind at 1, gen_bind at 1, await at 1. unfold time_time at 1.
  destruct (displayed_repo_name repo_url) as [repo_name|].
  2: { unfold yield_progress, mbind, gen_bind, await, lift, yield.
       by destruct (IngestionTab.format_progress_display env invalid_repository_url). }
  set (w1 := {| requests := requests w; time_reads := S (time_reads w);
                submissions := submissions w |}).
  pose proof (load_files_keeps_store (fetch_file env) repo_url (path :: rest)
                "main" 10 w1) as Hload.
  unfold gen_try_except, yield_progress, mbind, gen_bind, await, lift, yield.
  destruct (IngestionTab.format_progress_display env (initial_progress _ _)).
  - destruct (FileLoader.load_files_from_github _ _ _ _ _ w1)
      as [[[documents failed_files]|e] w2]; cbn [snd] in Hload.
    + unfold time_time.
      destruct (IngestionTab.format_progress_display env (completion_progress _ _ _ _ _)).
      * exact Hload.
      * destruct (IngestionTab.format_progress_display env (loading_error_progress _ _));
          exact Hload.
    + unfold time_time.
      destruct (IngestionTab.format_progress_display env (loading_error_progress _ _));
        exact Hload.
  - unfold time_time.
    destruct (IngestionTab.format_progress_display env (loading_error_progress _ _));
      reflexivity.
Qed.

Lemma ingest_hands_over_once documents repo_name w :
  exists handed,
    submissions (Ingestion.ingest_documents_async env documents repo_name w).2
    = submissions w ++ handed
    /\ (length handed <= 1)%nat.
Proof.
  unfold Ingestion.ingest_documents_async, mbind, io_bind, lift.
  destruct (pipeline_init env) as [[]|e].
  2: { exists []. split; [by rewrite app_nil_r | simpl; lia]. }
  rewrite ingest_documents_cases.
  destruct documents as [|document rest].
  { exists []. split; [by rewrite app_nil_r | simpl; lia]. }
  destruct (get_vector_store env) as [[]|e].
  2: { exists []. split; [reflexivity | simpl; lia]. }
  destruct (index_from_documents env _) as [[]|e].
  2: { eexists. split; [reflexivity | simpl; lia]. }
  destruct (update_repository_info env repo_name _ "main") as [[]|e];
    eexists; (split; [reflexivity | simpl; lia]).
Qed.

(** Stage 2 answers, and hands to the store at most one batch, and none
    when it was not given a completed load. *)
Lemma stage2_hands_over_once current_progress w :
  match _start_vector_ingestion env current_progress w with
  | (r, w') =>
      returns r
      /\ exists handed,
           submissions w' = submissions w ++ handed
           /\ (length handed <= if ready_for_stage2 current_progress then 1 else 0)%nat
  end.
Proof.
  unfold _start_vector_ingestion, ready_for_stage2.
  destruct (Py.eq_str (Py.get current_progress "step" VNone) "file_loading_complete").
  2: { cbn [negb andb].
       destruct (returns_Ok _ (render_not_loaded_returns env)) as [text Htext].
       unfold return_progress. rewrite io_bind_eq. unfold lift.
       rewrite Htext. cbn [mret io_ret]. split; [exact I|].
       exists []. split; [by rewrite app_nil_r | simpl; lia]. }
  cbn [negb andb].
  destruct (Py.truthy (Py.get current_progress "loaded_documents" (VDocs []))).
  2: { cbn [negb].
       destruct (returns_Ok _ (render_no_documents_returns env)) as [text Htext].
       unfold return_progress. rewrite io_bind_eq. unfold lift.
       rewrite Htext. cbn [mret io_ret]. split; [exact I|].
       exists []. split; [by rewrite app_nil_r | simpl; lia]. }
  cbn [negb].
  rewrite io_bind_eq. unfold time_time at 1. cbv beta iota.
  rewrite try_except_eq.
  set (w1 := {| requests := requests w; time_reads := S (time_reads w);
                submissions := submissions w |}).
  match goal with
  | |- context [let (r, w2) := ?b w1 in _] => set (body := b)
  end.
  assert (Hbody : exists handed,
            submissions (body w1).2 = submissions w ++ handed
            /\ (length handed <= 1)%nat).
  { subst body. rewrite io_bind_eq. unfold lift at 1.
    destruct (as_documents _) as [documents|e].
    2: { exists []. cbn [snd]. split; [by rewrite app_nil_r | simpl; lia]. }
    rewrite io_bind_eq.
    destruct (ingest_hands_over_once documents
                (Display.py_str (obj_str env)
                   (Py.get current_progress "repo_name" (VStr ""))) w1)
      as (handed & Hhanded & Hlength).
    exists handed. split; [|exact Hlength].
    destruct (Ingestion.ingest_documents_async env documents _ w1)
      as [[success|e] w2]; cbn [snd] in Hhanded; [|exact Hhanded].
    rewrite io_bind_eq. unfold time_time at 1. cbv beta iota.
    rewrite io_bind_eq. unfold lift at 1.
    destruct (add_float _ _) as [total_time|e]; [|exact Hhanded].
    destruct success.
    - unfold return_progress. rewrite io_bind_eq. unfold lift at 1.
      destruct (IngestionTab.format_progress_display env _); exact Hhanded.
    - unfold return_progress. rewrite io_bind_eq. unfold lift at 1.
      destruct (IngestionTab.format_progress_display env _); exact Hhanded. }
  destruct Hbody as (handed & Hhanded & Hlength).
  destruct (body w1) as [[[snapshot text]|e] w2]; cbn [snd] in Hhanded.
  - split; [exact I|]. exists handed. split; [exact Hhanded | exact Hlength].
  - destruct (stage2_handler_answers env current_progress e w2) as [text Htext].
    rewrite Htext. split; [exact I|]. exists handed.
    split; [exact Hhanded | exact Hlength].
Qed.

(** What holds along a session: the batches handed to the store so far, and
    one more if the tab holds a completed load, are no more than the loads
    asked for. *)
Lemma session_invariant cs st w budget handed0 w0 :
  submissions w = submissions w0 ++ handed0 ->
  (length handed0 + (if ready_for_stage2 (progress_state st) then 1 else 0)
   <= budget)%nat ->
  exists handed,
    submissions (after_clicks env cs st w).2 = submissions w0 ++ handed
    /\ (length handed <= budget + loads cs)%nat.
Proof.
  revert st w budget handed0.
  induction cs as [|c rest IH]; intros st w budget handed0 Hw Hbudget.
  { exists handed0. split; [exact Hw|]. unfold loads. simpl.
    destruct (ready_for_stage2 _); lia. }
  cbn [after_clicks].
  destruct c as [repo_url selected_files| | |].
  - (* step 1 *)
    cbn [on_click].
    pose proof (stage1_keeps_store repo_url selected_files (progress_state st) w)
      as Hstore.
    destruct (_start_file_loading_generator env repo_url selected_files _ w)
      as [[r updates] w1]. cbn [snd] in Hstore.
    destruct (IH (List.last (shown <$> updates) st) w1 (S budget) handed0)
      as (handed & Hhanded & Hlength).
    + by rewrite Hstore.
    + destruct (ready_for_stage2 (progress_state st)),
        (ready_for_stage2 (progress_state (List.last (shown <$> updates) st))); lia.
    + exists handed. split; [exact Hhanded|].
      unfold loads in *. cbn [List.filter length]. lia.
  - (* step 2 *)
    cbn [on_click].
    pose proof (stage2_hands_over_once (progress_state st) w) as Hrun.
    pose proof (stage2_leaves_no_load env (progress_state st) w) as Hpost.
    destruct (_start_vector_ingestion env (progress_state st) w)
      as [[[progress text]|e] w1]; cbn [fst snd returns] in *; [|tauto].
    destruct Hrun as (_ & handed1 & Hstore & Hlength).
    destruct (IH {| progress_state := progress; progress_display := text;
                    step2_interactive := step2_interactive st |}
                w1 budget (handed0 ++ handed1))
      as (handed & Hhanded & Hlength').
    + by rewrite Hstore, Hw, app_assoc.
    + cbn [progress_state]. rewrite Hpost, length_app.
      destruct (ready_for_stage2 (progress_state st)); lia.
    + exists handed. split; [exact Hhanded|].
      unfold loads in *. cbn [List.filter]. exact Hlength'.
  - (* refresh *)
    cbn [on_click]. unfold _refresh_progress.
    destruct (IngestionTab.format_progress_display env (progress_state st))
      as [text|e].
    + destruct (IH {| progress_state := progress_state st; progress_display := text;
                      step2_interactive := step2_interactive st |}
                  w budget handed0 Hw Hbudget) as (handed & Hhanded & Hlength).
      exists handed. split; [exact Hhanded|].
      unfold loads in *. cbn [List.filter]. exact Hlength.
    + destruct (IH st w budget handed0 Hw Hbudget) as (handed & Hhanded & Hlength).
      exists handed. split; [exact Hhanded|].
      unfold loads in *. cbn [List.filter]. exact Hlength.
  - (* reset *)
    cbn [on_click].
    destruct (IH (shown _reset_progress) w budget handed0 Hw)
      as (handed & Hhanded & Hlength).
    + change (ready_for_stage2 (progress_state (shown _reset_progress))) with false.
      destruct (ready_for_stage2 (progress_state st)); lia.
    + exists handed. split; [exact Hhanded|].
      unfold loads in *. cbn [List.filter]. exact Hlength.
Qed.

(** X20.  No load is stored twice: over any sequence of clicks on a fresh
    tab (runs of stage 1, calls of stage 2, refreshes and resets), whatever
    the collaborators do, the batches of documents handed to the store are
    no more than the clicks on step 1. *)
Theorem no_load_is_stored_twice cs w :
  exists handed,
    submissions (after_clicks env cs initial_tab w).2 = submissions w ++ handed
    /\ (length handed <= loads cs)%nat.
Proof.
  destruct (session_invariant cs initial_tab w 0 [] w) as (handed & Hhanded & Hlength).
  - by rewrite app_nil_r.
  - change (ready_for_stage2 (progress_state initial_tab)) with false. simpl. lia.
  - exists handed. split; [exact Hhanded | lia].
Qed.

End SessionFacts.

(** ** File discovery *)

Section DiscoveryFacts.

Import Discovery.

Variable get_repository_tree :
  string -> string -> list string -> result (list string * string).

(** X18.  The discovery offers what it keeps: the step-1 button is enabled
    exactly when the files state holds at least one path, the selector is
    visible exactly then and its choices are the files state, which is also
    what "select all" selects.  An enabled button means the listing returned
    these paths; a disabled one that the reference was blank, that the
    listing found nothing, or that it failed, the status text then being
    [Error: ] and the message of the exception. *)
Theorem discovery_offers_what_it_keeps repo_url :
  match _discover_files get_repository_tree repo_url with
  | (selector, message, files, enabled) =>
      enabled = (if files is [] then false else true)
      /\ cg_visible selector = Some enabled
      /\ cg_choices selector = Some files
      /\ cg_value (_select_all_files files) = Some files
      /\ (if enabled
          then get_repository_tree repo_url "main" [".md"; ".mdx"]
               = Ok (files, message)
          else PyStr.strip repo_url = ""
               \/ (exists note, get_repository_tree repo_url "main" [".md"; ".mdx"]
                                = Ok ([], note) /\ message = note)
               \/ (exists e, get_repository_tree repo_url "main" [".md"; ".mdx"]
                             = Raise e /\ message = "Error: " +:+ exn_str e))
  end.
Proof.
  unfold _discover_files.
  destruct (String.eqb_spec (PyStr.strip repo_url) "") as [Hblank|_].
  { repeat split; try done. by left. }
  unfold discover_repository_files.
  destruct (get_repository_tree repo_url "main" [".md"; ".mdx"])
    as [[files message]|e].
  - destruct files as [|path rest]; [|done].
    repeat split; try done. right. left. by exists message.
  - repeat split; try done. right. right. by exists e.
Qed.

End DiscoveryFacts.

(** ** Addresses *)

Section ApiUrl.

Import Parser.

Lemma lstrip_app_strippable strippable s c :
  strippable c = true ->
  PyStr.lstrip strippable (s +:+ String c "")
  = match PyStr.lstrip strippable s with
    | EmptyString => EmptyString
    | kept => kept +:+ String c ""
    end.
Proof.
  intros Hc. induction s as [|d s IH].
  - change ("" +:+ String c "") with (String c ""). cbn [PyStr.lstrip]. by rewrite Hc.
  - change (String d s +:+ String c "") with (String d (s +:+ String c "")).
    cbn [PyStr.lstrip]. destruct (strippable d); [exact IH | reflexivity].
Qed.

Lemma strip_app_strippable strippable s c :
  strippable c = true ->
  PyStr.strip_with strippable (s +:+ String c "") = PyStr.strip_with strippable s.
Proof.
  intros Hc. unfold PyStr.strip_with. rewrite lstrip_app_strippable by done.
  destruct (PyStr.lstrip strippable s) as [|d kept]; [done|].
  by apply rstrip_app_strippable.
Qed.

(** X19.  The address of a file in the API does not depend on a slash before
    or behind its path: for a non-empty path, the path with a slash added at
    either end gives the address the path itself gives. *)
Theorem api_url_ignores_outer_slashes owner repo path branch :
  path <> "" ->
  build_github_api_url owner repo ("/" +:+ path) branch
  = build_github_api_url owner repo path branch
  /\ build_github_api_url owner repo (path +:+ "/") branch
     = build_github_api_url owner repo path branch.
Proof.
  intros Hpath. unfold build_github_api_url.
  destruct (String.eqb_spec path "") as [|_]; [done|].
  destruct (String.eqb_spec (path +:+ "/") "") as [Hempty|_].
  { by destruct path. }
  change (String.eqb ("/" +:+ path) "") with false. cbn [negb].
  split.
  - reflexivity.
  - unfold PyStr.strip_chars. by rewrite strip_app_strippable.
Qed.

End ApiUrl.

Lemma api_url_ignores_outer_slashes_witness :
  Parser.build_github_api_url "owner" "repo" ("/" +:+ "docs/a.md") "main"
  = Parser.build_github_api_url "owner" "repo" "docs/a.md" "main"
  /\ Parser.build_github_api_url "owner" "repo" ("docs/a.md" +:+ "/") "main"
     = Parser.build_github_api_url "owner" "repo" "docs/a.md" "main".
Proof. apply (api_url_ignores_outer_slashes "owner" "repo" "docs/a.md" "main"). discriminate. Defined.
